(** * lithopserve worker profiler: a shallow embedding and its properties

    The development follows the Python sources file by file:

    - [worker/metrics.py]            the metric records and their arithmetic;
    - [worker/metrics_collectors.py] the four collectors and the aggregator;
    - [worker/profiler.py]           the sampling loop;
    - [worker/profiler_context.py]   the supervision context;
    - [util/metrics.py]              the construction of the exporter.

    Python numbers are [int] (unbounded, [Z]) or [float] (IEEE 754 binary64,
    Rocq's primitive floats).  An exception is a value of [exn]; a
    computation that may raise returns a [result]. *)

From Stdlib Require Import ZArith List Ascii Floats Lia.
From stdpp Require Import base option list strings pretty gmap.

Local Open Scope string_scope.
Local Open Scope Z_scope.

(** ** Python values *)

Inductive exn :=
| TypeError (msg : string)
| ValueError (msg : string)
| KeyError (key : string)
| AttributeError (msg : string)
| ZeroDivisionError (msg : string)
| NoSuchProcess (pid : Z)
| OSError (msg : string).

Inductive result (A : Type) :=
| Ok (a : A)
| Raise (e : exn).
Arguments Ok {A} a.
Arguments Raise {A} e.

Definition rbind {A B} (r : result A) (k : A -> result B) : result B :=
  match r with
  | Ok a => k a
  | Raise e => Raise e
  end.

(** A Python number: [int] or [float]. *)
Inductive number :=
| Int (z : Z)
| Float (f : float).

(** [float(z)]: the double nearest to [z], ties to even.  CPython raises
    OverflowError once [z] leaves the range of a double; byte counters,
    round numbers and pids stay far below it, and the conversion here
    rounds to an infinity there. *)
Definition float_of_int (z : Z) : float :=
  SF2Prim (binary_normalize prec emax z 0 false).

Definition to_float (n : number) : float :=
  match n with
  | Int z => float_of_int z
  | Float f => f
  end.

(** [a + b] and [a - b]: integer arithmetic on two ints, double arithmetic
    once a float is involved. *)
Definition num_add (a b : number) : number :=
  match a, b with
  | Int x, Int y => Int (x + y)
  | _, _ => Float (to_float a + to_float b)
  end.

Definition num_sub (a b : number) : number :=
  match a, b with
  | Int x, Int y => Int (x - y)
  | _, _ => Float (to_float a - to_float b)
  end.

(** Three-way comparison of an int with a float, exact as in CPython
    ([None]: not comparable, the float is a NaN). *)
Definition compare_int_float (z : Z) (f : float) : option comparison :=
  match Prim2SF f with
  | S754_nan => None
  | S754_infinity s => Some (if s then Gt else Lt)
  | S754_zero _ => Some (z ?= 0)
  | S754_finite s m e =>
      let v := if s then Z.neg m else Z.pos m in
      Some (if 0 <=? e then z ?= v * 2 ^ e else z * 2 ^ (- e) ?= v)
  end.

Definition num_compare (a b : number) : option comparison :=
  match a, b with
  | Int x, Int y => Some (x ?= y)
  | Float x, Float y => SFcompare (Prim2SF x) (Prim2SF y)
  | Int x, Float y => compare_int_float x y
  | Float x, Int y => option_map CompOpp (compare_int_float y x)
  end.

(** [a == b], [a < b], [a > b]. *)
Definition num_eqb (a b : number) : bool :=
  match num_compare a b with Some Eq => true | _ => false end.
Definition num_ltb (a b : number) : bool :=
  match num_compare a b with Some Lt => true | _ => false end.
Definition num_gtb (a b : number) : bool :=
  match num_compare a b with Some Gt => true | _ => false end.

(** [a / b], true division: always a float; a zero divisor raises.  The
    quotient of two ints is taken on their doubles, which is CPython's
    quotient as long as both ints are below 2^53 in size (past that
    CPython rounds the exact quotient once, and raises OverflowError past
    the range of a double). *)
Definition num_truediv (a b : number) : result number :=
  if num_eqb b (Int 0) then Raise (ZeroDivisionError "division by zero")
  else Ok (Float (to_float a / to_float b)).

(** The builtin [max(a, b)]: the first argument unless the second is
    strictly greater. *)
Definition py_max (a b : number) : number :=
  if num_gtb b a then b else a.

(** A keyword dictionary ([dict] keeps insertion order). *)
Definition dict (V : Type) := list (string * V).

Fixpoint dict_get {V} (d : dict V) (k : string) : option V :=
  match d with
  | [] => None
  | (k', v) :: d' => if String.eqb k k' then Some v else dict_get d' k
  end.

(** [d[k] = v]: overwrite in place, or append a new key. *)
Fixpoint dict_set {V} (d : dict V) (k : string) (v : V) : dict V :=
  match d with
  | [] => [(k, v)]
  | (k', v') :: d' =>
      if String.eqb k k' then (k', v) :: d' else (k', v') :: dict_set d' k v
  end.

(** [d.update(e)] *)
Definition dict_update {V} (d e : dict V) : dict V :=
  fold_left (fun acc kv => dict_set acc (fst kv) (snd kv)) e d.

Definition dict_keys {V} (d : dict V) : list string := map fst d.

Definition mem_string (k : string) (l : list string) : bool :=
  existsb (String.eqb k) l.

(** ** worker/metrics.py *)

Module Metrics.

(** The six dataclasses. *)
Inductive class :=
| MetricBase
| ProcessMetric
| CPUMetric
| MemoryMetric
| DiskMetric
| NetworkMetric.

#[global] Instance class_eq_dec : EqDecision class.
Proof. solve_decision. Defined.

Definition class_eqb (c d : class) : bool :=
  match c, d with
  | MetricBase, MetricBase | ProcessMetric, ProcessMetric
  | CPUMetric, CPUMetric | MemoryMetric, MemoryMetric
  | DiskMetric, DiskMetric | NetworkMetric, NetworkMetric => true
  | _, _ => false
  end.

Definition __name__ (c : class) : string :=
  match c with
  | MetricBase => "MetricBase"
  | ProcessMetric => "ProcessMetric"
  | CPUMetric => "CPUMetric"
  | MemoryMetric => "MemoryMetric"
  | DiskMetric => "DiskMetric"
  | NetworkMetric => "NetworkMetric"
  end.

(** The base class named in each [class] statement. *)
Definition base (c : class) : option class :=
  match c with
  | MetricBase => None
  | ProcessMetric => Some MetricBase
  | CPUMetric | MemoryMetric | DiskMetric => Some ProcessMetric
  | NetworkMetric => Some MetricBase
  end.

(** [issubclass(c, d)]; the hierarchy is two levels deep. *)
Definition issubclass (c d : class) : bool :=
  class_eqb c d
  || match base c with
     | Some b => class_eqb b d
                 || match base b with Some bb => class_eqb bb d | None => false end
     | None => false
     end.

(** The class attribute METRIC_TYPES_FIELDS, where a class defines it. *)
Definition METRIC_TYPES_FIELDS (c : class) : option (list string) :=
  match c with
  | MetricBase | ProcessMetric => None
  | CPUMetric =>
      Some ["cpu_usage"; "user_time"; "system_time";
            "children_user_time"; "children_system_time"; "iowait_time"]
  | MemoryMetric => Some ["memory_usage"]
  | DiskMetric =>
      Some ["disk_read_mb"; "disk_write_mb"; "disk_read_rate"; "disk_write_rate"]
  | NetworkMetric =>
      Some ["net_read_mb"; "net_write_mb"; "net_read_rate"; "net_write_rate"]
  end.

(** The fields a class declares itself, in order. *)
Definition own_fields (c : class) : list string :=
  match c with
  | MetricBase => ["timestamp"; "collection_id"]
  | ProcessMetric => ["pid"; "parent_pid"]
  | _ => default [] (METRIC_TYPES_FIELDS c)
  end.

(** The parameters of the [__init__] that [@dataclass] generates: the
    fields of the bases first, then the class's own.  None has a default,
    so each is required. *)
Definition init_params (c : class) : list string :=
  match base c with
  | None => own_fields c
  | Some b =>
      match base b with
      | None => own_fields b ++ own_fields c
      | Some bb => own_fields bb ++ own_fields b ++ own_fields c
      end
  end.

(** An instance.  Only the four leaf classes have instances: the
    [__post_init__] of the two bases raises.  Every slot holds a number. *)
Inductive Metric :=
| CPU (timestamp collection_id pid parent_pid
       cpu_usage user_time system_time
       children_user_time children_system_time iowait_time : number)
| Memory (timestamp collection_id pid parent_pid memory_usage : number)
| Disk (timestamp collection_id pid parent_pid
        disk_read_mb disk_write_mb disk_read_rate disk_write_rate : number)
| Network (timestamp collection_id
           net_read_mb net_write_mb net_read_rate net_write_rate : number).

(** [type(m)] *)
Definition type (m : Metric) : class :=
  match m with
  | CPU _ _ _ _ _ _ _ _ _ _ => CPUMetric
  | Memory _ _ _ _ _ => MemoryMetric
  | Disk _ _ _ _ _ _ _ _ => DiskMetric
  | Network _ _ _ _ _ _ => NetworkMetric
  end.

(** The classes whose instances are about one process. *)
Definition process_scoped (c : class) : bool :=
  match c with
  | CPUMetric | MemoryMetric | DiskMetric => true
  | _ => false
  end.

(** [isinstance(m, c)] *)
Definition isinstance (m : Metric) (c : class) : bool := issubclass (type m) c.

(** The slots of an instance, by name, in [init_params] order. *)
Definition slots (m : Metric) : dict number :=
  match m with
  | CPU ts cid p pp cu ut st cut cst io =>
      [("timestamp", ts); ("collection_id", cid); ("pid", p); ("parent_pid", pp);
       ("cpu_usage", cu); ("user_time", ut); ("system_time", st);
       ("children_user_time", cut); ("children_system_time", cst);
       ("iowait_time", io)]
  | Memory ts cid p pp mu =>
      [("timestamp", ts); ("collection_id", cid); ("pid", p); ("parent_pid", pp);
       ("memory_usage", mu)]
  | Disk ts cid p pp r w rr wr =>
      [("timestamp", ts); ("collection_id", cid); ("pid", p); ("parent_pid", pp);
       ("disk_read_mb", r); ("disk_write_mb", w);
       ("disk_read_rate", rr); ("disk_write_rate", wr)]
  | Network ts cid r w rr wr =>
      [("timestamp", ts); ("collection_id", cid);
       ("net_read_mb", r); ("net_write_mb", w);
       ("net_read_rate", rr); ("net_write_rate", wr)]
  end.

(** [getattr(m, name, None)] *)
Definition getattr (m : Metric) (name : string) : option number :=
  dict_get (slots m) name.

Definition timestamp (m : Metric) : number :=
  match m with
  | CPU ts _ _ _ _ _ _ _ _ _ | Memory ts _ _ _ _
  | Disk ts _ _ _ _ _ _ _ | Network ts _ _ _ _ _ => ts
  end.

Definition collection_id (m : Metric) : number :=
  match m with
  | CPU _ cid _ _ _ _ _ _ _ _ | Memory _ cid _ _ _
  | Disk _ cid _ _ _ _ _ _ | Network _ cid _ _ _ _ => cid
  end.

(** [m.pid] and [m.parent_pid]: a NetworkMetric has neither slot. *)
Definition pid (m : Metric) : option number :=
  match m with
  | CPU _ _ p _ _ _ _ _ _ _ | Memory _ _ p _ _ | Disk _ _ p _ _ _ _ _ => Some p
  | Network _ _ _ _ _ _ => None
  end.

Definition parent_pid (m : Metric) : option number :=
  match m with
  | CPU _ _ _ pp _ _ _ _ _ _ | Memory _ _ _ pp _ | Disk _ _ _ pp _ _ _ _ => Some pp
  | Network _ _ _ _ _ _ => None
  end.

(** The message of the TypeError CPython raises for required parameters
    that a call leaves out. *)
Definition quote (s : string) : string := "'" ++ s ++ "'".

Fixpoint enumerate_tail (l : list string) : string :=
  match l with
  | [] => ""
  | [z] => "and " ++ quote z
  | y :: l' => quote y ++ ", " ++ enumerate_tail l'
  end.

Definition enumerate_names (names : list string) : string :=
  match names with
  | [] => ""
  | [a] => quote a
  | [a; b] => quote a ++ " and " ++ quote b
  | _ => enumerate_tail names
  end.

Definition missing_arguments (c : class) (names : list string) : exn :=
  TypeError (__name__ c ++ ".__init__() missing " ++ pretty (length names)
             ++ " required positional argument"
             ++ (if (length names =? 1)%nat then "" else "s") ++ ": "
             ++ enumerate_names names).

Definition unexpected_keyword (c : class) (name : string) : exn :=
  TypeError (__name__ c ++ ".__init__() got an unexpected keyword argument "
             ++ quote name).

(** Fill the slots of class [c] from keyword arguments that name every
    parameter. *)
Definition fill (c : class) (kw : dict number) : option Metric :=
  let arg := dict_get kw in
  match c with
  | MetricBase | ProcessMetric => None
  | CPUMetric =>
      ts ← arg "timestamp"; cid ← arg "collection_id";
      p ← arg "pid"; pp ← arg "parent_pid";
      cu ← arg "cpu_usage"; ut ← arg "user_time"; st ← arg "system_time";
      cut ← arg "children_user_time"; cst ← arg "children_system_time";
      io ← arg "iowait_time";
      Some (CPU ts cid p pp cu ut st cut cst io)
  | MemoryMetric =>
      ts ← arg "timestamp"; cid ← arg "collection_id";
      p ← arg "pid"; pp ← arg "parent_pid";
      mu ← arg "memory_usage";
      Some (Memory ts cid p pp mu)
  | DiskMetric =>
      ts ← arg "timestamp"; cid ← arg "collection_id";
      p ← arg "pid"; pp ← arg "parent_pid";
      r ← arg "disk_read_mb"; w ← arg "disk_write_mb";
      rr ← arg "disk_read_rate"; wr ← arg "disk_write_rate";
      Some (Disk ts cid p pp r w rr wr)
  | NetworkMetric =>
      ts ← arg "timestamp"; cid ← arg "collection_id";
      r ← arg "net_read_mb"; w ← arg "net_write_mb";
      rr ← arg "net_read_rate"; wr ← arg "net_write_rate";
      Some (Network ts cid r w rr wr)
  end.

(** A call of class [c] with the keywords [kw] unpacked as its arguments:
    the generated [__init__] binds the keywords to the
    parameters (an unknown keyword or a parameter left out is a
    TypeError), then [__post_init__] runs. *)
Definition new (c : class) (kw : dict number) : result Metric :=
  match filter (fun k => negb (mem_string k (init_params c))) (dict_keys kw) with
  | k :: _ => Raise (unexpected_keyword c k)
  | [] =>
      match filter (fun p => negb (mem_string p (dict_keys kw))) (init_params c) with
      | (_ :: _) as missing => Raise (missing_arguments c missing)
      | [] =>
          match METRIC_TYPES_FIELDS c, fill c kw with
          | Some _, Some m => Ok m
          | _, _ =>
              Raise (AttributeError
                       (__name__ c ++ " must define 'METRIC_TYPES_FIELDS'."))
          end
      end
  end.

(** [__lt__]: records compare by timestamp. *)
Definition __lt__ (self other : Metric) : bool :=
  num_ltb (timestamp self) (timestamp other).

(** The loop [for field_name in self.METRIC_TYPES_FIELDS: new_data[field_name] = ...]
    of the three operators; [op] combines the attribute of [self] with
    whatever the operator pairs it with. *)
Fixpoint fill_new_data (fields : list string)
    (op : string -> result number) (new_data : dict number)
  : result (dict number) :=
  match fields with
  | [] => Ok new_data
  | field_name :: rest =>
      rbind (op field_name) (fun v =>
        fill_new_data rest op (dict_set new_data field_name v))
  end.

Definition self_fields (self : Metric) : list string :=
  default [] (METRIC_TYPES_FIELDS (type self)).

Definition __add__ (self other : Metric) : result Metric :=
  if negb (isinstance other (type self)) then
    Raise (TypeError ("Cannot add different metric types: "
                      ++ __name__ (type self) ++ " and " ++ __name__ (type other)))
  else
    let new_data :=
      [("timestamp", py_max (timestamp self) (timestamp other));
       ("collection_id", collection_id self)] in
    rbind (fill_new_data (self_fields self)
             (fun field_name =>
                Ok (num_add (default (Int 0) (getattr self field_name))
                            (default (Int 0) (getattr other field_name))))
             new_data)
          (new (type self)).

Definition __sub__ (self other : Metric) : result Metric :=
  if negb (isinstance other (type self)) then
    Raise (TypeError ("Cannot subtract different metric types: "
                      ++ __name__ (type self) ++ " and " ++ __name__ (type other)))
  else
    let new_data :=
      [("timestamp", py_max (timestamp self) (timestamp other));
       ("collection_id", collection_id self)] in
    rbind (fill_new_data (self_fields self)
             (fun field_name =>
                Ok (num_sub (default (Int 0) (getattr self field_name))
                            (default (Int 0) (getattr other field_name))))
             new_data)
          (new (type self)).

(** [number] is an int or a float here, so the [isinstance] test of the
    source passes. *)
Definition __truediv__ (self : Metric) (number : number) : result Metric :=
  if num_eqb number (Int 0) then Raise (ValueError "Cannot divide by zero.")
  else
    let new_data :=
      [("timestamp", timestamp self); ("collection_id", collection_id self)] in
    rbind (fill_new_data (self_fields self)
             (fun field_name =>
                num_truediv (default (Int 0) (getattr self field_name)) number)
             new_data)
          (new (type self)).

End Metrics.

(** ** The operating system and the interpreter state

    What psutil, [time] and [random] return is not the program's to decide.
    A [world] gives, for every moment at which the program looks, what it
    finds there; every look advances the moment, so that a process can be
    there for one call and gone for the next. *)

(** [psutil.Process.cpu_times()]; the last three fields exist on some
    platforms only. *)
Record pcputimes := {
  user : float;
  system : float;
  children_user : option float;
  children_system : option float;
  iowait : option float
}.

Record process_info := {
  info_ppid : Z;
  info_children : list Z;      (* [children(recursive=True)], as pids *)
  info_cpu_percent : float;
  info_cpu_times : pcputimes;
  info_rss : Z;                (* [memory_info().rss] *)
  info_read_bytes : Z;         (* [io_counters()] *)
  info_write_bytes : Z
}.

Record snapshot := {
  now : float;                          (* [time.time()] *)
  processes : Z -> option process_info; (* the process table *)
  bytes_recv : Z;                       (* [psutil.net_io_counters()] *)
  bytes_sent : Z;
  uniform01 : float;                    (* [random.uniform(0, 1)] *)
  delivered : list string               (* all the messages written so far
                                           to the profiler's control pipe *)
}.

Definition world := nat -> snapshot.

Inductive level := DEBUG | WARNING | ERROR.

(** A piece of text the program builds: a literal, the [str] of a number
    or of an exception, or the traceback of an exception.  A formatted
    string is the list of its pieces. *)
Inductive pystr :=
| Text (s : string)
| Str (n : number)
| StrExn (e : exn)
| Traceback (e : exn).

(** What the program does to the outside, in the order it does it. *)
Inductive event :=
| time_time
| psutil_Process (pid : Z)
| Process_children (pid : Z)
| Process_ppid (pid : Z)
| Process_cpu_percent (pid : Z)
| Process_cpu_times (pid : Z)
| Process_memory_info (pid : Z)
| Process_io_counters (pid : Z)
| psutil_net_io_counters
| random_uniform
| time_sleep (secs : number)
| conn_poll
| conn_recv (msg : string)
| conn_close
| send_metric (name : string) (value : float) (type : string)
              (labels : dict pystr)
| log (lvl : level) (msg : list pystr).

Record state := {
  tick : nat;                              (* looks at the world so far *)
  events : list event;                     (* oldest first *)
  cpu_metrics : list Metrics.Metric;       (* [cpu_collector.metrics] *)
  memory_metrics : list Metrics.Metric;    (* [memory_collector.metrics] *)
  disk_metrics : list Metrics.Metric;      (* [disk_collector.metrics] *)
  network_metrics : list Metrics.Metric;   (* [network_collector.metrics] *)
  received : nat;                          (* messages read from the pipe *)
  closed : bool                            (* the profiler's end of the pipe *)
}.

Definition initial_state : state :=
  {| tick := 0; events := []; cpu_metrics := []; memory_metrics := [];
     disk_metrics := []; network_metrics := []; received := 0; closed := false |}.

Definition emit (e : event) (s : state) : state :=
  {| tick := tick s; events := events s ++ [e];
     cpu_metrics := cpu_metrics s; memory_metrics := memory_metrics s;
     disk_metrics := disk_metrics s; network_metrics := network_metrics s;
     received := received s; closed := closed s |}.

Definition advance (s : state) : state :=
  {| tick := S (tick s); events := events s;
     cpu_metrics := cpu_metrics s; memory_metrics := memory_metrics s;
     disk_metrics := disk_metrics s; network_metrics := network_metrics s;
     received := received s; closed := closed s |}.

(** The four collections, by the attribute name MetricCollector gives them. *)
Inductive collection := Ccpu | Cmemory | Cdisk | Cnetwork.

Definition metrics_of (c : collection) (s : state) : list Metrics.Metric :=
  match c with
  | Ccpu => cpu_metrics s
  | Cmemory => memory_metrics s
  | Cdisk => disk_metrics s
  | Cnetwork => network_metrics s
  end.

(** [metrics.append(m)] on one of the four lists. *)
Definition append_metric (c : collection) (m : Metrics.Metric) (s : state) : state :=
  {| tick := tick s; events := events s;
     cpu_metrics := match c with Ccpu => cpu_metrics s ++ [m] | _ => cpu_metrics s end;
     memory_metrics :=
       match c with Cmemory => memory_metrics s ++ [m] | _ => memory_metrics s end;
     disk_metrics := match c with Cdisk => disk_metrics s ++ [m] | _ => disk_metrics s end;
     network_metrics :=
       match c with Cnetwork => network_metrics s ++ [m] | _ => network_metrics s end;
     received := received s; closed := closed s |}.

(** A computation over a state [S]: a result, or an exception, and the
    state it leaves.  A raise keeps what was done before it. *)
Definition ST (S A : Type) := S -> result A * S.

Definition ret {S A} (a : A) : ST S A := fun s => (Ok a, s).
Definition raise {S A} (e : exn) : ST S A := fun s => (Raise e, s).
Definition bind {S A B} (m : ST S A) (k : A -> ST S B) : ST S B :=
  fun s => match m s with
           | (Ok a, s') => k a s'
           | (Raise e, s') => (Raise e, s')
           end.
Definition lift {S A} (r : result A) : ST S A := fun s => (r, s).

(** The computations of the profiler process. *)
Abbreviation M := (ST state).

Notation "'let*' x := m 'in' k" := (bind m (fun x => k))
  (at level 10, x name, m at level 100, k at level 200).
Notation "'do' m 'in' k" := (bind m (fun _ => k))
  (at level 10, m at level 100, k at level 200).

(** [try: body / except <caught>: handler] *)
Definition try_except {S A} (body : ST S A) (caught : exn -> bool)
    (handler : exn -> ST S A) : ST S A :=
  fun s => match body s with
           | (Raise e, s') => if caught e then handler e s' else (Raise e, s')
           | ok => ok
           end.

Definition is_NoSuchProcess (e : exn) : bool :=
  match e with NoSuchProcess _ => true | _ => false end.

(** Every exception of [exn] is an [Exception]. *)
Definition is_Exception (e : exn) : bool := true.

Definition do_event (e : event) : M unit := fun s => (Ok tt, emit e s).

Definition logger (lvl : level) (msg : list pystr) : M unit :=
  do_event (log lvl msg).

(** [for x in l: body x] *)
Fixpoint for_each {S A} (l : list A) (body : A -> ST S unit) : ST S unit :=
  match l with
  | [] => ret tt
  | x :: l' => do body x in for_each l' body
  end.

Section World.

Variable w : world.

(** One look at the world, made for the call [e]. *)
Definition look (e : event) : M snapshot :=
  fun s => (Ok (w (tick s)), advance (emit e s)).

(** A call on the process [pid]: psutil raises NoSuchProcess when the
    process is gone by then.  The other errors of psutil (AccessDenied on
    a process of another user or on a zombie) are outside this model: a
    process that is there can be read. *)
Definition on_process {A} (e : event) (pid : Z) (f : process_info -> A) : M A :=
  let* snap := look e in
  match processes snap pid with
  | Some info => ret (f info)
  | None => raise (NoSuchProcess pid)
  end.

Definition Process (pid : Z) : M Z :=
  on_process (psutil_Process pid) pid (fun _ => pid).

Definition time : M float :=
  let* snap := look time_time in ret (now snap).

End World.

(** ** worker/metrics_collectors.py *)

Module Collectors.

Import Metrics.

(** The decorator [handle_psutil_error]. *)
Definition handle_psutil_error {A} (func : M A) : M (option A) :=
  try_except
    (let* r := func in ret (Some r))
    is_NoSuchProcess
    (fun _ =>
       do logger WARNING [Text "Process no longer exists."] in
       ret None).

(** [IMetricCollector._calculate_rates] *)
Definition _calculate_rates (current_value previous_value time_diff : number)
  : result number :=
  if num_gtb time_diff (Int 0)
  then num_truediv (num_sub current_value previous_value) time_diff
  else Ok (Int 0).

(** [BaseMetricCollector._find_previous_metric]: the first record, from
    the newest backwards, whose pid is [pid].  Reading [pid] off a record
    that has no such slot is an AttributeError. *)
Fixpoint first_of_pid (newest_first : list Metric) (pid : Z)
  : result (option Metric) :=
  match newest_first with
  | [] => Ok None
  | metric :: older =>
      match Metrics.pid metric with
      | Some p =>
          if num_eqb p (Int pid) then Ok (Some metric) else first_of_pid older pid
      | None =>
          Raise (AttributeError
                   ("'" ++ __name__ (type metric) ++ "' object has no attribute 'pid'"))
      end
  end.

Definition _find_previous_metric (metrics : list Metric) (pid : Z)
  : result (option Metric) :=
  first_of_pid (rev metrics) pid.

(** [GlobalMetricCollector._find_previous_metric] *)
Definition _find_previous_global (metrics : list Metric) : option Metric :=
  last metrics.

(** [1024.0**2] *)
Definition MB : number := Float (1024 * 1024)%float.

Module CPUMetricCollector.

Section World.

Variable w : world.

Definition _collect (pid parent_pid : Z) (timestamp : float) (collection_id : Z)
  : M (option Metric) :=
  handle_psutil_error
    (let* process := Process w pid in
     let* cpu_usage := on_process w (Process_cpu_percent process) process info_cpu_percent in
     let* cpu_times := on_process w (Process_cpu_times process) process info_cpu_times in
     let* cpu_metric :=
       lift (new CPUMetric
               [("timestamp", Float timestamp);
                ("pid", Int pid);
                ("parent_pid", Int parent_pid);
                ("cpu_usage", Float cpu_usage);
                ("user_time", Float (user cpu_times));
                ("system_time", Float (system cpu_times));
                ("children_user_time",
                 from_option Float (Int 0) (children_user cpu_times));
                ("children_system_time",
                 from_option Float (Int 0) (children_system cpu_times));
                ("iowait_time", from_option Float (Int 0) (iowait cpu_times));
                ("collection_id", Int collection_id)]) in
     fun s => (Ok cpu_metric, append_metric Ccpu cpu_metric s)).

(** [IMetricCollector.collect_metric] *)
Definition collect_metric (pid parent_pid collection_id : Z) : M (option Metric) :=
  let* current_time := time w in
  _collect pid parent_pid current_time collection_id.

End World.

End CPUMetricCollector.

Module MemoryMetricCollector.

Section World.

Variable w : world.

Definition _collect (pid parent_pid : Z) (timestamp : float) (collection_id : Z)
  : M (option Metric) :=
  handle_psutil_error
    (let* process := Process w pid in
     let* rss := on_process w (Process_memory_info process) process info_rss in
     let memory_usage := Z.shiftr rss 20 in
     let* memory_metric :=
       lift (new MemoryMetric
               [("timestamp", Float timestamp);
                ("pid", Int pid);
                ("parent_pid", Int parent_pid);
                ("memory_usage", Int memory_usage);
                ("collection_id", Int collection_id)]) in
     fun s => (Ok memory_metric, append_metric Cmemory memory_metric s)).

Definition collect_metric (pid parent_pid collection_id : Z) : M (option Metric) :=
  let* current_time := time w in
  _collect pid parent_pid current_time collection_id.

End World.

End MemoryMetricCollector.

Module DiskMetricCollector.

Section World.

Variable w : world.

(** The two rates, from the previous record of the same pid if there is
    one. *)
Definition rates (prev_metric : option Metric) (timestamp : float)
    (disk_read_mb disk_write_mb : number) : result (number * number) :=
  match prev_metric with
  | None => Ok (Int 0, Int 0)
  | Some prev =>
      let time_diff := num_sub (Float timestamp) (Metrics.timestamp prev) in
      match getattr prev "disk_read_mb", getattr prev "disk_write_mb" with
      | Some prev_read, Some prev_write =>
          rbind (_calculate_rates disk_read_mb prev_read time_diff) (fun read_rate =>
          rbind (_calculate_rates disk_write_mb prev_write time_diff) (fun write_rate =>
          Ok (read_rate, write_rate)))
      | None, _ =>
          Raise (AttributeError ("'" ++ __name__ (type prev)
                                 ++ "' object has no attribute 'disk_read_mb'"))
      | _, None =>
          Raise (AttributeError ("'" ++ __name__ (type prev)
                                 ++ "' object has no attribute 'disk_write_mb'"))
      end
  end.

Definition _collect (pid parent_pid : Z) (timestamp : float) (collection_id : Z)
  : M (option Metric) :=
  handle_psutil_error
    (let* process := Process w pid in
     let* io_counters :=
       on_process w (Process_io_counters process) process
         (fun info => (info_read_bytes info, info_write_bytes info)) in
     let* disk_read_mb := lift (num_truediv (Int (fst io_counters)) MB) in
     let* disk_write_mb := lift (num_truediv (Int (snd io_counters)) MB) in
     let* prev_metric := (fun s => (_find_previous_metric (disk_metrics s) pid, s)) in
     let* rate := lift (rates prev_metric timestamp disk_read_mb disk_write_mb) in
     let* disk_metric :=
       lift (new DiskMetric
               [("timestamp", Float timestamp);
                ("pid", Int pid);
                ("parent_pid", Int parent_pid);
                ("disk_read_mb", disk_read_mb);
                ("disk_write_mb", disk_write_mb);
                ("disk_read_rate", fst rate);
                ("disk_write_rate", snd rate);
                ("collection_id", Int collection_id)]) in
     fun s => (Ok disk_metric, append_metric Cdisk disk_metric s)).

Definition collect_metric (pid parent_pid collection_id : Z) : M (option Metric) :=
  let* current_time := time w in
  _collect pid parent_pid current_time collection_id.

End World.

End DiskMetricCollector.

Module NetworkMetricCollector.

Section World.

Variable w : world.

Definition rates (prev_metric : option Metric) (timestamp : float)
    (net_read_mb net_write_mb : number) : result (number * number) :=
  match prev_metric with
  | None => Ok (Int 0, Int 0)
  | Some prev =>
      let time_diff := num_sub (Float timestamp) (Metrics.timestamp prev) in
      match getattr prev "net_read_mb", getattr prev "net_write_mb" with
      | Some prev_read, Some prev_write =>
          rbind (_calculate_rates net_read_mb prev_read time_diff) (fun read_rate =>
          rbind (_calculate_rates net_write_mb prev_write time_diff) (fun write_rate =>
          Ok (read_rate, write_rate)))
      | None, _ =>
          Raise (AttributeError ("'" ++ __name__ (type prev)
                                 ++ "' object has no attribute 'net_read_mb'"))
      | _, None =>
          Raise (AttributeError ("'" ++ __name__ (type prev)
                                 ++ "' object has no attribute 'net_write_mb'"))
      end
  end.

Definition _collect (timestamp : float) (collection_id : Z) : M (option Metric) :=
  handle_psutil_error
    (let* net_counters := look w psutil_net_io_counters in
     let* net_read_mb := lift (num_truediv (Int (bytes_recv net_counters)) MB) in
     let* net_write_mb := lift (num_truediv (Int (bytes_sent net_counters)) MB) in
     let* prev_metric := (fun s => (Ok (_find_previous_global (network_metrics s)), s)) in
     let* rate := lift (rates prev_metric timestamp net_read_mb net_write_mb) in
     let* network_metric :=
       lift (new NetworkMetric
               [("timestamp", Float timestamp);
                ("net_read_mb", net_read_mb);
                ("net_write_mb", net_write_mb);
                ("net_read_rate", fst rate);
                ("net_write_rate", snd rate);
                ("collection_id", Int collection_id)]) in
     fun s => (Ok network_metric, append_metric Cnetwork network_metric s)).

(** [GlobalMetricCollector.collect_metric] *)
Definition collect_metric (collection_id : Z) : M (option Metric) :=
  let* timestamp := time w in
  _collect timestamp collection_id.

End World.

End NetworkMetricCollector.

(** *** class MetricCollector *)

Section World.

Variable w : world.

(** The list holds the pids of the psutil handles. *)
Definition _get_process_list (parent_pid : Z) : M (list Z) :=
  let* current_process := Process w parent_pid in
  let* children :=
    on_process w (Process_children current_process) current_process info_children in
  ret ([current_process] ++ children)%list.

Definition _collect_metrics_for_process (pid parent_pid index : Z) : M unit :=
  do MemoryMetricCollector.collect_metric w pid parent_pid index in
  do CPUMetricCollector.collect_metric w pid parent_pid index in
  do DiskMetricCollector.collect_metric w pid parent_pid index in
  ret tt.

Definition collect_all_metrics (parent_pid index : Z) : M unit :=
  let* process_list := _get_process_list parent_pid in
  do for_each process_list (fun proc =>
       let pid := proc in
       let* parent_pid := on_process w (Process_ppid proc) proc info_ppid in
       _collect_metrics_for_process pid parent_pid index) in
  do NetworkMetricCollector.collect_metric w index in
  ret tt.

End World.

End Collectors.

(** ** worker/profiler.py *)

Module Profiler.

Import Metrics Collectors.

(** The job descriptor: the three attributes the profiler reads. *)
Record job := {
  job_id : string;
  executor_id : string;
  call_id : string
}.

Definition METRIC_COLLECTIONS_FIELDS : dict (list string) :=
  [("cpu_metrics",
    ["cpu_usage"; "user_time"; "system_time";
     "children_user_time"; "children_system_time"; "iowait_time"]);
   ("memory_metrics", ["memory_usage"]);
   ("disk_metrics",
    ["disk_read_mb"; "disk_write_mb"; "disk_read_rate"; "disk_write_rate"]);
   ("network_metrics",
    ["net_read_mb"; "net_write_mb"; "net_read_rate"; "net_write_rate"])].

(** [getattr(self.metrics, metric_type, [])] *)
Definition collection_named (metric_type : string) (s : state) : list Metric :=
  if String.eqb metric_type "cpu_metrics" then cpu_metrics s
  else if String.eqb metric_type "memory_metrics" then memory_metrics s
  else if String.eqb metric_type "disk_metrics" then disk_metrics s
  else if String.eqb metric_type "network_metrics" then network_metrics s
  else [].

(** How one turn of the [while True] loop ends. *)
Inductive turn := Continue | Break.

(** How a run of the loop ends: it left the loop, or the model stopped
    following it with the loop still going. *)
Inductive run := Stopped | StillRunning.

Section World.

Variable w : world.

Definition _initialize_process (monitored_process_pid : Z) : M unit :=
  let* process := Process w monitored_process_pid in
  do on_process w (Process_cpu_percent process) process info_cpu_percent in
  ret tt.

Definition _prepare_profiling_data (j : job) : dict pystr :=
  [("job_id", Text (job_id j));
   ("executor_id", Text (executor_id j));
   ("call_id", Text (call_id j))].

Definition _collect_metrics (monitored_process_pid : Z) (index : nat) : M unit :=
  try_except
    (collect_all_metrics w monitored_process_pid (Z.of_nat index))
    is_NoSuchProcess
    (fun _ =>
       logger WARNING
         [Text "Process "; Str (Int monitored_process_pid);
          Text " does not exist. Skipping metric collection."]).

(** The exporter swallows its own failures and [labels] is a dict, so the
    call returns; the guard around it has nothing to catch. *)
Definition send_metric_to_prometheus (key : string) (value : float)
    (metric_type : string) (labels_dict : dict pystr) : M unit :=
  try_except
    (do_event (send_metric key value metric_type labels_dict))
    is_Exception
    (fun e =>
       logger ERROR [Text "Failed to send "; Text key;
                     Text " metric to Prometheus: "; StrExn e]).

(** [metric.pid], as an expression that may raise. *)
Definition attribute (name : string) (metric : Metric) : M number :=
  match getattr metric name with
  | Some v => ret v
  | None =>
      raise (AttributeError ("'" ++ __name__ (type metric)
                             ++ "' object has no attribute '" ++ name ++ "'"))
  end.

Definition _send_metrics_to_prometheus (metric : Metric) (metric_type : string)
    (keys : list string) (profiling_data : dict pystr) : M unit :=
  for_each keys (fun key =>
    match getattr metric key with
    | None => ret tt
    | Some metric_value =>
        (* [float(metric_value)] succeeds on an int and on a float *)
        let metric_value := to_float metric_value in
        let labels_dict := profiling_data in
        let* labels_dict :=
          if negb (String.eqb metric_type "network_metrics") then
            let* pid := attribute "pid" metric in
            let* parent_pid := attribute "parent_pid" metric in
            ret (dict_update labels_dict
                   [("pid", Str pid); ("parent_pid", Str parent_pid)])
          else ret labels_dict in
        send_metric_to_prometheus key metric_value "gauge" labels_dict
    end).

Definition _send_metrics (profiling_data : dict pystr) (index : nat) : M unit :=
  for_each METRIC_COLLECTIONS_FIELDS (fun item =>
    let metric_type := fst item in
    let keys := snd item in
    try_except
      (let* metric_list := (fun s => (Ok (collection_named metric_type s), s)) in
       if (index <? length metric_list)%nat then
         match metric_list !! index with
         | Some metric =>
             _send_metrics_to_prometheus metric metric_type keys profiling_data
         | None => ret tt
         end
       else ret tt)
      is_Exception
      (fun e =>
         logger ERROR [Text "Error while processing "; Text metric_type;
                       Text ": "; StrExn e])).

Definition _collect_and_send_metrics (profiling_data : dict pystr)
    (monitored_process_pid : Z) (index : nat) : M unit :=
  do _collect_metrics monitored_process_pid index in
  _send_metrics profiling_data index.

(** [conn.poll()] sees what has been delivered and not yet read;
    [conn.recv()] then takes the oldest such message.  The other end of
    the pipe stays open: the EOFError of a [recv] on a pipe whose peer is
    closed is outside this model. *)
Definition _check_stop_signal : M bool :=
  let* snap := look w conn_poll in
  let* unread := (fun s => (Ok (drop (received s) (delivered snap)), s)) in
  match unread with
  | message :: _ =>
      do (fun s => (Ok tt,
                    {| tick := tick s; events := (events s ++ [conn_recv message])%list;
                       cpu_metrics := cpu_metrics s; memory_metrics := memory_metrics s;
                       disk_metrics := disk_metrics s;
                       network_metrics := network_metrics s;
                       received := S (received s); closed := closed s |})) in
      if String.eqb message "stop" then
        do logger DEBUG
             [Text "Received stop signal, completing current data collection."] in
        ret true
      else ret false
  | [] => ret false
  end.

(** [time.sleep] is taken to accept the pause it is asked for; the real
    one refuses a pause too long for its clock (OverflowError, from about
    1e10 seconds). *)
Definition _sleep_until_next_interval (start_time : float) (profiler_timeout : number)
  : M unit :=
  let* t := time w in
  let elapsed_time := num_sub (Float t) (Float start_time) in
  let* snap := look w random_uniform in
  let random_delay := Float (uniform01 snap) in
  let sleep_time :=
    py_max (Int 0) (num_add (num_sub profiler_timeout elapsed_time) random_delay) in
  do_event (time_sleep sleep_time).

(** One turn of the loop: the body of [while True], with its inner
    [try]/[except psutil.NoSuchProcess]. *)
Definition loop_body (profiling_data : dict pystr) (monitored_process_pid : Z)
    (profiler_timeout : number) (index : nat) : M turn :=
  let* start_time := time w in
  try_except
    (do _collect_and_send_metrics profiling_data monitored_process_pid index in
     (* index += 1 *)
     let* stop := _check_stop_signal in
     if stop then ret Break
     else
       do _sleep_until_next_interval start_time profiler_timeout in
       ret Continue)
    is_NoSuchProcess
    (fun _ =>
       do logger WARNING
            [Text "Monitored process no longer exists, stopping data collection."] in
       ret Break).

(** [while True], followed for at most [turns] turns. *)
Fixpoint while_True (turns : nat) (profiling_data : dict pystr)
    (monitored_process_pid : Z) (profiler_timeout : number) (index : nat) : M run :=
  match turns with
  | O => ret StillRunning
  | S turns' =>
      let* t := loop_body profiling_data monitored_process_pid profiler_timeout index in
      match t with
      | Break => ret Stopped
      | Continue =>
          while_True turns' profiling_data monitored_process_pid profiler_timeout
            (S index)
      end
  end.

Definition close_conn : M unit :=
  fun s => (Ok tt,
            {| tick := tick s; events := (events s ++ [conn_close])%list;
               cpu_metrics := cpu_metrics s; memory_metrics := memory_metrics s;
               disk_metrics := disk_metrics s; network_metrics := network_metrics s;
               received := received s; closed := true |}).

(** [profiler_timeout or 10] *)
Definition timeout_or_10 (profiler_timeout : option number) : number :=
  match profiler_timeout with
  | Some t => if num_eqb t (Int 0) then Int 10 else t
  | None => Int 10
  end.

(** [start_profiling], its loop followed for at most [turns] turns.  The
    [finally] clause runs once the loop is left, by a [break] or by an
    exception. *)
Definition start_profiling (turns : nat) (monitored_process_pid : Z) (j : job)
    (profiler_timeout : option number) : M run :=
  let index := O in
  let profiler_timeout := timeout_or_10 profiler_timeout in
  do logger DEBUG
       [Text "Profiler timeout set to "; Str profiler_timeout; Text " seconds"] in
  do _initialize_process monitored_process_pid in
  let profiling_data := _prepare_profiling_data j in
  fun s =>
    match try_except
            (while_True turns profiling_data monitored_process_pid profiler_timeout index)
            is_Exception
            (fun e =>
               do logger ERROR [Traceback e] in
               do logger ERROR [Text "Exception in profiling process: "; StrExn e] in
               ret Stopped) s
    with
    | (Ok StillRunning, s') => (Ok StillRunning, s')
    | (r, s') =>
        match close_conn s' with
        | (Ok _, s'') => (r, s'')
        | (Raise e, s'') => (Raise e, s'')
        end
    end.

End World.

End Profiler.

(** ** worker/profiler_context.py *)

Module ProfilerContext.

Inductive conn := parent_conn | child_conn | jobrunner_conn.

(** The calls the context makes on its pipes and on the monitoring
    process. *)
Inductive call :=
| send (c : conn) (msg : string)
| poll (c : conn)
| recv (c : conn)
| close (c : conn)
| join (timeout : option number)
| is_alive
| terminate.

(** The monitoring process: running its loop, sent SIGTERM, or over. *)
Inductive monitor := Running | Signalled | Exited.

(** What the context cannot decide: which of its calls fail (by their
    position in the sequence of calls), whether its pipes are writable,
    what waits on the job-runner pipe, and whether the monitor leaves its
    loop by itself while the context waits for it. *)
Record env := {
  fault : nat -> option exn;
  writable : conn -> bool;
  inbox : list string;
  exits_in_time : bool
}.

Record state := {
  calls : list call;                  (* oldest first *)
  logs : list (level * list pystr);   (* oldest first *)
  monitoring_process : monitor;
  unread : list string;               (* of the job-runner pipe *)
  closed : list conn;
  blocked : bool                      (* an unbounded join that cannot return *)
}.

Definition started (e : env) : state :=
  {| calls := []; logs := []; monitoring_process := Running;
     unread := inbox e; closed := []; blocked := false |}.

Definition logger (lvl : level) (msg : list pystr) : ST state unit :=
  fun s => (Ok tt,
            {| calls := calls s; logs := (logs s ++ [(lvl, msg)])%list;
               monitoring_process := monitoring_process s; unread := unread s;
               closed := closed s; blocked := blocked s |}).

(** The effect of a call that does not fail. *)
Definition effect (e : env) (c : call) (s : state) : state :=
  match c with
  | recv jobrunner_conn =>
      {| calls := calls s; logs := logs s;
         monitoring_process := monitoring_process s; unread := tail (unread s);
         closed := closed s; blocked := blocked s |}
  | close c =>
      {| calls := calls s; logs := logs s;
         monitoring_process := monitoring_process s; unread := unread s;
         closed := (closed s ++ [c])%list; blocked := blocked s |}
  | join (Some _) =>
      {| calls := calls s; logs := logs s;
         monitoring_process :=
           match monitoring_process s with
           | Running => if exits_in_time e then Exited else Running
           | _ => Exited
           end;
         unread := unread s; closed := closed s; blocked := blocked s |}
  | join None =>
      {| calls := calls s; logs := logs s;
         monitoring_process :=
           match monitoring_process s with
           | Running => if exits_in_time e then Exited else Running
           | _ => Exited
           end;
         unread := unread s; closed := closed s;
         blocked :=
           match monitoring_process s with
           | Running => negb (exits_in_time e)
           | _ => blocked s
           end |}
  | terminate =>
      {| calls := calls s; logs := logs s;
         monitoring_process :=
           match monitoring_process s with
           | Running => Signalled
           | other => other
           end;
         unread := unread s; closed := closed s; blocked := blocked s |}
  | _ => s
  end.

Section Env.

Variable e : env.

(** Make the call [c]: it is recorded, then fails or takes effect. *)
Definition perform (c : call) : ST state unit :=
  fun s =>
    let s' := {| calls := (calls s ++ [c])%list; logs := logs s;
                 monitoring_process := monitoring_process s; unread := unread s;
                 closed := closed s; blocked := blocked s |} in
    match fault e (length (calls s)) with
    | Some x => (Raise x, s')
    | None => (Ok tt, effect e c s')
    end.

(** [conn.poll()] on the job-runner pipe *)
Definition poll_jobrunner : ST state bool :=
  let* pending := (fun s => (Ok (unread s), s)) in
  do perform (poll jobrunner_conn) in
  ret (match pending with [] => false | _ => true end).

(** [conn.recv()] on the job-runner pipe, called once [poll] said yes *)
Definition recv_jobrunner : ST state string :=
  let* pending := (fun s => (Ok (unread s), s)) in
  do perform (recv jobrunner_conn) in
  ret (hd "" pending).

Definition monitoring_process_is_alive : ST state bool :=
  do perform is_alive in
  fun s => (Ok (match monitoring_process s with Exited => false | _ => true end), s).

Definition _send_stop_signal (c : conn) : ST state unit :=
  if writable e c then perform (send c "stop")
  else logger WARNING [Text "Parent connection is not writable"].

Definition _handle_jobrunner_signal : ST state unit :=
  let* ready := poll_jobrunner in
  if ready then
    let* message := recv_jobrunner in
    if String.eqb message "Finished" then _send_stop_signal jobrunner_conn
    else ret tt
  else ret tt.

Definition _finalize_process : ST state unit :=
  try_except
    (do perform (join (Some (Int 5))) in
     let* alive := monitoring_process_is_alive in
     if alive then
       do logger WARNING [Text "Profiling process is still alive, terminating..."] in
       do perform terminate in
       perform (join None)
     else ret tt)
    is_Exception
    (fun x =>
       do logger ERROR [Text "Error finalizing profiling process: "; StrExn x] in
       let* alive := monitoring_process_is_alive in
       if alive then
         do perform terminate in
         perform (join None)
       else ret tt).

Definition _close_connections : ST state unit :=
  try_except
    (do perform (close parent_conn) in
     perform (close child_conn))
    is_Exception
    (fun x => logger ERROR [Text "Error closing pipe connections: "; StrExn x]).

(** The [finally] clause of [profiling_context]. *)
Definition release : ST state unit :=
  do try_except (_send_stop_signal parent_conn) is_Exception
       (fun x => logger ERROR [Text "Failed to send stop signal: "; StrExn x]) in
  do try_except _handle_jobrunner_signal is_Exception
       (fun x => logger ERROR [Text "Error handling jobrunner signal: "; StrExn x]) in
  do _finalize_process in
  _close_connections.

(** [profiling_context] from the [yield] on: [body] is how the caller's
    block ended.  The [finally] clause runs either way; an exception of
    its own replaces the outcome of the block. *)
Definition profiling_context (body : result unit) : ST state unit :=
  do release in
  lift body.

End Env.

End ProfilerContext.

(** ** util/metrics.py *)

Module PrometheusExporter.

Record t := {
  enabled : bool;
  apigateway : option string;
  job : string;
  instance : string
}.

(** [s.split('-')[0]] *)
Fixpoint before_dash (s : string) : string :=
  match s with
  | EmptyString => EmptyString
  | String c s' => if Ascii.eqb c "-"%char then EmptyString else String c (before_dash s')
  end.

(** [__init__(self, enabled, config)], in the process environment
    [environ].  [config] is a dict or None; an empty dict is falsy. *)
Definition __init__ (environ : gmap string string) (enabled : bool)
    (config : option (gmap string string)) : result t :=
  let apigateway :=
    match config with
    | Some c => if decide (c = ∅) then None else c !! "apigateway"
    | None => None
    end in
  match environ !! "__LITHOPS_SESSION_ID" with
  | None => Raise (KeyError "__LITHOPS_SESSION_ID")
  | Some session_id =>
      Ok {| enabled := enabled; apigateway := apigateway;
            job := "lithops"; instance := before_dash session_id |}
  end.

End PrometheusExporter.

(** ** The vocabulary of the properties *)

Module Spec.

Import Metrics.

(** The process [pid] is there at every moment from [from] on, or at none. *)
Definition alive (w : world) (pid : Z) : Prop :=
  forall t, processes (w t) pid <> None.

Definition gone (w : world) (pid : Z) (from : nat) : Prop :=
  forall t, (from <= t)%nat -> processes (w t) pid = None.

(** Each of the four lists holds records of its collector's class. *)
Definition class_of (c : collection) : class :=
  match c with
  | Ccpu => CPUMetric
  | Cmemory => MemoryMetric
  | Cdisk => DiskMetric
  | Cnetwork => NetworkMetric
  end.

Definition well_typed (s : state) : Prop :=
  forall c, Forall (fun m => type m = class_of c) (metrics_of c s).

(** The record is about the process [pid]. *)
Definition about (pid : Z) (m : Metric) : bool :=
  match Metrics.pid m with
  | Some p => num_eqb p (Int pid)
  | None => false
  end.

(** The previous sample of a subject: the last record about it in the
    sequence. *)
Definition previous_sample (samples : list Metric) (pid : Z) : option Metric :=
  last (List.filter (about pid) samples).

(** A derived rate: [(current - previous) / dt] if [dt > 0], else 0. *)
Definition derived_rate (current previous dt : number) : number :=
  if num_gtb dt (Int 0)
  then Float (to_float (num_sub current previous) / to_float dt)
  else Int 0.

(** The rate a new sample must carry for the cumulative field [field],
    given the previous sample of the same subject, if any. *)
Definition expected_rate (previous : option Metric) (field : string)
    (current : number) (timestamp : number) : number :=
  match previous with
  | Some prev =>
      derived_rate current (default (Int 0) (getattr prev field))
        (num_sub timestamp (Metrics.timestamp prev))
  | None => Int 0
  end.

(** [n] bytes in MB. *)
Definition megabytes (n : Z) : number := Float (float_of_int n / 1048576).

(** What a per-process collector leaves behind when the process is gone:
    it asked the time, looked the process up, and logged a warning. *)
Definition absent_trace (pid : Z) : list event :=
  [time_time; psutil_Process pid; log WARNING [Text "Process no longer exists."]].

(** The computation [run] returns no record for [pid]: it leaves the trace
    above and the four lists as they were. *)
Definition returns_absent (run : M (option Metric)) (s : state) (pid : Z) : Prop :=
  exists s',
    run s = (Ok None, s')
    /\ events s' = (events s ++ absent_trace pid)%list
    /\ forall c, metrics_of c s' = metrics_of c s.

(** The calls one process costs in a round, in order: its parent, then
    the memory, the CPU and the disk sample. *)
Definition process_calls (pid : Z) : list event :=
  [Process_ppid pid;
   time_time; psutil_Process pid; Process_memory_info pid;
   time_time; psutil_Process pid; Process_cpu_percent pid; Process_cpu_times pid;
   time_time; psutil_Process pid; Process_io_counters pid].

(** The calls of a whole round over the process list [procs] of [root]. *)
Definition round_calls (root : Z) (procs : list Z) : list event :=
  ([psutil_Process root; Process_children root]
   ++ flat_map process_calls procs
   ++ [time_time; psutil_net_io_counters])%list.

(** The descendants psutil reports for [pid] at the moment [t]. *)
Definition descendants (w : world) (t : nat) (pid : Z) : list Z :=
  match processes (w t) pid with
  | Some info => info_children info
  | None => []
  end.

(** The state [s'] is [s] after the events [evs], with the records [cpu],
    [mem], [disk] and [net] appended to the four lists. *)
Record grows (s s' : state) (evs : list event) (cpu mem disk net : list Metric)
  : Prop := {
  grows_events : events s' = (events s ++ evs)%list;
  grows_cpu : cpu_metrics s' = (cpu_metrics s ++ cpu)%list;
  grows_memory : memory_metrics s' = (memory_metrics s ++ mem)%list;
  grows_disk : disk_metrics s' = (disk_metrics s ++ disk)%list;
  grows_network : network_metrics s' = (network_metrics s ++ net)%list;
  grows_received : received s' = received s;
  grows_closed : closed s' = closed s
}.

(** The records are of the round [index] and about the processes [procs],
    in that order. *)
Definition samples_of (index : Z) (procs : list Z) (c : class) (records : list Metric)
  : Prop :=
  map Metrics.pid records = map (fun p => Some (Int p)) procs
  /\ Forall (fun m => type m = c /\ collection_id m = Int index) records.

(** The example of the specification: the process 7 has read 10 MB when
    it is first sampled and 15 MB from then on. *)
Definition reader : pcputimes :=
  {| user := 0; system := 0; children_user := None; children_system := None;
     iowait := None |}.

Definition reading (t : nat) : snapshot :=
  {| now := 0;
     processes := fun pid =>
       if pid =? 7 then
         Some {| info_ppid := 1; info_children := []; info_cpu_percent := 0;
                 info_cpu_times := reader; info_rss := 0;
                 info_read_bytes := if (t <? 2)%nat then 10485760 else 15728640;
                 info_write_bytes := 0 |}
       else None;
     bytes_recv := 0; bytes_sent := 0; uniform01 := 0; delivered := [] |}.

(** A root, the process 10, with two children, 11 and 12, all three there
    at every moment; nothing arrives on the control pipe. *)
Definition busy : pcputimes :=
  {| user := 1.5; system := 0.5; children_user := Some 0%float;
     children_system := Some 0%float; iowait := None |}.

Definition member (ppid : Z) (children : list Z) : process_info :=
  {| info_ppid := ppid; info_children := children; info_cpu_percent := 12.5;
     info_cpu_times := busy; info_rss := 52428800;
     info_read_bytes := 10485760; info_write_bytes := 0 |}.

Definition family (t : nat) : snapshot :=
  {| now := 0;
     processes := fun pid =>
       if pid =? 10 then Some (member 1 [11; 12])
       else if (pid =? 11) || (pid =? 12) then Some (member 10 [])
       else None;
     bytes_recv := 0; bytes_sent := 0; uniform01 := 0.5; delivered := [] |}.

(** The same root without its children, there while the profiler
    initialises (two looks at the world) and gone afterwards. *)
Definition orphan (t : nat) : snapshot :=
  {| now := 0;
     processes := fun pid =>
       if (pid =? 10) && (t <? 2)%nat then Some (member 1 []) else None;
     bytes_recv := 0; bytes_sent := 0; uniform01 := 0.5; delivered := [] |}.

Definition a_job : Profiler.job :=
  {| Profiler.job_id := "J1"; Profiler.executor_id := "E1"; Profiler.call_id := "C1" |}.

(** The event exports a field of a record about the process [pid]. *)
Definition exports_pid (pid : Z) (e : event) : bool :=
  match e with
  | send_metric _ _ _ labels =>
      match dict_get labels "pid" with
      | Some (Str (Int p)) => p =? pid
      | _ => false
      end
  | _ => false
  end.

Definition is_export (e : event) : bool :=
  match e with
  | send_metric _ _ _ _ => true
  | _ => false
  end.

(** Nothing collected, nothing read from the pipe, the pipe open, and the
    profiler past its initialisation. *)
Definition idle (s : state) : Prop :=
  (2 <= tick s)%nat
  /\ cpu_metrics s = [] /\ memory_metrics s = []
  /\ disk_metrics s = [] /\ network_metrics s = []
  /\ received s = 0%nat /\ closed s = false.

End Spec.

Module ContextSpec.

Import ProfilerContext.

(** [s'] has made the calls and written the log lines of [s], and maybe
    more. *)
Definition keeps (s s' : state) : Prop :=
  (forall c, In c (calls s) -> In c (calls s'))
  /\ (forall l, In l (logs s) -> In l (logs s')).

(** The stop token was sent to the monitor, or the pipe was found
    unwritable and the warning logged. *)
Definition stop_attempted (s : state) : Prop :=
  In (send parent_conn "stop") (calls s)
  \/ In (WARNING, [Text "Parent connection is not writable"]) (logs s).

(** The four steps of the release have all been entered. *)
Definition runs_all_steps (s : state) : Prop :=
  stop_attempted s
  /\ In (poll jobrunner_conn) (calls s)
  /\ In (join (Some (Int 5))) (calls s)
  /\ In (close parent_conn) (calls s).

(** Nothing fails; the monitor does not leave its loop by itself. *)
Definition unresponsive : env :=
  {| fault := fun _ => None; writable := fun _ => true;
     inbox := ["Finished"]; exits_in_time := false |}.

(** The handle of the monitoring process has been closed: every call on
    it raises, here the bounded join (the third call) and the liveness
    test that follows it. *)
Definition process_object_is_closed : exn := ValueError "process object is closed".

Definition closed_handle : env :=
  {| fault := fun n =>
       if (n =? 2)%nat || (n =? 3)%nat then Some process_object_is_closed else None;
     writable := fun _ => true;
     inbox := [];
     exits_in_time := false |}.

End ContextSpec.

(** ** More vocabulary *)

Module Spec2.

Import Metrics Spec.

#[global] Instance collection_eq_dec : EqDecision collection.
Proof. solve_decision. Defined.

(** The four lists of [s'] are those of [s], each with records of its
    class appended. *)
Definition extends (s s' : state) : Prop :=
  forall c, exists new,
    metrics_of c s' = (metrics_of c s ++ new)%list
    /\ Forall (fun m => type m = class_of c) new.

(** The list [c] of [s'] is that of [s] followed by [new]; the three
    other lists are those of [s]. *)
Definition appends (c : collection) (new : list Metric) (s s' : state) : Prop :=
  metrics_of c s' = (metrics_of c s ++ new)%list
  /\ forall c', c' <> c -> metrics_of c' s' = metrics_of c' s.

(** The four lists of [s'] are those of [s]. *)
Definition same_metrics (s s' : state) : Prop :=
  forall c, metrics_of c s' = metrics_of c s.

(** Between [s] and [s'] only events happened: the lists, the pipe and
    the moment are the same. *)
Definition only_events (s s' : state) : Prop :=
  same_metrics s s'
  /\ received s' = received s /\ closed s' = closed s /\ tick s' = tick s.

(** The state after the events [evs], in order. *)
Definition emit_all (evs : list event) (s : state) : state :=
  fold_left (fun s e => emit e s) evs s.

(** The exports of one record: a value per key that names one of its
    slots, all with the same labels. *)
Definition exports_of (m : Metric) (keys : list string) (labels : dict pystr)
  : list event :=
  flat_map (fun key =>
              match getattr m key with
              | Some v => [send_metric key (to_float v) "gauge" labels]
              | None => []
              end) keys.

(** The labels of a record: those of the job, and for a record about a
    process its pid and the pid of its parent. *)
Definition labels_of (j : Profiler.job) (m : Metric) : dict pystr :=
  ([("job_id", Text (Profiler.job_id j));
    ("executor_id", Text (Profiler.executor_id j));
    ("call_id", Text (Profiler.call_id j))]
   ++ match pid m, parent_pid m with
      | Some p, Some pp => [("pid", Str p); ("parent_pid", Str pp)]
      | _, _ => []
      end)%list.

(** The exports of a whole record, under the labels of the job. *)
Definition export_of (j : Profiler.job) (m : Metric) : list event :=
  exports_of m (self_fields m) (labels_of j m).

(** An int that [float] converts.  Past the range of a double CPython
    raises OverflowError ("int too large to convert to float") where
    [float_of_int] rounds to an infinity; short of it the two agree.  A
    float needs no conversion. *)
Definition convertible (n : number) : bool :=
  match n with
  | Int z => is_finite (float_of_int z)
  | Float _ => true
  end.

(** Every slot of the record is convertible. *)
Definition fields_convertible (m : Metric) : bool :=
  forallb (fun slot => convertible (snd slot)) (slots m).





(** A stop token waits on the control pipe from the start; the family of
    the root 10 is as before. *)
Definition stopping (t : nat) : snapshot :=
  {| now := now (family t); processes := processes (family t);
     bytes_recv := 0; bytes_sent := 0; uniform01 := 0.5; delivered := ["stop"] |}.

(** The child 11 is listed by its parent and gone before it is looked at. *)
Definition bereft (t : nat) : snapshot :=
  {| now := 0;
     processes := fun pid =>
       if pid =? 10 then Some (member 1 [11; 12])
       else if pid =? 12 then Some (member 10 [])
       else None;
     bytes_recv := 0; bytes_sent := 0; uniform01 := 0.5; delivered := [] |}.

End Spec2.

Module ContextSpec2.

Import ProfilerContext ContextSpec.

(** Nothing fails and the monitor leaves its loop when told to. *)
Definition responsive : env :=
  {| fault := fun _ => None; writable := fun _ => true;
     inbox := []; exits_in_time := true |}.

(** The first call made fails. *)
Definition broken_pipe : exn := OSError "handle is closed".

Definition failing_close : env :=
  {| fault := fun n => if (n =? 0)%nat then Some broken_pipe else None;
     writable := fun _ => true; inbox := []; exits_in_time := true |}.

(** A call on the monitoring process. *)
Definition on_monitor (c : call) : bool :=
  match c with
  | join _ | is_alive | terminate => true
  | _ => false
  end.

Definition is_close (c : call) : bool :=
  match c with
  | close _ => true
  | _ => false
  end.

End ContextSpec2.

(** ** util/metrics.py, continued: [send_metric] *)

Module PrometheusSend.

Import PrometheusExporter.

(** What [send_metric] can raise: an exception of [exn], or the
    OverflowError of [int] on an infinite float. *)
Inductive raised :=
| Python (e : exn)
| OverflowError (msg : string).

(** What [send_metric] does to the outside: a POST made to the gateway
    (answered or not), or a line in the error log. *)
Inductive action :=
| post (url : list pystr) (data : list pystr) (content_type : string)
| error (msg : list pystr).

(** The answer of the gateway to a POST: a status code and a text, or an
    exception of the transport. *)
Definition gateway := list pystr -> list pystr -> result (Z * string).

Definition line_feed : string := String (ascii_of_nat 10) EmptyString.

(** [a * b] *)
Definition num_mul (a b : number) : number :=
  match a, b with
  | Int x, Int y => Int (x * y)
  | _, _ => Float (to_float a * to_float b)
  end.

(** [bool(n)]: every number but a zero is true, a NaN too. *)
Definition truthy (n : number) : bool := negb (num_eqb n (Int 0)).

(** [int(n)]: a float is truncated towards zero; a NaN and an infinity
    cannot be converted. *)
Definition int_of (n : number) : raised + Z :=
  match n with
  | Int z => inr z
  | Float f =>
      match Prim2SF f with
      | S754_nan => inl (Python (ValueError "cannot convert float NaN to integer"))
      | S754_infinity _ =>
          inl (OverflowError "cannot convert float infinity to integer")
      | S754_zero _ => inr 0
      | S754_finite s m e =>
          let magnitude :=
            if 0 <=? e then Z.pos m * 2 ^ e else Z.pos m / 2 ^ (- e) in
          inr (if s then - magnitude else magnitude)
      end
  end.

(** The argument [value]: a number, or anything else. *)
Inductive value :=
| Numeric (n : number)
| NotNumeric (text : pystr).

(** The argument [labels]: the items of a dict or of a list or tuple of
    pairs, or anything else. *)
Inductive labels :=
| Items (items : list (string * pystr))
| NotItems.

(** [dim]: the job, the instance, then every label. *)
Definition dim (self : t) (items : list (string * pystr)) : list pystr :=
  ([Text "job/"; Text (job self); Text "/instance/"; Text (instance self)]
   ++ flat_map (fun item => [Text "/"; Text (fst item); Text "/"; snd item]) items)%list.

(** [send_metric(self, name, value, type, labels, timestamp=None)], with
    the gateway that answers its POST.  The result is what was done, in
    order, and the exception raised, if any. *)
Definition send_metric (self : t) (answer : gateway) (name : string) (v : value)
    (type : string) (l : labels) (timestamp : option number)
  : list action * option raised :=
  if enabled self
     && match apigateway self with Some (String _ _) => true | _ => false end
  then
    match v with
    | NotNumeric text =>
        ([error [Text "Failed to send metric: "; Text name;
                 Text " - expected float as value, got "; text]], None)
    | Numeric n =>
        match l with
        | NotItems =>
            ([], Some (Python (TypeError
                                 "Labels should be a dict or a list/tuple of tuples")))
        | Items items =>
            let url :=
              ([Text (default "" (apigateway self)); Text "/"; Text "metrics"; Text "/"]
               ++ dim self items)%list in
            let payload := [Text "# TYPE "; Text name; Text " "; Text type;
                            Text line_feed] in
            let metric_line := [Text name; Text " "; Str n] in
            let stamped :=
              match timestamp with
              | Some t =>
                  if truthy t then
                    match int_of (num_mul t (Int 1000)) with
                    | inr timestamp_ms =>
                        inr (metric_line ++ [Text " "; Str (Int timestamp_ms)])%list
                    | inl x => inl x
                    end
                  else inr metric_line
              | None => inr metric_line
              end in
            match stamped with
            | inl x => ([], Some x)
            | inr metric_line =>
                let payload := (payload ++ metric_line ++ [Text line_feed])%list in
                match answer url payload with
                | Ok (status_code, text) =>
                    if status_code =? 200 then ([post url payload "text/plain"], None)
                    else ([post url payload "text/plain";
                           error [Text "Failed to send metric: "; Text text]], None)
                | Raise x =>
                    if is_Exception x
                    then ([post url payload "text/plain"; error [StrExn x]], None)
                    else ([post url payload "text/plain"], Some (Python x))
                end
            end
        end
    end
  else ([], None).

(** The address [send_metric] posts to, for the gateway [g], and what it
    posts: the TYPE line, then the metric line with its [stamp]. *)
Definition url_of (self : t) (g : string) (items : list (string * pystr))
  : list pystr :=
  ([Text g; Text "/"; Text "metrics"; Text "/"; Text "job/"; Text (job self);
    Text "/instance/"; Text (instance self)]
   ++ flat_map (fun item => [Text "/"; Text (fst item); Text "/"; snd item]) items)%list.

Definition payload_of (name type : string) (n : number) (stamp : list pystr)
  : list pystr :=
  ([Text "# TYPE "; Text name; Text " "; Text type; Text line_feed;
    Text name; Text " "; Str n] ++ stamp ++ [Text line_feed])%list.

(** A gateway that accepts everything, one that is down, one that
    refuses. *)
Definition accepting : gateway := fun _ _ => Ok (200, "").
Definition down : gateway := fun _ _ => Raise (OSError "Connection refused").

Definition an_exporter : t :=
  {| enabled := true; apigateway := Some "http://gw"; job := "lithops";
     instance := "abc" |}.

(** The string has no dash. *)
Fixpoint dashless (s : string) : bool :=
  match s with
  | EmptyString => true
  | String c s' => negb (Ascii.eqb c "-"%char) && dashless s'
  end.

End PrometheusSend.

(** * Properties *)

(** ** Record arithmetic (worker/metrics.py) *)

Module MetricsProperties.

Import Metrics.

(** The six classes are distinct, and an instance belongs to a leaf, so
    [isinstance] between two instances is equality of their classes. *)
Lemma isinstance_type (a b : Metric) :
  isinstance b (type a) = true <-> type b = type a.
Proof. destruct a, b; cbn; split; (reflexivity || discriminate). Qed.

(** C3.  Two records of different classes: [__add__] and [__sub__] both raise
    the TypeError of their [isinstance] guard, the one that names the two
    classes; hence a sum or a difference that is returned has operands of
    one class. *)
Theorem cross_kind_arithmetic_raises (a b : Metric) :
  (type a <> type b ->
   __add__ a b
   = Raise (TypeError ("Cannot add different metric types: "
                       ++ __name__ (type a) ++ " and " ++ __name__ (type b)))
   /\ __sub__ a b
      = Raise (TypeError ("Cannot subtract different metric types: "
                          ++ __name__ (type a) ++ " and " ++ __name__ (type b))))
  /\ (forall r, __add__ a b = Ok r -> type a = type b)
  /\ (forall r, __sub__ a b = Ok r -> type a = type b).
Proof.
  assert (G : type a <> type b -> isinstance b (type a) = false).
  { intros D. destruct (isinstance b (type a)) eqn:E; [|reflexivity].
    apply isinstance_type in E. congruence. }
  split; [|split].
  - intros D. unfold __add__, __sub__. rewrite (G D). split; reflexivity.
  - intros r H. destruct (decide (type a = type b)) as [|D]; [assumption|].
    unfold __add__ in H. rewrite (G D) in H. discriminate.
  - intros r H. destruct (decide (type a = type b)) as [|D]; [assumption|].
    unfold __sub__ in H. rewrite (G D) in H. discriminate.
Qed.

Lemma cross_kind_arithmetic_raises_witness :
  __add__ (CPU (Float 1) (Int 0) (Int 7) (Int 1)
             (Float 12.5) (Float 1) (Float 1) (Int 0) (Int 0) (Int 0))
          (Memory (Float 2) (Int 0) (Int 7) (Int 1) (Int 50))
  = Raise (TypeError "Cannot add different metric types: CPUMetric and MemoryMetric")
  /\ __sub__ (CPU (Float 1) (Int 0) (Int 7) (Int 1)
                (Float 12.5) (Float 1) (Float 1) (Int 0) (Int 0) (Int 0))
             (Memory (Float 2) (Int 0) (Int 7) (Int 1) (Int 50))
     = Raise (TypeError
                "Cannot subtract different metric types: CPUMetric and MemoryMetric").
Proof.
  apply (cross_kind_arithmetic_raises
           (CPU (Float 1) (Int 0) (Int 7) (Int 1)
              (Float 12.5) (Float 1) (Float 1) (Int 0) (Int 0) (Int 0))
           (Memory (Float 2) (Int 0) (Int 7) (Int 1) (Int 50))).
  simpl. discriminate.
Defined.

(** C4.  For two records of one process class (CPU, memory or disk),
    [__add__] and [__sub__] do not return: both compute the new fields,
    call the class without [pid] and [parent_pid], and the call raises the
    TypeError for the two missing arguments.  So there is no [(A + B) - B]
    to compare with [A], and no [B + A] to compare with [A + B]. *)
Theorem add_sub_of_process_records_raise (a b : Metric) :
  process_scoped (type a) = true ->
  type b = type a ->
  __add__ a b = Raise (missing_arguments (type a) ["pid"; "parent_pid"])
  /\ __sub__ a b = Raise (missing_arguments (type a) ["pid"; "parent_pid"]).
Proof.
  intros P E. unfold __add__, __sub__.
  apply isinstance_type in E. rewrite E. cbn [negb].
  destruct a; try discriminate P; split; reflexivity.
Qed.

Lemma add_sub_of_process_records_raise_witness :
  __add__ (Memory (Float 1) (Int 0) (Int 7) (Int 1) (Int 50))
          (Memory (Float 2) (Int 1) (Int 7) (Int 1) (Int 20))
  = Raise (TypeError
             "MemoryMetric.__init__() missing 2 required positional arguments: 'pid' and 'parent_pid'")
  /\ __sub__ (Memory (Float 1) (Int 0) (Int 7) (Int 1) (Int 50))
             (Memory (Float 2) (Int 1) (Int 7) (Int 1) (Int 20))
     = Raise (TypeError
                "MemoryMetric.__init__() missing 2 required positional arguments: 'pid' and 'parent_pid'").
Proof.
  apply (add_sub_of_process_records_raise
           (Memory (Float 1) (Int 0) (Int 7) (Int 1) (Int 50))
           (Memory (Float 2) (Int 1) (Int 7) (Int 1) (Int 20)));
    reflexivity.
Defined.

(** The quotient of a network record, the one class whose instances carry
    no [pid]: each additive field is divided by [n], the timestamp and the
    round are those of the record. *)
Lemma truediv_of_network_record (ts cid r w rr wr n : number) :
  num_eqb n (Int 0) = false ->
  __truediv__ (Network ts cid r w rr wr) n
  = Ok (Network ts cid
          (Float (to_float r / to_float n)) (Float (to_float w / to_float n))
          (Float (to_float rr / to_float n)) (Float (to_float wr / to_float n))).
Proof.
  intros Z. unfold __truediv__. rewrite Z. cbn.
  unfold num_truediv. rewrite Z. reflexivity.
Qed.

(** C5.  [A / n]: a zero [n] raises the ValueError, for every record; a
    non-zero [n] divides the fields of a network record; but on a record of
    a process class (CPU, memory or disk) a non-zero [n] does not return a
    record: the class is called without [pid] and [parent_pid] and the call
    raises the TypeError for the two missing arguments. *)
Theorem truediv_of_process_record_raises (a : Metric) (n : number) :
  (num_eqb n (Int 0) = true ->
   __truediv__ a n = Raise (ValueError "Cannot divide by zero."))
  /\ (num_eqb n (Int 0) = false ->
      process_scoped (type a) = true ->
      __truediv__ a n = Raise (missing_arguments (type a) ["pid"; "parent_pid"])).
Proof.
  split.
  - intros Z. unfold __truediv__. rewrite Z. reflexivity.
  - intros Z P. unfold __truediv__. rewrite Z.
    destruct a; try discriminate P; cbn; unfold num_truediv; rewrite Z; reflexivity.
Qed.

Lemma truediv_of_process_record_raises_witness :
  __truediv__ (Memory (Float 1) (Int 0) (Int 7) (Int 1) (Int 50)) (Int 2)
  = Raise (TypeError
             "MemoryMetric.__init__() missing 2 required positional arguments: 'pid' and 'parent_pid'").
Proof.
  apply (truediv_of_process_record_raises
           (Memory (Float 1) (Int 0) (Int 7) (Int 1) (Int 50)) (Int 2));
    reflexivity.
Defined.

End MetricsProperties.

(** ** The collectors (worker/metrics_collectors.py) *)

Module CollectorsProperties.

Import Metrics Collectors Spec.

(** *** Running a computation *)

Lemma bind_ok {S A B} (m : ST S A) (k : A -> ST S B) s a s' :
  m s = (Ok a, s') -> bind m k s = k a s'.
Proof. intros H. unfold bind. rewrite H. reflexivity. Qed.

Lemma bind_raise {S A B} (m : ST S A) (k : A -> ST S B) s x s' :
  m s = (Raise x, s') -> bind m k s = (Raise x, s').
Proof. intros H. unfold bind. rewrite H. reflexivity. Qed.

Lemma time_run w s :
  time w s = (Ok (now (w (tick s))), advance (emit time_time s)).
Proof. reflexivity. Qed.

Lemma on_process_there {A} w e pid (f : process_info -> A) s info :
  processes (w (tick s)) pid = Some info ->
  on_process w e pid f s = (Ok (f info), advance (emit e s)).
Proof. intros H. unfold on_process, bind, look. rewrite H. reflexivity. Qed.

Lemma on_process_gone {A} w e pid (f : process_info -> A) s :
  processes (w (tick s)) pid = None ->
  on_process w e pid f s = (Raise (NoSuchProcess pid), advance (emit e s)).
Proof. intros H. unfold on_process, bind, look. rewrite H. reflexivity. Qed.

Lemma alive_there w pid t :
  alive w pid -> exists info, processes (w t) pid = Some info.
Proof.
  intros H. specialize (H t). destruct (processes (w t) pid) as [info|].
  - exists info. reflexivity.
  - contradiction.
Qed.

(** The decorator turns the NoSuchProcess of the first lookup into a
    warning and an absent result. *)
Lemma handle_psutil_error_gone {A} w pid (k : Z -> M A) s :
  processes (w (tick s)) pid = None ->
  handle_psutil_error (let* process := Process w pid in k process) s
  = (Ok None,
     emit (log WARNING [Text "Process no longer exists."])
       (advance (emit (psutil_Process pid) s))).
Proof.
  intros H. unfold handle_psutil_error, try_except, bind, Process.
  rewrite (on_process_gone _ _ _ _ _ H). reflexivity.
Qed.

(** *** Rates *)

Lemma div_MB (n : Z) : num_truediv (Int n) MB = Ok (megabytes n).
Proof. reflexivity. Qed.

Lemma positive_is_not_zero (dt : number) :
  num_gtb dt (Int 0) = true -> num_eqb dt (Int 0) = false.
Proof.
  unfold num_gtb, num_eqb. destruct (num_compare dt (Int 0)) as [[]|]; easy.
Qed.

(** [_calculate_rates] never raises, and computes the derived rate. *)
Lemma calculate_rates_derived (current previous dt : number) :
  _calculate_rates current previous dt = Ok (derived_rate current previous dt).
Proof.
  unfold _calculate_rates, derived_rate.
  destruct (num_gtb dt (Int 0)) eqn:G; [|reflexivity].
  unfold num_truediv. rewrite (positive_is_not_zero _ G). reflexivity.
Qed.

(** The backwards search finds the previous sample. *)
Lemma first_of_pid_head (l : list Metric) (pid : Z) :
  Forall (fun m => Metrics.pid m <> None) l ->
  first_of_pid l pid = Ok (head (List.filter (about pid) l)).
Proof.
  induction 1 as [|m l Hm _ IH]; [reflexivity|].
  cbn. unfold about at 1.
  destruct (Metrics.pid m) as [p|]; [|contradiction].
  destruct (num_eqb p (Int pid)); [reflexivity|exact IH].
Qed.

Lemma head_filter_rev {A} (f : A -> bool) (l : list A) :
  head (List.filter f (rev l)) = last (List.filter f l).
Proof.
  induction l as [|a l IH] using rev_ind; [reflexivity|].
  rewrite rev_unit, List.filter_app. cbn.
  destruct (f a); cbn.
  - rewrite last_snoc. reflexivity.
  - rewrite app_nil_r. exact IH.
Qed.

Lemma find_previous_metric_sample (l : list Metric) (pid : Z) :
  Forall (fun m => process_scoped (type m) = true) l ->
  _find_previous_metric l pid = Ok (previous_sample l pid).
Proof.
  intros H. unfold _find_previous_metric, previous_sample.
  rewrite first_of_pid_head, head_filter_rev; [reflexivity|].
  apply Forall_rev. eapply Forall_impl; [exact H|].
  intros m; destruct m; cbn; congruence.
Qed.

Lemma previous_sample_typed (l : list Metric) (pid : Z) (c : class) prev :
  Forall (fun m => type m = c) l ->
  previous_sample l pid = Some prev -> type prev = c.
Proof.
  intros H E. unfold previous_sample in E.
  apply last_Some in E as [l' E].
  assert (I : In prev (List.filter (about pid) l)).
  { rewrite E. apply in_or_app. right. left. reflexivity. }
  apply List.filter_In in I as [I _].
  rewrite List.Forall_forall in H. exact (H _ I).
Qed.

Lemma disk_rates_expected prev ts (r w : number) :
  from_option (fun p => type p = DiskMetric) True prev ->
  DiskMetricCollector.rates prev ts r w
  = Ok (expected_rate prev "disk_read_mb" r (Float ts),
        expected_rate prev "disk_write_mb" w (Float ts)).
Proof.
  destruct prev as [p|]; [|reflexivity].
  cbn. intros T. destruct p; try discriminate T.
  unfold DiskMetricCollector.rates. cbn.
  rewrite !calculate_rates_derived. reflexivity.
Qed.

Lemma network_rates_expected prev ts (r w : number) :
  from_option (fun p => type p = NetworkMetric) True prev ->
  NetworkMetricCollector.rates prev ts r w
  = Ok (expected_rate prev "net_read_mb" r (Float ts),
        expected_rate prev "net_write_mb" w (Float ts)).
Proof.
  destruct prev as [p|]; [|reflexivity].
  cbn. intros T. destruct p; try discriminate T.
  unfold NetworkMetricCollector.rates. cbn.
  rewrite !calculate_rates_derived. reflexivity.
Qed.

(** *** One collection *)

(** Calling one of the leaf classes with all its fields named. *)
Lemma new_cpu ts p pp cu ut st cut cst io cid :
  new CPUMetric
    [("timestamp", ts); ("pid", p); ("parent_pid", pp); ("cpu_usage", cu);
     ("user_time", ut); ("system_time", st); ("children_user_time", cut);
     ("children_system_time", cst); ("iowait_time", io); ("collection_id", cid)]
  = Ok (CPU ts cid p pp cu ut st cut cst io).
Proof. reflexivity. Qed.

Lemma new_memory ts p pp mu cid :
  new MemoryMetric
    [("timestamp", ts); ("pid", p); ("parent_pid", pp); ("memory_usage", mu);
     ("collection_id", cid)]
  = Ok (Memory ts cid p pp mu).
Proof. reflexivity. Qed.

Lemma new_disk ts p pp r w rr wr cid :
  new DiskMetric
    [("timestamp", ts); ("pid", p); ("parent_pid", pp); ("disk_read_mb", r);
     ("disk_write_mb", w); ("disk_read_rate", rr); ("disk_write_rate", wr);
     ("collection_id", cid)]
  = Ok (Disk ts cid p pp r w rr wr).
Proof. reflexivity. Qed.

Lemma new_network ts r w rr wr cid :
  new NetworkMetric
    [("timestamp", ts); ("net_read_mb", r); ("net_write_mb", w);
     ("net_read_rate", rr); ("net_write_rate", wr); ("collection_id", cid)]
  = Ok (Network ts cid r w rr wr).
Proof. reflexivity. Qed.

Lemma disk_collect_there w s pid ppid ts cid i1 i2 :
  processes (w (tick s)) pid = Some i1 ->
  processes (w (S (tick s))) pid = Some i2 ->
  Forall (fun m => type m = DiskMetric) (disk_metrics s) ->
  let prev := previous_sample (disk_metrics s) pid in
  let rd := megabytes (info_read_bytes i2) in
  let wr := megabytes (info_write_bytes i2) in
  let r := Disk (Float ts) (Int cid) (Int pid) (Int ppid) rd wr
             (expected_rate prev "disk_read_mb" rd (Float ts))
             (expected_rate prev "disk_write_mb" wr (Float ts)) in
  DiskMetricCollector._collect w pid ppid ts cid s
  = (Ok (Some r),
     append_metric Cdisk r
       (advance (emit (Process_io_counters pid)
          (advance (emit (psutil_Process pid) s))))).
Proof.
  intros H1 H2 T prev rd wr r.
  unfold DiskMetricCollector._collect, handle_psutil_error, try_except.
  unfold Process.
  erewrite bind_ok; [reflexivity|].
  erewrite bind_ok by (apply on_process_there; exact H1).
  erewrite bind_ok by (apply on_process_there; exact H2).
  unfold lift. cbn [fst snd].
  erewrite bind_ok by (rewrite div_MB; reflexivity).
  erewrite bind_ok by (rewrite div_MB; reflexivity).
  erewrite bind_ok.
  2:{ cbn [disk_metrics advance emit]. rewrite find_previous_metric_sample; [reflexivity|].
      eapply Forall_impl; [exact T|]. intros m ->. reflexivity. }
  erewrite bind_ok.
  2:{ rewrite disk_rates_expected; [reflexivity|].
      destruct (previous_sample (disk_metrics s) pid) as [p|] eqn:E; cbn; [|exact I].
      exact (previous_sample_typed _ _ _ _ T E). }
  cbn [fst snd].
  erewrite bind_ok by (rewrite new_disk; reflexivity).
  reflexivity.
Qed.

Lemma network_collect_run w s ts cid :
  Forall (fun m => type m = NetworkMetric) (network_metrics s) ->
  let prev := last (network_metrics s) in
  let rd := megabytes (bytes_recv (w (tick s))) in
  let wr := megabytes (bytes_sent (w (tick s))) in
  let r := Network (Float ts) (Int cid) rd wr
             (expected_rate prev "net_read_mb" rd (Float ts))
             (expected_rate prev "net_write_mb" wr (Float ts)) in
  NetworkMetricCollector._collect w ts cid s
  = (Ok (Some r),
     append_metric Cnetwork r (advance (emit psutil_net_io_counters s))).
Proof.
  intros T prev rd wr r.
  unfold NetworkMetricCollector._collect, handle_psutil_error, try_except.
  erewrite bind_ok; [reflexivity|].
  erewrite bind_ok by reflexivity.
  unfold lift.
  erewrite bind_ok by (rewrite div_MB; reflexivity).
  erewrite bind_ok by (rewrite div_MB; reflexivity).
  erewrite bind_ok by reflexivity.
  erewrite bind_ok.
  2:{ rewrite network_rates_expected; [reflexivity|].
      unfold _find_previous_global. cbn [network_metrics advance emit].
      destruct (last (network_metrics s)) as [p|] eqn:E; cbn; [|exact I].
      apply last_Some in E as [l' E]. rewrite E in T.
      apply Forall_app in T as [_ T]. inversion T; assumption. }
  cbn [fst snd].
  erewrite bind_ok by (rewrite new_network; reflexivity).
  reflexivity.
Qed.

Lemma memory_collect_there w s pid ppid ts cid i1 i2 :
  processes (w (tick s)) pid = Some i1 ->
  processes (w (S (tick s))) pid = Some i2 ->
  let r := Memory (Float ts) (Int cid) (Int pid) (Int ppid)
             (Int (Z.shiftr (info_rss i2) 20)) in
  MemoryMetricCollector._collect w pid ppid ts cid s
  = (Ok (Some r),
     append_metric Cmemory r
       (advance (emit (Process_memory_info pid)
          (advance (emit (psutil_Process pid) s))))).
Proof.
  intros H1 H2 r.
  unfold MemoryMetricCollector._collect, handle_psutil_error, try_except, Process.
  erewrite bind_ok; [reflexivity|].
  erewrite bind_ok by (apply on_process_there; exact H1).
  erewrite bind_ok by (apply on_process_there; exact H2).
  unfold lift.
  erewrite bind_ok by (rewrite new_memory; reflexivity).
  reflexivity.
Qed.

Lemma cpu_collect_there w s pid ppid ts cid i1 i2 i3 :
  processes (w (tick s)) pid = Some i1 ->
  processes (w (S (tick s))) pid = Some i2 ->
  processes (w (S (S (tick s)))) pid = Some i3 ->
  let times := info_cpu_times i3 in
  let r := CPU (Float ts) (Int cid) (Int pid) (Int ppid)
             (Float (info_cpu_percent i2))
             (Float (user times)) (Float (system times))
             (from_option Float (Int 0) (children_user times))
             (from_option Float (Int 0) (children_system times))
             (from_option Float (Int 0) (iowait times)) in
  CPUMetricCollector._collect w pid ppid ts cid s
  = (Ok (Some r),
     append_metric Ccpu r
       (advance (emit (Process_cpu_times pid)
          (advance (emit (Process_cpu_percent pid)
             (advance (emit (psutil_Process pid) s))))))).
Proof.
  intros H1 H2 H3 times r.
  unfold CPUMetricCollector._collect, handle_psutil_error, try_except, Process.
  erewrite bind_ok; [reflexivity|].
  erewrite bind_ok by (apply on_process_there; exact H1).
  erewrite bind_ok by (apply on_process_there; exact H2).
  erewrite bind_ok by (apply on_process_there; exact H3).
  unfold lift.
  erewrite bind_ok by (rewrite new_cpu; reflexivity).
  reflexivity.
Qed.

(** *** A process that is gone *)

Lemma collect_metric_gone w s pid ppid cid :
  gone w pid (tick s) ->
  let s' := emit (log WARNING [Text "Process no longer exists."])
              (advance (emit (psutil_Process pid) (advance (emit time_time s)))) in
  MemoryMetricCollector.collect_metric w pid ppid cid s = (Ok None, s')
  /\ CPUMetricCollector.collect_metric w pid ppid cid s = (Ok None, s')
  /\ DiskMetricCollector.collect_metric w pid ppid cid s = (Ok None, s').
Proof.
  intros G s'.
  assert (H : processes (w (tick (advance (emit time_time s)))) pid = None).
  { apply G. cbn. lia. }
  repeat split.
  - unfold MemoryMetricCollector.collect_metric.
    erewrite bind_ok by apply time_run.
    exact (handle_psutil_error_gone _ _ _ _ H).
  - unfold CPUMetricCollector.collect_metric.
    erewrite bind_ok by apply time_run.
    exact (handle_psutil_error_gone _ _ _ _ H).
  - unfold DiskMetricCollector.collect_metric.
    erewrite bind_ok by apply time_run.
    exact (handle_psutil_error_gone _ _ _ _ H).
Qed.

(** C8.  A per-process collector called for a process that is gone returns
    no record and does not raise: it logs the warning and leaves the four
    lists as they were.  The three calls the aggregator makes for such a
    process therefore return, and the round goes on. *)
Theorem collect_on_gone_process_is_absent (w : world) (s : state) (pid ppid cid : Z) :
  gone w pid (tick s) ->
  returns_absent (MemoryMetricCollector.collect_metric w pid ppid cid) s pid
  /\ returns_absent (CPUMetricCollector.collect_metric w pid ppid cid) s pid
  /\ returns_absent (DiskMetricCollector.collect_metric w pid ppid cid) s pid
  /\ exists s',
       _collect_metrics_for_process w pid ppid cid s = (Ok tt, s')
       /\ forall c, metrics_of c s' = metrics_of c s.
Proof.
  intros G.
  assert (R : forall s0, gone w pid (tick s0) ->
            forall run,
              run s0 = (Ok None,
                        emit (log WARNING [Text "Process no longer exists."])
                          (advance (emit (psutil_Process pid)
                             (advance (emit time_time s0))))) ->
              returns_absent run s0 pid).
  { intros s0 _ run E. eexists. split; [exact E|]. split.
    - cbn. rewrite <- !app_assoc. reflexivity.
    - intros []; reflexivity. }
  destruct (collect_metric_gone w s pid ppid cid G) as (Em & Ec & Ed).
  repeat split; try (apply R; assumption).
  set (s1 := emit (log WARNING [Text "Process no longer exists."])
               (advance (emit (psutil_Process pid) (advance (emit time_time s))))) in *.
  assert (G1 : gone w pid (tick s1)).
  { intros t Ht. apply G. cbn in Ht. lia. }
  destruct (collect_metric_gone w s1 pid ppid cid G1) as (_ & Ec1 & _).
  set (s2 := emit (log WARNING [Text "Process no longer exists."])
               (advance (emit (psutil_Process pid) (advance (emit time_time s1))))) in *.
  assert (G2 : gone w pid (tick s2)).
  { intros t Ht. apply G. cbn in Ht. lia. }
  destruct (collect_metric_gone w s2 pid ppid cid G2) as (_ & _ & Ed2).
  eexists. split.
  - unfold _collect_metrics_for_process.
    erewrite bind_ok by exact Em.
    erewrite bind_ok by exact Ec1.
    erewrite bind_ok by exact Ed2.
    reflexivity.
  - intros []; reflexivity.
Qed.

Lemma collect_on_gone_process_is_absent_witness :
  returns_absent
    (DiskMetricCollector.collect_metric reading 8 1 0) initial_state 8.
Proof.
  apply (collect_on_gone_process_is_absent reading initial_state 8 1 0).
  intros t _. reflexivity.
Defined.

(** A subject never sampled before has no previous sample. *)
Lemma previous_sample_first (samples : list Metric) (pid : Z) :
  Forall (fun m => about pid m = false) samples ->
  previous_sample samples pid = None.
Proof.
  intros H. unfold previous_sample.
  replace (List.filter (about pid) samples) with (@nil Metric); [reflexivity|].
  induction H as [|m l Hm _ IH]; [reflexivity|]. cbn. rewrite Hm. exact IH.
Qed.

(** C6.  The rates of a new disk or network record are derived: with a
    previous sample of the same subject (the last disk record of the pid;
    the last network record) and a positive time difference, the rate is
    [(current - previous) / dt]; otherwise it is 0.  A subject sampled for
    the first time has both rates 0, and a process that has read 10 MB at
    time 0 and 15 MB at time 5 gets the read rate 1.0. *)
Theorem rates_are_derived :
  (forall (w : world) (s : state) (pid ppid : Z) (ts : float) (cid : Z),
      processes (w (tick s)) pid <> None ->
      processes (w (S (tick s))) pid <> None ->
      Forall (fun m => type m = DiskMetric) (disk_metrics s) ->
      exists r s' read written,
        DiskMetricCollector._collect w pid ppid ts cid s = (Ok (Some r), s')
        /\ disk_metrics s' = (disk_metrics s ++ [r])%list
        /\ let prev := previous_sample (disk_metrics s) pid in
           r = Disk (Float ts) (Int cid) (Int pid) (Int ppid) read written
                 (expected_rate prev "disk_read_mb" read (Float ts))
                 (expected_rate prev "disk_write_mb" written (Float ts)))
  /\ (forall (w : world) (s : state) (ts : float) (cid : Z),
         Forall (fun m => type m = NetworkMetric) (network_metrics s) ->
         exists r s' read written,
           NetworkMetricCollector._collect w ts cid s = (Ok (Some r), s')
           /\ network_metrics s' = (network_metrics s ++ [r])%list
           /\ let prev := last (network_metrics s) in
              r = Network (Float ts) (Int cid) read written
                    (expected_rate prev "net_read_mb" read (Float ts))
                    (expected_rate prev "net_write_mb" written (Float ts)))
  /\ (forall (samples : list Metric) (pid : Z) (field : string) (current ts : number),
         Forall (fun m => about pid m = false) samples ->
         expected_rate (previous_sample samples pid) field current ts = Int 0)
  /\ (forall (field : string) (current ts : number),
         expected_rate None field current ts = Int 0)
  /\ (exists first s1 second s2,
         DiskMetricCollector._collect reading 7 1 0 0 initial_state
         = (Ok (Some first), s1)
         /\ DiskMetricCollector._collect reading 7 1 5 1 s1 = (Ok (Some second), s2)
         /\ getattr first "disk_read_mb" = Some (Float 10)
         /\ getattr first "disk_read_rate" = Some (Int 0)
         /\ getattr first "disk_write_rate" = Some (Int 0)
         /\ getattr second "disk_read_mb" = Some (Float 15)
         /\ getattr second "disk_read_rate" = Some (Float 1)).
Proof.
  split; [|split; [|split; [|split]]].
  - intros w s pid ppid ts cid H1 H2 T.
    destruct (processes (w (tick s)) pid) as [i1|] eqn:E1; [|contradiction].
    destruct (processes (w (S (tick s))) pid) as [i2|] eqn:E2; [|contradiction].
    do 4 eexists. split; [exact (disk_collect_there w s pid ppid ts cid i1 i2 E1 E2 T)|].
    split; reflexivity.
  - intros w s ts cid T.
    do 4 eexists. split; [exact (network_collect_run w s ts cid T)|].
    split; reflexivity.
  - intros samples pid field current ts H.
    rewrite (previous_sample_first _ _ H). reflexivity.
  - reflexivity.
  - do 4 eexists. split; [vm_compute; reflexivity|].
    split; [vm_compute; reflexivity|]. repeat split; vm_compute; reflexivity.
Qed.

Lemma rates_are_derived_witness :
  exists r s' read written,
    DiskMetricCollector._collect reading 7 1 0 0 initial_state = (Ok (Some r), s')
    /\ disk_metrics s' = [r]
    /\ r = Disk (Float 0) (Int 0) (Int 7) (Int 1) read written (Int 0) (Int 0).
Proof.
  destruct rates_are_derived as [D _].
  apply (D reading initial_state 7 1 0%float 0);
    [discriminate | discriminate | constructor].
Defined.

(** *** A whole round *)

Lemma grows_refl s : grows s s [] [] [] [] [].
Proof. split; rewrite ?app_nil_r; reflexivity. Qed.

Lemma grows_trans s1 s2 s3 e1 e2 c1 c2 m1 m2 d1 d2 n1 n2 :
  grows s1 s2 e1 c1 m1 d1 n1 ->
  grows s2 s3 e2 c2 m2 d2 n2 ->
  grows s1 s3 (e1 ++ e2) (c1 ++ c2) (m1 ++ m2) (d1 ++ d2) (n1 ++ n2).
Proof.
  intros [] []. split; rewrite ?app_assoc; congruence.
Qed.

Lemma grows_well_typed s s' evs cpu mem disk net :
  grows s s' evs cpu mem disk net ->
  well_typed s ->
  Forall (fun m => type m = CPUMetric) cpu ->
  Forall (fun m => type m = MemoryMetric) mem ->
  Forall (fun m => type m = DiskMetric) disk ->
  Forall (fun m => type m = NetworkMetric) net ->
  well_typed s'.
Proof.
  intros [] W Hc Hm Hd Hn c. specialize (W c).
  destruct c; cbn in *;
    [rewrite grows_cpu0 | rewrite grows_memory0
     | rewrite grows_disk0 | rewrite grows_network0];
    apply Forall_app; split; assumption.
Qed.

Ltac grows_by_computation :=
  split; cbn; rewrite ?app_nil_r, <- ?app_assoc; reflexivity.

Lemma memory_collect_alive w s pid ppid cid :
  alive w pid ->
  exists r s',
    MemoryMetricCollector.collect_metric w pid ppid cid s = (Ok (Some r), s')
    /\ grows s s' [time_time; psutil_Process pid; Process_memory_info pid]
         [] [r] [] []
    /\ type r = MemoryMetric /\ Metrics.pid r = Some (Int pid)
    /\ collection_id r = Int cid.
Proof.
  intros A.
  destruct (alive_there w pid (tick (advance (emit time_time s))) A) as [i1 E1].
  destruct (alive_there w pid (S (tick (advance (emit time_time s)))) A) as [i2 E2].
  do 2 eexists. split.
  - unfold MemoryMetricCollector.collect_metric.
    erewrite bind_ok by apply time_run.
    exact (memory_collect_there w (advance (emit time_time s)) pid ppid _ cid i1 i2 E1 E2).
  - split; [grows_by_computation|]. repeat split.
Qed.

Lemma cpu_collect_alive w s pid ppid cid :
  alive w pid ->
  exists r s',
    CPUMetricCollector.collect_metric w pid ppid cid s = (Ok (Some r), s')
    /\ grows s s'
         [time_time; psutil_Process pid; Process_cpu_percent pid; Process_cpu_times pid]
         [r] [] [] []
    /\ type r = CPUMetric /\ Metrics.pid r = Some (Int pid)
    /\ collection_id r = Int cid.
Proof.
  intros A.
  destruct (alive_there w pid (tick (advance (emit time_time s))) A) as [i1 E1].
  destruct (alive_there w pid (S (tick (advance (emit time_time s)))) A) as [i2 E2].
  destruct (alive_there w pid (S (S (tick (advance (emit time_time s))))) A) as [i3 E3].
  do 2 eexists. split.
  - unfold CPUMetricCollector.collect_metric.
    erewrite bind_ok by apply time_run.
    exact (cpu_collect_there w (advance (emit time_time s)) pid ppid _ cid i1 i2 i3 E1 E2 E3).
  - split; [grows_by_computation|]. repeat split.
Qed.

Lemma disk_collect_alive w s pid ppid cid :
  alive w pid ->
  well_typed s ->
  exists r s',
    DiskMetricCollector.collect_metric w pid ppid cid s = (Ok (Some r), s')
    /\ grows s s' [time_time; psutil_Process pid; Process_io_counters pid]
         [] [] [r] []
    /\ type r = DiskMetric /\ Metrics.pid r = Some (Int pid)
    /\ collection_id r = Int cid.
Proof.
  intros A W.
  destruct (alive_there w pid (tick (advance (emit time_time s))) A) as [i1 E1].
  destruct (alive_there w pid (S (tick (advance (emit time_time s)))) A) as [i2 E2].
  do 2 eexists. split.
  - unfold DiskMetricCollector.collect_metric.
    erewrite bind_ok by apply time_run.
    exact (disk_collect_there w (advance (emit time_time s)) pid ppid _ cid i1 i2 E1 E2 (W Cdisk)).
  - split; [grows_by_computation|]. repeat split.
Qed.

Lemma network_collect_well_typed w s cid :
  well_typed s ->
  exists r s',
    NetworkMetricCollector.collect_metric w cid s = (Ok (Some r), s')
    /\ grows s s' [time_time; psutil_net_io_counters] [] [] [] [r]
    /\ type r = NetworkMetric /\ collection_id r = Int cid.
Proof.
  intros W.
  do 2 eexists. split.
  - unfold NetworkMetricCollector.collect_metric.
    erewrite bind_ok by apply time_run.
    exact (network_collect_run w (advance (emit time_time s)) _ cid (W Cnetwork)).
  - split; [grows_by_computation|]. repeat split.
Qed.

(** One process of the list: its parent is asked for, then the three
    collectors run, memory first. *)
Lemma process_sampled w s pid index :
  alive w pid ->
  well_typed s ->
  exists s' c m d,
    (let* parent_pid := on_process w (Process_ppid pid) pid info_ppid in
     _collect_metrics_for_process w pid parent_pid index) s = (Ok tt, s')
    /\ grows s s' (process_calls pid) [c] [m] [d] []
    /\ samples_of index [pid] CPUMetric [c]
    /\ samples_of index [pid] MemoryMetric [m]
    /\ samples_of index [pid] DiskMetric [d]
    /\ well_typed s'.
Proof.
  intros A W.
  destruct (alive_there w pid (tick s) A) as [i0 E0].
  set (s0 := advance (emit (Process_ppid pid) s)).
  assert (G0 : grows s s0 [Process_ppid pid] [] [] [] []) by grows_by_computation.
  assert (W0 : well_typed s0) by (intros []; exact (W _)).
  destruct (memory_collect_alive w s0 pid (info_ppid i0) index A)
    as (m & s1 & Em & G1 & Tm & Pm & Im).
  assert (W1 : well_typed s1).
  { eapply grows_well_typed; [exact G1|exact W0|..]; repeat constructor; assumption. }
  destruct (cpu_collect_alive w s1 pid (info_ppid i0) index A)
    as (c & s2 & Ec & G2 & Tc & Pc & Ic).
  assert (W2 : well_typed s2).
  { eapply grows_well_typed; [exact G2|exact W1|..]; repeat constructor; assumption. }
  destruct (disk_collect_alive w s2 pid (info_ppid i0) index A W2)
    as (d & s3 & Ed & G3 & Td & Pd & Id).
  assert (W3 : well_typed s3).
  { eapply grows_well_typed; [exact G3|exact W2|..]; repeat constructor; assumption. }
  exists s3, c, m, d. split; [|split].
  - erewrite bind_ok by (apply on_process_there; exact E0).
    unfold _collect_metrics_for_process. fold s0.
    erewrite bind_ok by exact Em.
    erewrite bind_ok by exact Ec.
    erewrite bind_ok by exact Ed.
    reflexivity.
  - exact (grows_trans _ _ _ _ _ _ _ _ _ _ _ _ _
             (grows_trans _ _ _ _ _ _ _ _ _ _ _ _ _
                (grows_trans _ _ _ _ _ _ _ _ _ _ _ _ _ G0 G1) G2) G3).
  - assert (S1 : forall c r, type r = c -> Metrics.pid r = Some (Int pid) ->
                  collection_id r = Int index -> samples_of index [pid] c [r]).
    { intros k r T P I. split; [cbn; rewrite P; reflexivity|].
      repeat constructor; assumption. }
    split; [apply S1; assumption|]. split; [apply S1; assumption|].
    split; [apply S1; assumption|]. exact W3.
Qed.

Lemma samples_of_app index p ps c r rs :
  samples_of index [p] c [r] ->
  samples_of index ps c rs ->
  samples_of index (p :: ps) c (r :: rs).
Proof.
  intros [P1 F1] [P2 F2]. split.
  - cbn in *. congruence.
  - inversion F1; subst. constructor; assumption.
Qed.

Lemma samples_of_length index ps c rs :
  samples_of index ps c rs -> length rs = length ps.
Proof.
  intros [P _]. apply (f_equal (@length _)) in P.
  rewrite !length_map in P. exact P.
Qed.

(** The loop over the process list. *)
Lemma processes_sampled w index procs : forall s,
  Forall (alive w) procs ->
  well_typed s ->
  exists s' cpu mem disk,
    for_each procs (fun proc =>
      let pid := proc in
      let* parent_pid := on_process w (Process_ppid proc) proc info_ppid in
      _collect_metrics_for_process w pid parent_pid index) s = (Ok tt, s')
    /\ grows s s' (flat_map process_calls procs) cpu mem disk []
    /\ samples_of index procs CPUMetric cpu
    /\ samples_of index procs MemoryMetric mem
    /\ samples_of index procs DiskMetric disk
    /\ well_typed s'.
Proof.
  induction procs as [|p procs IH]; intros s A W.
  - exists s, [], [], []. split; [reflexivity|]. split; [apply grows_refl|].
    split; [|split; [|split]]; try (split; [reflexivity|constructor]). exact W.
  - inversion A as [|? ? Ap Aps]; subst.
    destruct (process_sampled w s p index Ap W)
      as (s1 & c & m & d & E1 & G1 & Sc & Sm & Sd & W1).
    destruct (IH s1 Aps W1) as (s2 & cs & ms & ds & E2 & G2 & Scs & Sms & Sds & W2).
    exists s2, (c :: cs), (m :: ms), (d :: ds).
    split; [|split; [|split; [|split; [|split]]]].
    + cbn [for_each]. erewrite bind_ok by exact E1. exact E2.
    + exact (grows_trans _ _ _ _ _ _ _ _ _ _ _ _ _ G1 G2).
    + apply samples_of_app; assumption.
    + apply samples_of_app; assumption.
    + apply samples_of_app; assumption.
    + exact W2.
Qed.

(** C7.  A round whose processes all live through it: with [k] processes
    in the tree (the root and the descendants psutil reports), the round
    appends [k] memory, [k] CPU and [k] disk records and one network
    record, all of this round, one per process in the order of the
    list; each process is sampled memory, then CPU, then disk, and the
    network is sampled once, last. *)
Theorem round_composition (w : world) (s : state) (root index : Z) :
  let procs := root :: descendants w (S (tick s)) root in
  Forall (alive w) procs ->
  well_typed s ->
  exists s' cpu mem disk net,
    collect_all_metrics w root index s = (Ok tt, s')
    /\ grows s s' (round_calls root procs) cpu mem disk [net]
    /\ length mem = length procs
    /\ length cpu = length procs
    /\ length disk = length procs
    /\ samples_of index procs MemoryMetric mem
    /\ samples_of index procs CPUMetric cpu
    /\ samples_of index procs DiskMetric disk
    /\ type net = NetworkMetric /\ collection_id net = Int index
    /\ well_typed s'.
Proof.
  intros procs A W.
  assert (Ar : alive w root) by (inversion A; assumption).
  destruct (alive_there w root (tick s) Ar) as [i0 E0].
  destruct (alive_there w root (S (tick s)) Ar) as [i1 E1].
  set (s0 := advance (emit (Process_children root)
                (advance (emit (psutil_Process root) s)))).
  assert (G0 : grows s s0 [psutil_Process root; Process_children root] [] [] [] [])
    by grows_by_computation.
  assert (W0 : well_typed s0) by (intros []; exact (W _)).
  assert (L : _get_process_list w root s = (Ok procs, s0)).
  { unfold _get_process_list, Process.
    erewrite bind_ok by (apply on_process_there; exact E0).
    erewrite bind_ok by (apply on_process_there; exact E1).
    unfold procs, descendants. rewrite E1. reflexivity. }
  destruct (processes_sampled w index procs s0 A W0)
    as (s1 & cpu & mem & disk & E & G1 & Sc & Sm & Sd & W1).
  destruct (network_collect_well_typed w s1 index W1) as (net & s2 & En & G2 & Tn & In).
  exists s2, cpu, mem, disk, net. split; [|split].
  - unfold collect_all_metrics.
    erewrite bind_ok by exact L.
    erewrite bind_ok by exact E.
    erewrite bind_ok by exact En.
    reflexivity.
  - pose proof (grows_trans _ _ _ _ _ _ _ _ _ _ _ _ _
                  (grows_trans _ _ _ _ _ _ _ _ _ _ _ _ _ G0 G1) G2) as G.
    rewrite !app_nil_r in G. cbn [app] in G.
    unfold round_calls. cbn [app]. exact G.
  - split; [exact (samples_of_length _ _ _ _ Sm)|].
    split; [exact (samples_of_length _ _ _ _ Sc)|].
    split; [exact (samples_of_length _ _ _ _ Sd)|].
    do 5 (split; [assumption|]).
    eapply grows_well_typed; [exact G2|exact W1|..]; repeat constructor; assumption.
Qed.

Lemma round_composition_witness :
  exists s' cpu mem disk net,
    collect_all_metrics family 10 0 initial_state = (Ok tt, s')
    /\ grows initial_state s' (round_calls 10 [10; 11; 12]) cpu mem disk [net]
    /\ length mem = 3%nat
    /\ length cpu = 3%nat
    /\ length disk = 3%nat
    /\ samples_of 0 [10; 11; 12] MemoryMetric mem
    /\ samples_of 0 [10; 11; 12] CPUMetric cpu
    /\ samples_of 0 [10; 11; 12] DiskMetric disk
    /\ type net = NetworkMetric /\ collection_id net = Int 0
    /\ well_typed s'.
Proof.
  apply (round_composition family initial_state 10 0).
  - repeat constructor; intros t; discriminate.
  - intros []; constructor.
Defined.

End CollectorsProperties.

(** ** The sampling loop (worker/profiler.py) *)

Module ProfilerProperties.

Import Metrics Collectors Profiler Spec CollectorsProperties.

(** C1.  A round over a root with two children, from the start: the
    round appends three memory, three CPU and three disk records and one
    network record, and exports the record at position [index] of each
    list only, 15 values in all.  The records of the children 11 and 12,
    made in this round, are not exported in it.  The next round exports
    the record at position 1: the one made for the child 11 in the round
    before. *)
Theorem round_exports_one_record_per_list :
  let profiling_data := _prepare_profiling_data a_job in
  exists s1 s2,
    _collect_and_send_metrics family profiling_data 10 0 initial_state = (Ok tt, s1)
    /\ length (memory_metrics s1) = 3%nat
    /\ length (cpu_metrics s1) = 3%nat
    /\ length (disk_metrics s1) = 3%nat
    /\ length (network_metrics s1) = 1%nat
    /\ map Metrics.pid (memory_metrics s1)
       = [Some (Int 10); Some (Int 11); Some (Int 12)]
    /\ Forall (fun m => collection_id m = Int 0) (memory_metrics s1)
    /\ length (List.filter is_export (events s1)) = 15%nat
    /\ length (List.filter (exports_pid 10) (events s1)) = 11%nat
    /\ List.filter (exports_pid 11) (events s1) = []
    /\ List.filter (exports_pid 12) (events s1) = []
    /\ _collect_and_send_metrics family profiling_data 10 1 s1 = (Ok tt, s2)
    /\ length (memory_metrics s2) = 6%nat
    /\ length (List.filter is_export (events s2)) = 30%nat
    /\ length (List.filter (exports_pid 10) (events s2)) = 11%nat
    /\ length (List.filter (exports_pid 11) (events s2)) = 11%nat.
Proof.
  do 2 eexists.
  split; [vm_compute; reflexivity|].
  do 10 (split; [vm_compute; try reflexivity; repeat constructor|]).
  split; [vm_compute; reflexivity|].
  repeat split; vm_compute; reflexivity.
Qed.

(** *** A root that is gone *)

Lemma collect_metrics_gone w root index s :
  processes (w (tick s)) root = None ->
  _collect_metrics w root index s
  = (Ok tt,
     emit (log WARNING [Text "Process "; Str (Int root);
                        Text " does not exist. Skipping metric collection."])
       (advance (emit (psutil_Process root) s))).
Proof.
  intros H.
  assert (E : collect_all_metrics w root (Z.of_nat index) s
              = (Raise (NoSuchProcess root), advance (emit (psutil_Process root) s))).
  { unfold collect_all_metrics.
    erewrite bind_raise; [reflexivity|].
    unfold _get_process_list, Process.
    erewrite bind_raise; [reflexivity|].
    apply on_process_gone. exact H. }
  unfold _collect_metrics, try_except. rewrite E. reflexivity.
Qed.

Lemma send_metrics_nothing profiling_data index s :
  cpu_metrics s = [] -> memory_metrics s = [] ->
  disk_metrics s = [] -> network_metrics s = [] ->
  _send_metrics profiling_data index s = (Ok tt, s).
Proof.
  intros C Me D N.
  unfold _send_metrics, METRIC_COLLECTIONS_FIELDS. cbn [for_each].
  unfold try_except, bind, collection_named. cbn.
  rewrite C. cbn. rewrite Me. cbn. rewrite D. cbn. rewrite N. reflexivity.
Qed.

Lemma check_stop_signal_silent w s :
  delivered (w (tick s)) = [] ->
  _check_stop_signal w s = (Ok false, advance (emit conn_poll s)).
Proof.
  intros H. unfold _check_stop_signal, bind, look. rewrite H, drop_nil. reflexivity.
Qed.

Lemma sleep_run w start_time timeout s :
  _sleep_until_next_interval w start_time timeout s
  = (Ok tt,
     emit (time_sleep
             (py_max (Int 0)
                (num_add
                   (num_sub timeout
                      (num_sub (Float (now (w (tick s)))) (Float start_time)))
                   (Float (uniform01 (w (S (tick s))))))))
       (advance (emit random_uniform (advance (emit time_time s))))).
Proof. reflexivity. Qed.

(** With the root gone and the pipe silent, a turn of the loop ends in
    [Continue]: the inner handler of [_collect_metrics] has taken the
    NoSuchProcess, and the handler of the loop, the one that breaks, never
    sees it. *)
Lemma loop_body_survives w root profiling_data timeout index s :
  gone w root 2 ->
  (forall t, delivered (w t) = []) ->
  idle s ->
  exists s',
    loop_body w profiling_data root timeout index s = (Ok Continue, s')
    /\ idle s'
    /\ In (log WARNING [Text "Process "; Str (Int root);
                        Text " does not exist. Skipping metric collection."])
         (events s')
    /\ (In conn_close (events s') -> In conn_close (events s)).
Proof.
  intros G D (T & C & Me & Di & N & R & Cl).
  eexists. split; [|split; [|split]].
  - unfold loop_body.
    erewrite bind_ok by apply time_run.
    unfold try_except.
    erewrite bind_ok.
    2:{ unfold _collect_and_send_metrics.
        erewrite bind_ok.
        2:{ apply collect_metrics_gone. apply G. cbn. lia. }
        apply send_metrics_nothing; assumption. }
    erewrite bind_ok by (apply check_stop_signal_silent; apply D).
    cbv beta iota.
    erewrite bind_ok by apply sleep_run.
    reflexivity.
  - repeat split; cbn; try assumption. lia.
  - cbn. rewrite !in_app_iff. cbn. tauto.
  - cbn. rewrite !in_app_iff. cbn. intuition discriminate.
Qed.

Lemma while_True_survives w root profiling_data timeout turns : forall index s,
  gone w root 2 ->
  (forall t, delivered (w t) = []) ->
  idle s ->
  exists s',
    while_True w turns profiling_data root timeout index s = (Ok StillRunning, s')
    /\ idle s'
    /\ (In conn_close (events s') -> In conn_close (events s)).
Proof.
  induction turns as [|turns IH]; intros index s G D I.
  - exists s. repeat split; try apply I. tauto.
  - destruct (loop_body_survives w root profiling_data timeout index s G D I)
      as (s1 & E1 & I1 & _ & K1).
    destruct (IH (S index) s1 G D I1) as (s2 & E2 & I2 & K2).
    exists s2. split; [|split; [exact I2|tauto]].
    cbn [while_True]. erewrite bind_ok by exact E1. exact E2.
Qed.

(** C2.  The root is there while the profiler initialises and gone from
    then on; nothing arrives on the pipe.  However many turns the loop is
    followed for, it is still running: every turn logs that the process
    does not exist and goes on to the next; the loop is not left and the
    pipe is not closed. *)
Theorem loop_survives_missing_root (w : world) (root : Z) (j : job)
    (timeout : option number) (turns : nat) :
  processes (w 0%nat) root <> None ->
  processes (w 1%nat) root <> None ->
  gone w root 2 ->
  (forall t, delivered (w t) = []) ->
  exists s',
    start_profiling w turns root j timeout initial_state = (Ok StillRunning, s')
    /\ closed s' = false
    /\ ~ In conn_close (events s')
    /\ ((0 < turns)%nat ->
        In (log WARNING [Text "Process "; Str (Int root);
                         Text " does not exist. Skipping metric collection."])
          (events s')).
Proof.
  intros H0 H1 G D.
  destruct (processes (w 0%nat) root) as [i0|] eqn:E0; [|contradiction].
  destruct (processes (w 1%nat) root) as [i1|] eqn:E1; [|contradiction].
  set (s0 := advance (emit (Process_cpu_percent root)
               (advance (emit (psutil_Process root)
                  (emit (log DEBUG [Text "Profiler timeout set to ";
                                    Str (timeout_or_10 timeout); Text " seconds"])
                     initial_state))))).
  assert (I0 : idle s0) by (repeat split; cbn; lia).
  destruct (while_True_survives w root (_prepare_profiling_data j)
              (timeout_or_10 timeout) turns 0%nat s0 G D I0) as (s' & E & I & K).
  exists s'. split; [|split; [|split]].
  - unfold start_profiling.
    erewrite bind_ok by reflexivity.
    erewrite bind_ok.
    2:{ unfold _initialize_process, Process.
        erewrite bind_ok by (apply on_process_there; exact E0).
        erewrite bind_ok by (apply on_process_there; exact E1).
        reflexivity. }
    unfold try_except. fold s0. rewrite E. reflexivity.
  - apply I.
  - intros C. apply K in C. cbn in C. intuition discriminate.
  - intros P. destruct turns as [|turns]; [lia|].
    cbn [while_True] in E.
    destruct (loop_body_survives w root (_prepare_profiling_data j)
                (timeout_or_10 timeout) 0%nat s0 G D I0) as (s1 & E1' & I1 & L1 & _).
    erewrite bind_ok in E by exact E1'.
    revert E. generalize 1%nat. clear - L1 I1 G D. revert s1 s' I1 L1.
    induction turns as [|turns IH]; intros s1 s' I1 L1 index E.
    + cbn in E. injection E as <-. exact L1.
    + cbn [while_True] in E.
      destruct (loop_body_survives w root (_prepare_profiling_data j)
                  (timeout_or_10 timeout) index s1 G D I1) as (s2 & E2 & I2 & L2 & _).
      erewrite bind_ok in E by exact E2.
      exact (IH s2 s' I2 L2 _ E).
Qed.

Lemma loop_survives_missing_root_witness :
  exists s',
    start_profiling orphan 3 10 a_job None initial_state = (Ok StillRunning, s')
    /\ closed s' = false
    /\ ~ In conn_close (events s')
    /\ ((0 < 3)%nat ->
        In (log WARNING [Text "Process "; Str (Int 10);
                         Text " does not exist. Skipping metric collection."])
          (events s')).
Proof.
  apply (loop_survives_missing_root orphan 10 a_job None 3).
  - discriminate.
  - discriminate.
  - intros t Ht. unfold orphan. cbn [processes].
    replace (t <? 2)%nat with false; [reflexivity|].
    symmetry. apply Nat.ltb_ge. exact Ht.
  - reflexivity.
Defined.

End ProfilerProperties.

(** ** The supervision context (worker/profiler_context.py) *)

Module ContextProperties.

Import ProfilerContext ContextSpec.

Lemma keeps_refl s : keeps s s.
Proof. split; auto. Qed.

Lemma keeps_trans s1 s2 s3 : keeps s1 s2 -> keeps s2 s3 -> keeps s1 s3.
Proof. intros [] []. split; auto. Qed.

Ltac case_fault e :=
  match goal with
  | |- context [fault e ?n] => destruct (fault e n) eqn:?
  end.

Ltac in_list := cbn; rewrite ?in_app_iff; cbn; tauto.

Ltac keeps_by_computation :=
  split; intros ? ?; cbn; rewrite ?in_app_iff; cbn; tauto.

(** Step a, with its guard: it returns, whatever the send does. *)
Lemma stop_signal_guarded e s :
  exists s',
    try_except (_send_stop_signal e parent_conn) is_Exception
      (fun x => logger ERROR [Text "Failed to send stop signal: "; StrExn x]) s
    = (Ok tt, s')
    /\ keeps s s'
    /\ monitoring_process s' = monitoring_process s
    /\ blocked s' = blocked s
    /\ stop_attempted s'.
Proof.
  unfold try_except, _send_stop_signal, stop_attempted, perform, logger.
  destruct (writable e parent_conn); [case_fault e|];
    eexists; (split; [reflexivity|]);
    (split; [keeps_by_computation|]); repeat split; in_list.
Qed.

(** Step b, with its guard: it returns, and the job-runner pipe has been
    polled. *)
Lemma jobrunner_signal_guarded e s :
  exists s',
    try_except (_handle_jobrunner_signal e) is_Exception
      (fun x => logger ERROR [Text "Error handling jobrunner signal: "; StrExn x]) s
    = (Ok tt, s')
    /\ keeps s s'
    /\ monitoring_process s' = monitoring_process s
    /\ blocked s' = blocked s
    /\ In (poll jobrunner_conn) (calls s').
Proof.
  unfold try_except, _handle_jobrunner_signal, poll_jobrunner, recv_jobrunner,
    _send_stop_signal, bind, perform, logger, ret.
  cbn.
  case_fault e; cbn.
  - eexists; (split; [reflexivity|]);
      (split; [keeps_by_computation|]); repeat split; in_list.
  - destruct (unread s) as [|message rest]; cbn.
    + eexists; (split; [reflexivity|]);
        (split; [keeps_by_computation|]); repeat split; in_list.
    + case_fault e; cbn.
      * eexists; (split; [reflexivity|]);
          (split; [keeps_by_computation|]); repeat split; in_list.
      * destruct (String.eqb message "Finished"); cbn;
          [destruct (writable e jobrunner_conn); cbn; [case_fault e|]|];
          eexists; (split; [reflexivity|]);
          (split; [keeps_by_computation|]); repeat split; in_list.
Qed.

(** Step d: it returns, and the close of the parent end has been
    attempted. *)
Lemma close_connections_guarded e s :
  exists s',
    _close_connections e s = (Ok tt, s')
    /\ keeps s s'
    /\ monitoring_process s' = monitoring_process s
    /\ blocked s' = blocked s
    /\ In (close parent_conn) (calls s').
Proof.
  unfold _close_connections, try_except, bind, perform, logger.
  cbn. case_fault e; cbn; [|case_fault e; cbn];
    eexists; (split; [reflexivity|]);
    (split; [keeps_by_computation|]); repeat split; in_list.
Qed.

(** Step c.  The bounded join is attempted.  If the step returns, the
    monitor is over; if it raises, a first failure was caught and logged
    and a call of the handler failed in turn.  An unbounded join is only
    made on a monitor that has been sent the signal. *)
Lemma finalize_process_cases e s :
  monitoring_process s = Running ->
  blocked s = false ->
  exists r s',
    _finalize_process e s = (r, s')
    /\ keeps s s'
    /\ In (join (Some (Int 5))) (calls s')
    /\ blocked s' = false
    /\ match r with
       | Ok _ => monitoring_process s' = Exited
       | Raise _ =>
           exists y, In (ERROR, [Text "Error finalizing profiling process: "; StrExn y])
                       (logs s')
       end.
Proof.
  intros R B. destruct s as [cs ls mon un cl bl]. cbn in R, B. subst mon bl.
  unfold _finalize_process, try_except, monitoring_process_is_alive, bind, perform,
    logger, ret.
  cbn.
  repeat (first [case_fault e
                | match goal with
                  | |- context [exits_in_time e] => destruct (exits_in_time e)
                  end];
          cbn).
  all: do 2 eexists; (split; [reflexivity|]);
    (split; [keeps_by_computation|]);
    (split; [in_list|]); (split; [reflexivity|]);
    first [reflexivity | eexists; in_list].
Qed.

(** Nothing fails and the monitor ignores the stop token: the bounded
    join, the liveness test, the termination and the unbounded join follow
    each other, then the two ends of the pipe are closed. *)
Lemma release_of_unresponsive_monitor e :
  (forall n, fault e n = None) ->
  exits_in_time e = false ->
  exists s before,
    release e (started e) = (Ok tt, s)
    /\ calls s
       = (before ++ [join (Some (Int 5)); is_alive; terminate; join None;
                     close parent_conn; close child_conn])%list
    /\ monitoring_process s = Exited.
Proof.
  intros F X. destruct e as [f wr ib ex]. cbn in F, X. subst ex.
  unfold release, _finalize_process, _close_connections, _handle_jobrunner_signal,
    _send_stop_signal, poll_jobrunner, recv_jobrunner, monitoring_process_is_alive,
    try_except, bind, perform, logger, ret, started.
  cbn.
  repeat first
    [ rewrite F
    | progress cbn
    | match goal with
      | |- context [wr ?c] => destruct (wr c)
      | |- context [match ib with [] => _ | _ :: _ => _ end] => destruct ib
      | |- context [String.eqb ?m "Finished"] => destruct (String.eqb m "Finished")
      end ].
  all: eexists;
    first [ eexists [_; _; _; _]; split; [reflexivity|split; reflexivity]
          | eexists [_; _; _]; split; [reflexivity|split; reflexivity]
          | eexists [_; _]; split; [reflexivity|split; reflexivity]
          | eexists [_]; split; [reflexivity|split; reflexivity]
          | eexists []; split; [reflexivity|split; reflexivity] ].
Qed.

(** What the release does on every exit from the scope.  The first step
    makes the send of the stop token (which may fail) or logs that the
    pipe is not writable; the
    job-runner pipe is polled and the bounded join of 5 seconds is made,
    whatever failed before them.  If the release returns, the close of
    the parent end has been attempted, the monitor is over and the
    outcome of the scope is that of its body; if it raises, a failure of
    the third step was caught and logged before.  An unbounded join is
    never made on a monitor that still runs unsignalled.  When nothing
    fails and the monitor does not stop by itself, the bounded join is
    followed by the liveness test, the termination and a join without
    timeout. *)
Theorem release_runs_guarded_steps (e : env) (body : result unit) :
  exists r s,
    profiling_context e body (started e) = (r, s)
    /\ stop_attempted s
    /\ In (poll jobrunner_conn) (calls s)
    /\ In (join (Some (Int 5))) (calls s)
    /\ blocked s = false
    /\ ((r = body /\ In (close parent_conn) (calls s)
         /\ monitoring_process s = Exited)
        \/ (exists x y,
              r = Raise x
              /\ In (ERROR, [Text "Error finalizing profiling process: "; StrExn y])
                   (logs s)))
    /\ ((forall n, fault e n = None) ->
        exits_in_time e = false ->
        exists before,
          calls s
          = (before ++ [join (Some (Int 5)); is_alive; terminate; join None;
                        close parent_conn; close child_conn])%list).
Proof.
  destruct (stop_signal_guarded e (started e)) as (s1 & E1 & K1 & M1 & B1 & A1).
  destruct (jobrunner_signal_guarded e s1) as (s2 & E2 & K2 & M2 & B2 & P2).
  destruct (finalize_process_cases e s2) as (r3 & s3 & E3 & K3 & J3 & B3 & C3).
  { rewrite M2, M1. reflexivity. }
  { rewrite B2, B1. reflexivity. }
  assert (A3 : stop_attempted s3).
  { destruct A1 as [A|A]; [left|right].
    - apply K3, K2. exact A.
    - apply K3, K2. exact A. }
  assert (P3 : In (poll jobrunner_conn) (calls s3)) by (apply K3; exact P2).
  destruct r3 as [[]|x].
  - destruct (close_connections_guarded e s3) as (s4 & E4 & K4 & M4 & B4 & C4).
    assert (R : release e (started e) = (Ok tt, s4)).
    { unfold release.
      erewrite CollectorsProperties.bind_ok by exact E1.
      erewrite CollectorsProperties.bind_ok by exact E2.
      erewrite CollectorsProperties.bind_ok by exact E3.
      exact E4. }
    exists body, s4. split; [|split; [|split; [|split; [|split; [|split]]]]].
    + unfold profiling_context.
      erewrite CollectorsProperties.bind_ok by exact R. reflexivity.
    + destruct A3 as [A|A]; [left|right]; apply K4; exact A.
    + apply K4. exact P3.
    + apply K4. exact J3.
    + rewrite B4. exact B3.
    + left. split; [reflexivity|]. split; [exact C4|]. rewrite M4. exact C3.
    + intros F X.
      destruct (release_of_unresponsive_monitor e F X) as (s' & before & R' & T & _).
      rewrite R in R'. injection R' as <-. exists before. exact T.
  - assert (R : release e (started e) = (Raise x, s3)).
    { unfold release.
      erewrite CollectorsProperties.bind_ok by exact E1.
      erewrite CollectorsProperties.bind_ok by exact E2.
      erewrite CollectorsProperties.bind_raise by exact E3.
      reflexivity. }
    exists (Raise x), s3. split; [|split; [|split; [|split; [|split; [|split]]]]].
    + unfold profiling_context.
      erewrite CollectorsProperties.bind_raise by exact R. reflexivity.
    + exact A3.
    + exact P3.
    + exact J3.
    + exact B3.
    + right. destruct C3 as [y L]. exists x, y. split; [reflexivity|exact L].
    + intros F X.
      destruct (release_of_unresponsive_monitor e F X) as (s' & before & R' & _).
      rewrite R in R'. discriminate.
Qed.

Lemma release_runs_guarded_steps_witness :
  exists r s,
    profiling_context unresponsive (Ok tt) (started unresponsive) = (r, s)
    /\ calls s
       = [send parent_conn "stop"; poll jobrunner_conn; recv jobrunner_conn;
          send jobrunner_conn "stop";
          join (Some (Int 5)); is_alive; terminate; join None;
          close parent_conn; close child_conn].
Proof.
  destruct (release_runs_guarded_steps unresponsive (Ok tt))
    as (r & s & E & _ & _ & _ & _ & _ & T).
  exists r, s. split; [exact E|].
  destruct (T (fun n => eq_refl) eq_refl) as [before _].
  vm_compute in E. injection E as _ <-. reflexivity.
Defined.

(** C9.  The release does not run its four steps on every exit: the
    handler of the third step is not guarded.  The handle of the
    monitoring process is closed, so that every call on it raises: the
    stop token is sent and the job-runner pipe polled, the bounded join
    raises, the handler of [_finalize_process] logs it and tests the
    liveness, which raises again, outside any guard.  The release ends
    there with that exception in place of the outcome of the body, and
    neither end of the pipe is ever closed. *)
Theorem release_skips_the_close_when_the_handler_fails :
  let s := snd (profiling_context closed_handle (Ok tt) (started closed_handle)) in
  fst (profiling_context closed_handle (Ok tt) (started closed_handle))
  = Raise process_object_is_closed
  /\ calls s
     = [send parent_conn "stop"; poll jobrunner_conn;
        join (Some (Int 5)); is_alive]
  /\ ~ runs_all_steps s.
Proof.
  split; [reflexivity|]. split; [reflexivity|].
  intros (_ & _ & _ & C). vm_compute in C.
  repeat destruct C as [C|C]; try discriminate C. exact C.
Qed.

End ContextProperties.

(** ** The exporter (util/metrics.py) *)

Module ExporterProperties.

Import PrometheusExporter.

(** C10.  Constructing the exporter without the variable
    __LITHOPS_SESSION_ID in the environment raises KeyError, whatever
    [enabled] and [config] are. *)
Theorem init_without_session_id_raises (environ : gmap string string)
    (enabled : bool) (config : option (gmap string string)) :
  environ !! "__LITHOPS_SESSION_ID" = None ->
  __init__ environ enabled config = Raise (KeyError "__LITHOPS_SESSION_ID").
Proof.
  intros H. unfold __init__. rewrite H. reflexivity.
Qed.

Lemma init_without_session_id_raises_witness :
  __init__ ∅ false None = Raise (KeyError "__LITHOPS_SESSION_ID").
Proof.
  apply (init_without_session_id_raises ∅ false None).
  reflexivity.
Defined.

End ExporterProperties.

(** * Further properties *)

(** ** Numbers *)

Module NumberProperties.

Lemma float_add_comm (x y : float) : (x + y = y + x)%float.
Proof.
  apply Prim2SF_inj. rewrite !add_spec.
  destruct (Prim2SF x) as [[]|[]| |sx mx ex], (Prim2SF y) as [[]|[]| |sy my ey];
    try reflexivity.
  unfold SF64add, SFadd. rewrite (Z.min_comm ey ex), Z.add_comm. reflexivity.
Qed.

Lemma num_add_comm (a b : number) : num_add a b = num_add b a.
Proof.
  destruct a as [x|x], b as [y|y]; cbn; f_equal;
    first [apply Z.add_comm | apply float_add_comm].
Qed.

Lemma SFcompare_antisym (x y : spec_float) :
  SFcompare y x = option_map CompOpp (SFcompare x y).
Proof.
  destruct x as [[]|[]| |[] mx ex], y as [[]|[]| |[] my ey]; try reflexivity; cbn;
    rewrite (Z.compare_antisym ex ey);
    destruct (ex ?= ey)%Z; cbn; try reflexivity;
    rewrite (Pos.compare_cont_antisym mx my Eq); cbn;
    destruct (Pos.compare_cont Eq mx my); reflexivity.
Qed.

Lemma CompOpp_option_involutive (c : option comparison) :
  option_map CompOpp (option_map CompOpp c) = c.
Proof. destruct c as [[]|]; reflexivity. Qed.

(** Comparing the other way round gives the opposite answer, also
    between an int and a float. *)
Lemma num_compare_antisym (a b : number) :
  num_compare b a = option_map CompOpp (num_compare a b).
Proof.
  destruct a as [x|x], b as [y|y]; cbn.
  - rewrite (Z.compare_antisym x y). reflexivity.
  - reflexivity.
  - rewrite CompOpp_option_involutive. reflexivity.
  - apply SFcompare_antisym.
Qed.

Lemma zero_cases (f : float) :
  (exists s, Prim2SF f = S754_zero s) -> f = zero \/ f = neg_zero.
Proof.
  intros [s H]. rewrite <- (SF2Prim_Prim2SF f), H.
  destruct s; [right|left]; reflexivity.
Qed.

(** [n == 0] holds of the int 0 and of the two float zeros, and of
    nothing else: not of a NaN, not of a tiny float. *)
Lemma num_eqb_zero (n : number) :
  num_eqb n (Int 0) = true <-> n = Int 0 \/ n = Float zero \/ n = Float neg_zero.
Proof.
  split.
  - destruct n as [z|f]; unfold num_eqb; cbn.
    + destruct (z ?= 0) eqn:E; try discriminate.
      apply Z.compare_eq in E. subst. auto.
    + unfold compare_int_float.
      destruct (Prim2SF f) as [s|[]| |s m e] eqn:P; cbn; try discriminate.
      * intros _. destruct (zero_cases f) as [-> | ->]; eauto.
      * set (v := if s then Z.neg m else Z.pos m).
        assert (V : v <> 0) by (destruct s; discriminate).
        intros H. exfalso.
        destruct (0 <=? e) eqn:Le.
        -- apply Z.leb_le in Le.
           assert (0 < 2 ^ e) by (apply Z.pow_pos_nonneg; lia).
           destruct (v * 2 ^ e) eqn:C; cbn in H; try discriminate. nia.
        -- clearbody v. destruct v; cbn in H; try discriminate. contradiction.
  - intros [-> | [-> | ->]]; reflexivity.
Qed.

End NumberProperties.

(** ** More on the records (worker/metrics.py) *)

Module MetricsFacts.

Import Metrics Spec2 NumberProperties.

(** X1.  Two network records whose additive fields are floats, or ints
    within the range of a double, can be added and subtracted: the result
    is a network record with the later timestamp, the round of the left
    operand, and each additive field the sum (the difference) of the two. *)
Theorem network_add_sub (ts cid r w rr wr ts' cid' r' w' rr' wr' : number) :
  forallb convertible [r; w; rr; wr; r'; w'; rr'; wr'] = true ->
  __add__ (Network ts cid r w rr wr) (Network ts' cid' r' w' rr' wr')
  = Ok (Network (py_max ts ts') cid
          (num_add r r') (num_add w w') (num_add rr rr') (num_add wr wr'))
  /\ __sub__ (Network ts cid r w rr wr) (Network ts' cid' r' w' rr' wr')
     = Ok (Network (py_max ts ts') cid
             (num_sub r r') (num_sub w w') (num_sub rr rr') (num_sub wr wr')).
Proof. intros _. split; reflexivity. Qed.

Lemma network_add_sub_witness :
  __add__ (Network (Float 1) (Int 0) (Float 10) (Float 2) (Int 0) (Int 0))
          (Network (Float 2) (Int 1) (Float 15) (Float 2) (Float 5) (Int 0))
  = Ok (Network (py_max (Float 1) (Float 2)) (Int 0)
          (num_add (Float 10) (Float 15)) (num_add (Float 2) (Float 2))
          (num_add (Int 0) (Float 5)) (num_add (Int 0) (Int 0)))
  /\ __sub__ (Network (Float 1) (Int 0) (Float 10) (Float 2) (Int 0) (Int 0))
             (Network (Float 2) (Int 1) (Float 15) (Float 2) (Float 5) (Int 0))
     = Ok (Network (py_max (Float 1) (Float 2)) (Int 0)
             (num_sub (Float 10) (Float 15)) (num_sub (Float 2) (Float 2))
             (num_sub (Int 0) (Float 5)) (num_sub (Int 0) (Int 0))).
Proof.
  apply (network_add_sub (Float 1) (Int 0) (Float 10) (Float 2) (Int 0) (Int 0)
           (Float 2) (Int 1) (Float 15) (Float 2) (Float 5) (Int 0)).
  reflexivity.
Defined.

(** X2.  Adding two network records in either order gives the same
    additive fields; the round is that of whichever record stands on the
    left.  The fields are floats, or ints within the range of a double. *)
Theorem network_add_commutes (a b : Metric) :
  type a = NetworkMetric ->
  type b = NetworkMetric ->
  fields_convertible a = true ->
  fields_convertible b = true ->
  exists r r',
    __add__ a b = Ok r
    /\ __add__ b a = Ok r'
    /\ (forall field,
          In field ["net_read_mb"; "net_write_mb"; "net_read_rate"; "net_write_rate"] ->
          getattr r field = getattr r' field)
    /\ collection_id r = collection_id a
    /\ collection_id r' = collection_id b.
Proof.
  intros Ta Tb _ _. destruct a; try discriminate Ta. destruct b; try discriminate Tb.
  do 2 eexists. split; [reflexivity|]. split; [reflexivity|].
  split; [|split; reflexivity].
  intros field [<-|[<-|[<-|[<-|[]]]]]; cbn; f_equal; apply num_add_comm.
Qed.

Lemma network_add_commutes_witness :
  exists r r',
    __add__ (Network (Float 1) (Int 0) (Float 10) (Float 2) (Int 0) (Int 0))
            (Network (Float 2) (Int 1) (Float 15) (Float 2) (Float 5) (Int 0)) = Ok r
    /\ __add__ (Network (Float 2) (Int 1) (Float 15) (Float 2) (Float 5) (Int 0))
               (Network (Float 1) (Int 0) (Float 10) (Float 2) (Int 0) (Int 0)) = Ok r'
    /\ getattr r "net_read_mb" = getattr r' "net_read_mb"
    /\ collection_id r = Int 0
    /\ collection_id r' = Int 1.
Proof.
  destruct (network_add_commutes
              (Network (Float 1) (Int 0) (Float 10) (Float 2) (Int 0) (Int 0))
              (Network (Float 2) (Int 1) (Float 15) (Float 2) (Float 5) (Int 0))
              eq_refl eq_refl eq_refl eq_refl) as (r & r' & E & E' & F & C & C').
  exists r, r'. repeat split; try assumption.
  apply F. left. reflexivity.
Defined.

(** X3.  The two base classes cannot be instantiated.  Whatever the
    keywords, the call does not return; with exactly the declared fields
    it gets as far as [__post_init__], which raises AttributeError. *)
Theorem base_classes_have_no_instances (kw : dict number) (ts cid p pp : number) :
  (forall m, new MetricBase kw <> Ok m)
  /\ (forall m, new ProcessMetric kw <> Ok m)
  /\ new MetricBase [("timestamp", ts); ("collection_id", cid)]
     = Raise (AttributeError "MetricBase must define 'METRIC_TYPES_FIELDS'.")
  /\ new ProcessMetric
       [("timestamp", ts); ("collection_id", cid); ("pid", p); ("parent_pid", pp)]
     = Raise (AttributeError "ProcessMetric must define 'METRIC_TYPES_FIELDS'.").
Proof.
  split; [|split; [|split; reflexivity]]; intros m; unfold new;
    repeat match goal with
           | |- context [match ?l with [] => _ | _ :: _ => _ end] => destruct l
           end; discriminate.
Qed.

(** X4.  Calling a class with the slots of one of its instances gives the
    instance back; and whenever a call returns a record, the record is of
    that class and each of its slots holds the keyword of that name. *)
Theorem new_binds_keywords :
  (forall m, new (type m) (slots m) = Ok m)
  /\ (forall c kw m,
        new c kw = Ok m ->
        type m = c
        /\ forall name, In name (init_params c) -> getattr m name = dict_get kw name).
Proof.
  split.
  - intros []; reflexivity.
  - intros c kw m. unfold new.
    do 2 (match goal with
          | |- context [match ?l with [] => _ | _ :: _ => _ end] => destruct l
          end; [|discriminate]).
    destruct c; cbn [METRIC_TYPES_FIELDS]; try discriminate;
      unfold fill; intros H;
      repeat match type of H with
             | context [dict_get kw ?k] =>
                 let E := fresh "E" in
                 destruct (dict_get kw k) eqn:E; cbn in H; [|discriminate H]
             end;
      injection H as <-; (split; [reflexivity|]);
      intros name I; cbn in I;
      repeat (destruct I as [<-|I]; [cbn; congruence|]); destruct I.
Qed.

Lemma new_binds_keywords_witness :
  type (Memory (Float 1) (Int 0) (Int 7) (Int 1) (Int 50)) = MemoryMetric
  /\ forall name, In name (init_params MemoryMetric) ->
       getattr (Memory (Float 1) (Int 0) (Int 7) (Int 1) (Int 50)) name
       = dict_get [("timestamp", Float 1); ("pid", Int 7); ("parent_pid", Int 1);
                   ("memory_usage", Int 50); ("collection_id", Int 0)] name.
Proof.
  destruct new_binds_keywords as [_ B].
  apply (B MemoryMetric
           [("timestamp", Float 1); ("pid", Int 7); ("parent_pid", Int 1);
            ("memory_usage", Int 50); ("collection_id", Int 0)]).
  reflexivity.
Defined.

(** X5.  [<] between records looks at the timestamps only, so it works
    across classes: a record is before another exactly when its timestamp
    is the smaller one, as ints by the order of the integers and as floats
    by the [<] of the doubles.  No record is before itself, and of two
    records at most one is before the other. *)
Theorem lt_is_strict (a b : Metric) :
  __lt__ a a = false
  /\ (__lt__ a b = true -> __lt__ b a = false)
  /\ (timestamp a = timestamp b -> __lt__ a b = false)
  /\ (__lt__ a b = true <-> num_compare (timestamp a) (timestamp b) = Some Lt)
  /\ (forall x y, timestamp a = Int x -> timestamp b = Int y ->
        (__lt__ a b = true <-> x < y))
  /\ (forall x y, timestamp a = Float x -> timestamp b = Float y ->
        __lt__ a b = (x <? y)%float).
Proof.
  assert (R : forall x, num_ltb x x = false).
  { intros x. unfold num_ltb. pose proof (num_compare_antisym x x) as H.
    destruct (num_compare x x) as [[]|]; try reflexivity. discriminate H. }
  split; [apply R|]. split; [|split; [|split; [|split]]].
  - unfold __lt__, num_ltb. rewrite (num_compare_antisym (timestamp a) (timestamp b)).
    destruct (num_compare (timestamp a) (timestamp b)) as [[]|]; cbn; congruence.
  - intros E. unfold __lt__. rewrite E. apply R.
  - unfold __lt__, num_ltb.
    destruct (num_compare (timestamp a) (timestamp b)) as [[]|];
      split; congruence.
  - intros x y Ea Eb. unfold __lt__, num_ltb. rewrite Ea, Eb. cbn.
    destruct (Z.compare_spec x y); split; first [lia | congruence | reflexivity].
  - intros x y Ea Eb. unfold __lt__, num_ltb. rewrite Ea, Eb. cbn.
    rewrite ltb_spec. unfold SFltb. reflexivity.
Qed.

Lemma lt_is_strict_witness :
  __lt__ (Network (Float 2) (Int 1) (Float 15) (Float 2) (Float 5) (Int 0))
         (Memory (Float 1) (Int 0) (Int 7) (Int 1) (Int 50)) = false
  /\ __lt__ (Memory (Int 1) (Int 0) (Int 7) (Int 1) (Int 50))
            (Network (Int 2) (Int 1) (Float 15) (Float 2) (Float 5) (Int 0)) = true.
Proof.
  split.
  - apply (lt_is_strict (Memory (Float 1) (Int 0) (Int 7) (Int 1) (Int 50))
             (Network (Float 2) (Int 1) (Float 15) (Float 2) (Float 5) (Int 0))).
    reflexivity.
  - apply (lt_is_strict (Memory (Int 1) (Int 0) (Int 7) (Int 1) (Int 50))
             (Network (Int 2) (Int 1) (Float 15) (Float 2) (Float 5) (Int 0))
           ) with (x := 1) (y := 2); [reflexivity| reflexivity| lia].
Defined.

(** X6.  [A / n] raises the ValueError for a zero divisor exactly when
    [n] is the int 0 or one of the float zeros 0.0 and -0.0; a NaN or a
    tiny non-zero float is not taken for zero. *)
Theorem truediv_zero_test (a : Metric) (n : number) :
  __truediv__ a n = Raise (ValueError "Cannot divide by zero.")
  <-> n = Int 0 \/ n = Float zero \/ n = Float neg_zero.
Proof.
  rewrite <- num_eqb_zero. unfold __truediv__.
  destruct (num_eqb n (Int 0)) eqn:Z; [tauto|].
  split; [|discriminate].
  destruct a; cbn; unfold num_truediv; rewrite Z; discriminate.
Qed.

End MetricsFacts.

(** ** More on the collectors (worker/metrics_collectors.py) *)

Module CollectorsFacts.

Import Metrics Collectors Spec Spec2 CollectorsProperties.

Lemma on_process_cases {A} w e pid (f : process_info -> A) s :
  (exists info, processes (w (tick s)) pid = Some info
                /\ on_process w e pid f s = (Ok (f info), advance (emit e s)))
  \/ (processes (w (tick s)) pid = None
      /\ on_process w e pid f s = (Raise (NoSuchProcess pid), advance (emit e s))).
Proof.
  destruct (processes (w (tick s)) pid) as [info|] eqn:E.
  - left. exists info. split; [reflexivity|]. apply on_process_there. exact E.
  - right. split; [reflexivity|]. apply on_process_gone. exact E.
Qed.

Ltac appends_by_computation :=
  split; [cbn; rewrite ?app_nil_r; reflexivity | intros []; intros; try congruence; reflexivity].

(** Run a decorated collection up to the call for which the process is
    gone. *)
Ltac run_until_gone :=
  unfold handle_psutil_error, try_except, Process;
  repeat first [ erewrite on_process_there by eassumption
               | erewrite on_process_gone by eassumption
               | unfold bind at 1 ];
  reflexivity.

Lemma memory_collect_any w s pid ppid cid :
  exists r s',
    MemoryMetricCollector.collect_metric w pid ppid cid s = (Ok r, s')
    /\ appends Cmemory (option_list r) s s'
    /\ forall m, r = Some m ->
         type m = MemoryMetric /\ Metrics.pid m = Some (Int pid)
         /\ collection_id m = Int cid.
Proof.
  unfold MemoryMetricCollector.collect_metric.
  erewrite bind_ok by apply time_run.
  set (s0 := advance (emit time_time s)).
  destruct (processes (w (tick s0)) pid) as [i1|] eqn:E1.
  - destruct (processes (w (S (tick s0))) pid) as [i2|] eqn:E2.
    + do 2 eexists. split; [exact (memory_collect_there w s0 pid ppid _ cid i1 i2 E1 E2)|].
      split; [appends_by_computation|].
      intros m [= <-]. repeat split.
    + do 2 eexists. split.
      * unfold MemoryMetricCollector._collect. run_until_gone.
      * split; [appends_by_computation|]. discriminate.
  - do 2 eexists. split.
    + unfold MemoryMetricCollector._collect.
      exact (handle_psutil_error_gone w pid _ s0 E1).
    + split; [appends_by_computation|]. discriminate.
Qed.

Lemma disk_collect_any w s pid ppid cid :
  Forall (fun m => type m = DiskMetric) (disk_metrics s) ->
  exists r s',
    DiskMetricCollector.collect_metric w pid ppid cid s = (Ok r, s')
    /\ appends Cdisk (option_list r) s s'
    /\ forall m, r = Some m ->
         type m = DiskMetric /\ Metrics.pid m = Some (Int pid)
         /\ collection_id m = Int cid.
Proof.
  intros T.
  unfold DiskMetricCollector.collect_metric.
  erewrite bind_ok by apply time_run.
  set (s0 := advance (emit time_time s)).
  destruct (processes (w (tick s0)) pid) as [i1|] eqn:E1.
  - destruct (processes (w (S (tick s0))) pid) as [i2|] eqn:E2.
    + do 2 eexists. split; [exact (disk_collect_there w s0 pid ppid _ cid i1 i2 E1 E2 T)|].
      split; [appends_by_computation|].
      intros m [= <-]. repeat split.
    + do 2 eexists. split.
      * unfold DiskMetricCollector._collect. run_until_gone.
      * split; [appends_by_computation|]. discriminate.
  - do 2 eexists. split.
    + unfold DiskMetricCollector._collect.
      exact (handle_psutil_error_gone w pid _ s0 E1).
    + split; [appends_by_computation|]. discriminate.
Qed.

Lemma cpu_collect_any w s pid ppid cid :
  exists r s',
    CPUMetricCollector.collect_metric w pid ppid cid s = (Ok r, s')
    /\ appends Ccpu (option_list r) s s'
    /\ forall m, r = Some m ->
         type m = CPUMetric /\ Metrics.pid m = Some (Int pid)
         /\ collection_id m = Int cid.
Proof.
  unfold CPUMetricCollector.collect_metric.
  erewrite bind_ok by apply time_run.
  set (s0 := advance (emit time_time s)).
  destruct (processes (w (tick s0)) pid) as [i1|] eqn:E1.
  - destruct (processes (w (S (tick s0))) pid) as [i2|] eqn:E2.
    + destruct (processes (w (S (S (tick s0)))) pid) as [i3|] eqn:E3.
      * do 2 eexists.
        split; [exact (cpu_collect_there w s0 pid ppid _ cid i1 i2 i3 E1 E2 E3)|].
        split; [appends_by_computation|].
        intros m [= <-]. repeat split.
      * do 2 eexists. split.
        -- unfold CPUMetricCollector._collect. run_until_gone.
        -- split; [appends_by_computation|]. discriminate.
    + do 2 eexists. split.
      * unfold CPUMetricCollector._collect. run_until_gone.
      * split; [appends_by_computation|]. discriminate.
  - do 2 eexists. split.
    + unfold CPUMetricCollector._collect.
      exact (handle_psutil_error_gone w pid _ s0 E1).
    + split; [appends_by_computation|]. discriminate.
Qed.

(** X7.  Whenever a memory, CPU or disk collection returns, also when
    the process has exited half-way and the decorator has turned
    NoSuchProcess into None: it has appended a record to its own list
    exactly when it returns one, and has touched no other list.  A
    returned record is of the collector's class, about the pid asked for,
    and of the round asked for. *)
Theorem collector_appends_what_it_returns (w : world) (s : state) (pid ppid cid : Z) :
  Forall (fun m => type m = DiskMetric) (disk_metrics s) ->
  (forall r s',
      MemoryMetricCollector.collect_metric w pid ppid cid s = (Ok r, s') ->
      appends Cmemory (option_list r) s s'
      /\ forall m, r = Some m ->
           type m = MemoryMetric /\ Metrics.pid m = Some (Int pid)
           /\ collection_id m = Int cid)
  /\ (forall r s',
         CPUMetricCollector.collect_metric w pid ppid cid s = (Ok r, s') ->
         appends Ccpu (option_list r) s s'
         /\ forall m, r = Some m ->
              type m = CPUMetric /\ Metrics.pid m = Some (Int pid)
              /\ collection_id m = Int cid)
  /\ (forall r s',
         DiskMetricCollector.collect_metric w pid ppid cid s = (Ok r, s') ->
         appends Cdisk (option_list r) s s'
         /\ forall m, r = Some m ->
              type m = DiskMetric /\ Metrics.pid m = Some (Int pid)
              /\ collection_id m = Int cid).
Proof.
  intros T. split; [|split].
  - destruct (memory_collect_any w s pid ppid cid) as (r0 & s0 & E & A & P).
    intros r s' H. rewrite E in H. injection H as <- <-. split; assumption.
  - destruct (cpu_collect_any w s pid ppid cid) as (r0 & s0 & E & A & P).
    intros r s' H. rewrite E in H. injection H as <- <-. split; assumption.
  - destruct (disk_collect_any w s pid ppid cid T) as (r0 & s0 & E & A & P).
    intros r s' H. rewrite E in H. injection H as <- <-. split; assumption.
Qed.

Lemma collector_appends_what_it_returns_witness :
  let run := MemoryMetricCollector.collect_metric family 11 10 0 initial_state in
  exists m,
    fst run = Ok (Some m)
    /\ appends Cmemory [m] initial_state (snd run)
    /\ type m = MemoryMetric /\ Metrics.pid m = Some (Int 11)
    /\ collection_id m = Int 0.
Proof.
  intros run.
  destruct (collector_appends_what_it_returns family initial_state 11 10 0
              ltac:(constructor)) as [H _].
  eexists.
  assert (E : run = (Ok (Some _), snd run)) by (vm_compute; reflexivity).
  destruct (H _ _ E) as [A P].
  split; [rewrite E; reflexivity|]. split; [exact A|].
  apply P. reflexivity.
Defined.

(** X8.  The search for the previous sample of a pid, in a list of
    records about processes: it returns the newest record about the pid
    (no newer record is about it), or nothing when no record is about it;
    it does not raise. *)
Theorem find_previous_metric_is_newest (l : list Metric) (pid : Z) :
  Forall (fun m => process_scoped (type m) = true) l ->
  (exists prev older newer,
      _find_previous_metric l pid = Ok (Some prev)
      /\ l = (older ++ prev :: newer)%list
      /\ about pid prev = true
      /\ Forall (fun m => about pid m = false) newer)
  \/ (_find_previous_metric l pid = Ok None
      /\ Forall (fun m => about pid m = false) l).
Proof.
  intros H. rewrite (find_previous_metric_sample l pid H). unfold previous_sample.
  clear H. induction l as [|m l IH] using rev_ind.
  - right. split; [reflexivity|constructor].
  - rewrite List.filter_app. cbn. destruct (about pid m) eqn:A.
    + left. exists m, l, []. rewrite last_snoc.
      split; [reflexivity|]. split; [reflexivity|]. split; [exact A|constructor].
    + rewrite app_nil_r.
      destruct IH as [(prev & older & newer & E & -> & Ap & F)|[E F]].
      * left. exists prev, older, (newer ++ [m])%list.
        split; [exact E|]. split; [rewrite <- app_assoc; reflexivity|].
        split; [exact Ap|]. apply Forall_app. split; [exact F|].
        constructor; [exact A|constructor].
      * right. split; [exact E|]. apply Forall_app. split; [exact F|].
        constructor; [exact A|constructor].
Qed.

Lemma find_previous_metric_is_newest_witness :
  exists prev older newer,
    _find_previous_metric
      [Memory (Float 1) (Int 0) (Int 7) (Int 1) (Int 50);
       Memory (Float 1) (Int 0) (Int 8) (Int 1) (Int 20);
       Memory (Float 2) (Int 1) (Int 7) (Int 1) (Int 60);
       Memory (Float 2) (Int 1) (Int 8) (Int 1) (Int 30)] 7
    = Ok (Some prev)
    /\ [Memory (Float 1) (Int 0) (Int 7) (Int 1) (Int 50);
        Memory (Float 1) (Int 0) (Int 8) (Int 1) (Int 20);
        Memory (Float 2) (Int 1) (Int 7) (Int 1) (Int 60);
        Memory (Float 2) (Int 1) (Int 8) (Int 1) (Int 30)]
       = (older ++ prev :: newer)%list
    /\ about 7 prev = true
    /\ Forall (fun m => about 7 m = false) newer.
Proof.
  destruct (find_previous_metric_is_newest
              [Memory (Float 1) (Int 0) (Int 7) (Int 1) (Int 50);
               Memory (Float 1) (Int 0) (Int 8) (Int 1) (Int 20);
               Memory (Float 2) (Int 1) (Int 7) (Int 1) (Int 60);
               Memory (Float 2) (Int 1) (Int 8) (Int 1) (Int 30)] 7)
    as [H|[H _]].
  - repeat constructor.
  - exact H.
  - discriminate H.
Defined.

(** *** What a round keeps *)

Lemma extends_refl s : extends s s.
Proof. intros c. exists []. split; [rewrite app_nil_r; reflexivity|constructor]. Qed.

Lemma extends_trans s1 s2 s3 : extends s1 s2 -> extends s2 s3 -> extends s1 s3.
Proof.
  intros H12 H23 c. destruct (H12 c) as (n1 & E1 & F1), (H23 c) as (n2 & E2 & F2).
  exists (n1 ++ n2)%list. split.
  - rewrite E2, E1, app_assoc. reflexivity.
  - apply Forall_app. split; assumption.
Qed.

Lemma extends_well_typed s s' : well_typed s -> extends s s' -> well_typed s'.
Proof.
  intros W X c. destruct (X c) as (new & E & F). rewrite E.
  apply Forall_app. split; [apply W|exact F].
Qed.

Lemma same_metrics_extends s s' : same_metrics s s' -> extends s s'.
Proof.
  intros H c. exists []. rewrite app_nil_r. split; [apply H|constructor].
Qed.

Lemma appends_extends c new s s' :
  appends c new s s' -> Forall (fun m => type m = class_of c) new -> extends s s'.
Proof.
  intros [E O] F c'. destruct (decide (c' = c)) as [->|D].
  - exists new. split; assumption.
  - exists []. rewrite app_nil_r. split; [apply O; exact D|constructor].
Qed.

Lemma returned_extends c (r : option Metric) s s' :
  appends c (option_list r) s s' ->
  (forall m, r = Some m -> type m = class_of c) ->
  extends s s'.
Proof.
  intros A T. apply (appends_extends c (option_list r)); [exact A|].
  destruct r as [m|]; cbn; [|constructor].
  constructor; [apply T; reflexivity|constructor].
Qed.

(** The three collections made for one process, in any world. *)
Lemma collect_metrics_for_process_safe w pid ppid index s :
  well_typed s ->
  exists s',
    _collect_metrics_for_process w pid ppid index s = (Ok tt, s')
    /\ extends s s'.
Proof.
  intros W.
  destruct (memory_collect_any w s pid ppid index) as (rm & s1 & Em & Am & Tm).
  assert (X1 : extends s s1).
  { apply (returned_extends Cmemory rm); [exact Am|]. intros m H. apply (Tm m H). }
  pose proof (extends_well_typed _ _ W X1) as W1.
  destruct (cpu_collect_any w s1 pid ppid index) as (rc & s2 & Ec & Ac & Tc).
  assert (X2 : extends s1 s2).
  { apply (returned_extends Ccpu rc); [exact Ac|]. intros m H. apply (Tc m H). }
  pose proof (extends_well_typed _ _ W1 X2) as W2.
  destruct (disk_collect_any w s2 pid ppid index (W2 Cdisk)) as (rd & s3 & Ed & Ad & Td).
  assert (X3 : extends s2 s3).
  { apply (returned_extends Cdisk rd); [exact Ad|]. intros m H. apply (Td m H). }
  exists s3. split.
  - unfold _collect_metrics_for_process.
    erewrite bind_ok by exact Em.
    erewrite bind_ok by exact Ec.
    erewrite bind_ok by exact Ed.
    reflexivity.
  - exact (extends_trans _ _ _ (extends_trans _ _ _ X1 X2) X3).
Qed.

Lemma for_each_process_safe w index procs : forall s,
  well_typed s ->
  extends s
    (snd (for_each procs (fun proc =>
            let pid := proc in
            let* parent_pid := on_process w (Process_ppid proc) proc info_ppid in
            _collect_metrics_for_process w pid parent_pid index) s)).
Proof.
  induction procs as [|p procs IH]; intros s W.
  - apply extends_refl.
  - cbn [for_each].
    destruct (on_process_cases w (Process_ppid p) p info_ppid s)
      as [(info & _ & E)|[_ E]].
    + set (s0 := advance (emit (Process_ppid p) s)) in *.
      assert (W0 : well_typed s0) by (intros []; exact (W _)).
      destruct (collect_metrics_for_process_safe w p (info_ppid info) index s0 W0)
        as (s1 & E1 & X1).
      erewrite bind_ok.
      2:{ erewrite bind_ok by exact E. exact E1. }
      apply (extends_trans s s0); [apply same_metrics_extends; intros []; reflexivity|].
      exact (extends_trans _ _ _ X1 (IH s1 (extends_well_typed _ _ W0 X1))).
    + erewrite bind_raise.
      2:{ erewrite bind_raise by exact E. reflexivity. }
      apply same_metrics_extends. intros []; reflexivity.
Qed.

(** A round in any world of the model: the process list, then each
    process, then the network. *)
Lemma round_run_any (w : world) (s : state) (root index : Z) :
  well_typed s ->
  let s' := snd (collect_all_metrics w root index s) in
  extends s s' /\ well_typed s'.
Proof.
  intros W.
  assert (G : extends s (snd (collect_all_metrics w root index s))).
  { unfold collect_all_metrics, _get_process_list, Process.
    destruct (on_process_cases w (psutil_Process root) root (fun _ => root) s)
      as [(i0 & _ & E0)|[_ E0]].
    2:{ erewrite bind_raise.
        2:{ erewrite bind_raise by exact E0. reflexivity. }
        apply same_metrics_extends. intros []; reflexivity. }
    set (s0 := advance (emit (psutil_Process root) s)) in *.
    destruct (on_process_cases w (Process_children root) root info_children s0)
      as [(i1 & _ & E1)|[_ E1]].
    2:{ erewrite bind_raise.
        2:{ erewrite bind_ok by exact E0.
            erewrite bind_raise by exact E1. reflexivity. }
        apply same_metrics_extends. intros []; reflexivity. }
    set (s1 := advance (emit (Process_children root) s0)) in *.
    assert (W1 : well_typed s1) by (intros []; exact (W _)).
    assert (X1 : extends s s1) by (apply same_metrics_extends; intros []; reflexivity).
    pose proof (for_each_process_safe w index ([root] ++ info_children i1) s1 W1) as X2.
    assert (L : (let* current_process := on_process w (psutil_Process root) root
                                            (fun _ => root) in
                 let* children := on_process w (Process_children current_process)
                                    current_process info_children in
                 ret ([current_process] ++ children)%list) s
                = (Ok ([root] ++ info_children i1)%list, s1)).
    { erewrite bind_ok by exact E0. erewrite bind_ok by exact E1. reflexivity. }
    erewrite bind_ok by exact L.
    match type of X2 with
    | extends _ (snd (?run s1)) =>
        destruct (run s1) as [[[]|x] s2] eqn:E2; cbn [snd] in X2
    end.
    - destruct (network_collect_well_typed w s2 index
                  (extends_well_typed _ _ W1 X2)) as (net & s3 & E3 & G3 & T3 & _).
      erewrite bind_ok by exact E2.
      erewrite bind_ok by exact E3. cbn [snd ret].
      apply (extends_trans _ _ _ X1), (extends_trans _ _ _ X2).
      apply (appends_extends Cnetwork [net]).
      + destruct G3 as [_ Gc Gm Gd Gn _ _]. rewrite app_nil_r in Gc, Gm, Gd.
        split; [exact Gn|].
        intros []; intros; try congruence; assumption.
      + constructor; [exact T3|constructor].
    - erewrite bind_raise by exact E2. cbn [snd].
      exact (extends_trans _ _ _ X1 X2). }
  cbv zeta. split; [exact G|exact (extends_well_typed _ _ W G)].
Qed.

(** X9.  A round, whether it returns or is cut short: from lists that
    hold records of their own class only, [collect_all_metrics] only
    appends to the four lists, and only records of the right class.
    Nothing is removed or rewritten, also when a process vanishes in the
    middle of the round. *)
Theorem round_only_appends (w : world) (s : state) (root index : Z) :
  well_typed s ->
  let s' := snd (collect_all_metrics w root index s) in
  extends s s' /\ well_typed s'.
Proof. apply round_run_any. Qed.

Lemma round_only_appends_witness :
  let s' := snd (collect_all_metrics bereft 10 0 initial_state) in
  extends initial_state s' /\ well_typed s'.
Proof.
  apply (round_only_appends bereft initial_state 10 0).
  intros []; constructor.
Defined.

Lemma for_each_app {S A} (f : A -> ST S unit) (l1 l2 : list A) : forall s s1,
  for_each l1 f s = (Ok tt, s1) ->
  for_each (l1 ++ l2) f s = for_each l2 f s1.
Proof.
  induction l1 as [|x l1 IH]; intros s s1 H.
  - cbn in H. injection H as <-. reflexivity.
  - cbn [for_each app] in *. unfold bind in *.
    destruct (f x s) as [[[]|e] sx]; [|discriminate H].
    exact (IH sx s1 H).
Qed.

(** X10.  A process that the root still lists among its descendants but
    that is gone when the loop reaches it: asking for its parent raises
    NoSuchProcess outside any guard, and the round ends there.  The
    processes before it in the list have been sampled; those after it are
    not, and no network record is made for the round. *)
Theorem vanished_descendant_aborts_round (w : world) (s : state) (root index : Z)
    (before : list Z) (lost : Z) (after : list Z) :
  root :: descendants w (S (tick s)) root = (before ++ lost :: after)%list ->
  alive w root ->
  Forall (alive w) before ->
  gone w lost 0 ->
  well_typed s ->
  exists s' cpu mem disk,
    collect_all_metrics w root index s = (Raise (NoSuchProcess lost), s')
    /\ grows s s'
         ([psutil_Process root; Process_children root]
          ++ flat_map process_calls before ++ [Process_ppid lost])
         cpu mem disk []
    /\ samples_of index before MemoryMetric mem
    /\ samples_of index before CPUMetric cpu
    /\ samples_of index before DiskMetric disk.
Proof.
  intros L Ar Ab G W.
  destruct (alive_there w root (tick s) Ar) as [i0 E0].
  destruct (alive_there w root (S (tick s)) Ar) as [i1 E1].
  set (s0 := advance (emit (Process_children root)
                (advance (emit (psutil_Process root) s)))).
  assert (G0 : grows s s0 [psutil_Process root; Process_children root] [] [] [] [])
    by (split; cbn; rewrite ?app_nil_r, <- ?app_assoc; reflexivity).
  assert (W0 : well_typed s0) by (intros []; exact (W _)).
  assert (P : _get_process_list w root s = (Ok (before ++ lost :: after)%list, s0)).
  { unfold _get_process_list, Process.
    erewrite bind_ok by (apply on_process_there; exact E0).
    erewrite bind_ok by (apply on_process_there; exact E1).
    rewrite <- L. unfold descendants. rewrite E1. reflexivity. }
  destruct (processes_sampled w index before s0 Ab W0)
    as (s1 & cpu & mem & disk & E & G1 & Sc & Sm & Sd & W1).
  assert (Gl : processes (w (tick s1)) lost = None) by (apply G; lia).
  exists (advance (emit (Process_ppid lost) s1)), cpu, mem, disk.
  split; [|split; [|split; [|split]]]; try assumption.
  - unfold collect_all_metrics.
    erewrite bind_ok by exact P.
    cbv beta.
    erewrite bind_raise; [reflexivity|].
    erewrite (for_each_app _ before (lost :: after) s0 s1) by exact E.
    cbn [for_each].
    erewrite bind_raise; [reflexivity|].
    erewrite bind_raise; [reflexivity|].
    apply on_process_gone. exact Gl.
  - assert (G2 : grows s1 (advance (emit (Process_ppid lost) s1))
                   [Process_ppid lost] [] [] [] [])
      by (split; cbn; rewrite ?app_nil_r, <- ?app_assoc; reflexivity).
    pose proof (grows_trans _ _ _ _ _ _ _ _ _ _ _ _ _
                  (grows_trans _ _ _ _ _ _ _ _ _ _ _ _ _ G0 G1) G2) as H.
    rewrite !app_nil_r in H. cbn [app] in H. cbn [app]. exact H.
Qed.

Lemma vanished_descendant_aborts_round_witness :
  exists s' cpu mem disk,
    collect_all_metrics bereft 10 0 initial_state = (Raise (NoSuchProcess 11), s')
    /\ grows initial_state s'
         ([psutil_Process 10; Process_children 10]
          ++ flat_map process_calls [10] ++ [Process_ppid 11])
         cpu mem disk []
    /\ samples_of 0 [10] MemoryMetric mem
    /\ samples_of 0 [10] CPUMetric cpu
    /\ samples_of 0 [10] DiskMetric disk.
Proof.
  apply (vanished_descendant_aborts_round bereft initial_state 10 0 [10] 11 [12]).
  - reflexivity.
  - intros t. discriminate.
  - repeat constructor. intros t. discriminate.
  - intros t _. reflexivity.
  - intros []; constructor.
Defined.

End CollectorsFacts.

(** ** More on the sampling loop (worker/profiler.py) *)

Module ProfilerFacts.

Import Metrics Collectors Profiler Spec Spec2 CollectorsProperties CollectorsFacts
  ProfilerProperties.

Lemma events_emit_all evs : forall s, events (emit_all evs s) = (events s ++ evs)%list.
Proof.
  induction evs as [|e evs IH]; intros s; cbn.
  - rewrite app_nil_r. reflexivity.
  - rewrite IH. cbn. rewrite <- app_assoc. reflexivity.
Qed.

Lemma only_events_emit_all evs : forall s, only_events s (emit_all evs s).
Proof.
  induction evs as [|e evs IH]; intros s; cbn.
  - repeat split.
  - destruct (IH (emit e s)) as (M & R & C & T).
    split; [intros c; rewrite M; destruct c; reflexivity|].
    repeat split; assumption.
Qed.

Lemma only_events_refl s : only_events s s.
Proof. repeat split. Qed.

Lemma only_events_trans s1 s2 s3 :
  only_events s1 s2 -> only_events s2 s3 -> only_events s1 s3.
Proof.
  intros (M1 & R1 & C1 & T1) (M2 & R2 & C2 & T2).
  split; [intros c; rewrite M2; apply M1|]. repeat split; congruence.
Qed.

Lemma send_record_run (j : job) (m : Metric) (metric_type : string)
    (keys : list string) (s : state) :
  String.eqb metric_type "network_metrics" = negb (process_scoped (type m)) ->
  _send_metrics_to_prometheus m metric_type keys (_prepare_profiling_data j) s
  = (Ok tt, emit_all (exports_of m keys (labels_of j m)) s).
Proof.
  intros H. unfold _send_metrics_to_prometheus. revert s.
  induction keys as [|key keys IH]; intros s; [reflexivity|].
  cbn [for_each exports_of flat_map].
  destruct (getattr m key) as [v|] eqn:G.
  - erewrite bind_ok; [rewrite IH; unfold emit_all; rewrite fold_left_app; reflexivity|].
    rewrite H. destruct m; cbn; reflexivity.
  - erewrite bind_ok by reflexivity. apply IH.
Qed.

(** X11.  The exports of one record whose slots are floats, or ints
    within the range of a double.  When [metric_type] is
    "network_metrics" for a network record and something else for a
    record about a process, the call returns after sending, for each key
    that names a slot and in the order of the keys, the float of the slot
    as a gauge; the labels are the three of the job, followed for a record
    about a process by its pid and the pid of its parent. *)
Theorem record_export (j : job) (m : Metric) (metric_type : string)
    (keys : list string) (s : state) :
  fields_convertible m = true ->
  String.eqb metric_type "network_metrics" = negb (process_scoped (type m)) ->
  _send_metrics_to_prometheus m metric_type keys (_prepare_profiling_data j) s
  = (Ok tt, emit_all (exports_of m keys (labels_of j m)) s).
Proof. intros _. apply send_record_run. Qed.

Lemma record_export_witness :
  _send_metrics_to_prometheus (Memory (Float 1) (Int 0) (Int 7) (Int 1) (Int 50))
    "memory_metrics" ["memory_usage"] (_prepare_profiling_data a_job) initial_state
  = (Ok tt,
     emit_all
       [send_metric "memory_usage" 50 "gauge"
          [("job_id", Text "J1"); ("executor_id", Text "E1"); ("call_id", Text "C1");
           ("pid", Str (Int 7)); ("parent_pid", Str (Int 1))]]
       initial_state).
Proof.
  apply (record_export a_job (Memory (Float 1) (Int 0) (Int 7) (Int 1) (Int 50))
           "memory_metrics" ["memory_usage"] initial_state).
  - reflexivity.
  - reflexivity.
Defined.

(** Any record, any [metric_type]: the exports may end in an
    AttributeError (a record without a pid under a process list), and
    only add events. *)
Lemma send_to_prometheus_only_events m metric_type profiling_data keys : forall s,
  exists r s',
    _send_metrics_to_prometheus m metric_type keys profiling_data s = (r, s')
    /\ only_events s s'.
Proof.
  unfold _send_metrics_to_prometheus.
  induction keys as [|key keys IH]; intros s.
  - exists (Ok tt), s. split; [reflexivity|apply only_events_refl].
  - cbn [for_each]. destruct (getattr m key) as [v|].
    + destruct (negb (String.eqb metric_type "network_metrics")).
      * destruct (getattr m "pid") as [p|] eqn:P.
        -- destruct (getattr m "parent_pid") as [pp|] eqn:PP.
           ++ match goal with
              | |- context [bind ?step _ s] =>
                  assert (E : exists labels,
                             step s = (Ok tt, emit (send_metric key (to_float v)
                                                      "gauge" labels) s))
              end.
              { eexists. unfold attribute. rewrite P, PP. reflexivity. }
              destruct E as [labels E].
              destruct (IH (emit (send_metric key (to_float v) "gauge" labels) s))
                as (r & s' & E' & O).
              exists r, s'. split; [erewrite bind_ok by exact E; exact E'|].
              apply (only_events_trans _ _ _ (only_events_emit_all [_] s) O).
           ++ exists (Raise (AttributeError
                               ("'" ++ __name__ (type m)
                                ++ "' object has no attribute 'parent_pid'"))), s.
              split; [|apply only_events_refl].
              erewrite bind_raise; [reflexivity|].
              unfold attribute. rewrite P, PP. reflexivity.
        -- exists (Raise (AttributeError
                            ("'" ++ __name__ (type m)
                             ++ "' object has no attribute 'pid'"))), s.
           split; [|apply only_events_refl].
           erewrite bind_raise; [reflexivity|].
           unfold attribute. rewrite P. reflexivity.
      * destruct (IH (emit (send_metric key (to_float v) "gauge" profiling_data) s))
          as (r & s' & E' & O).
        exists r, s'. split; [erewrite bind_ok by reflexivity; exact E'|].
        apply (only_events_trans _ _ _ (only_events_emit_all [_] s) O).
    + destruct (IH s) as (r & s' & E' & O).
      exists r, s'. split; [erewrite bind_ok by reflexivity; exact E'|exact O].
Qed.

(** One list of [METRIC_COLLECTIONS_FIELDS], within its guard. *)
Lemma send_one_list_only_events profiling_data index (item : string * list string) s :
  exists s',
    try_except
      (let* metric_list := (fun s => (Ok (collection_named (fst item) s), s)) in
       if (index <? length metric_list)%nat then
         match metric_list !! index with
         | Some metric =>
             _send_metrics_to_prometheus metric (fst item) (snd item) profiling_data
         | None => ret tt
         end
       else ret tt)
      is_Exception
      (fun e =>
         logger ERROR [Text "Error while processing "; Text (fst item);
                       Text ": "; StrExn e]) s
    = (Ok tt, s')
    /\ only_events s s'.
Proof.
  unfold try_except. erewrite bind_ok by reflexivity.
  destruct (index <? length (collection_named (fst item) s))%nat.
  2:{ exists s. split; [reflexivity|apply only_events_refl]. }
  destruct (collection_named (fst item) s !! index) as [metric|].
  2:{ exists s. split; [reflexivity|apply only_events_refl]. }
  destruct (send_to_prometheus_only_events metric (fst item) profiling_data (snd item) s)
    as ([[]|x] & s' & E & O); rewrite E.
  - exists s'. split; [reflexivity|exact O].
  - eexists. split; [reflexivity|].
    apply (only_events_trans _ _ _ O (only_events_emit_all [_] s')).
Qed.

Lemma send_metrics_run (profiling_data : dict pystr) (index : nat) (s : state) :
  exists s',
    _send_metrics profiling_data index s = (Ok tt, s')
    /\ only_events s s'.
Proof.
  unfold _send_metrics.
  generalize METRIC_COLLECTIONS_FIELDS. intros items. revert s.
  induction items as [|item items IH]; intros s.
  - exists s. split; [reflexivity|apply only_events_refl].
  - destruct (send_one_list_only_events profiling_data index item s) as (s1 & E1 & O1).
    destruct (IH s1) as (s2 & E2 & O2).
    exists s2. split; [|exact (only_events_trans _ _ _ O1 O2)].
    cbn [for_each]. erewrite bind_ok by exact E1. exact E2.
Qed.

(** X12.  The export of a round never raises and never touches the four
    lists or the pipe, whatever the lists hold and whatever the round
    number: an error under one list is logged and the next list is
    tried. *)
Theorem send_metrics_only_exports (profiling_data : dict pystr) (index : nat)
    (s : state) :
  exists s',
    _send_metrics profiling_data index s = (Ok tt, s')
    /\ only_events s s'.
Proof. apply send_metrics_run. Qed.

(** *** The events of an export *)






(** *** Rounds over a live tree *)

(** [_collect_metrics] over processes that all live: the guard has
    nothing to catch. *)
Lemma collect_metrics_alive w s root index procs :
  procs = root :: descendants w (S (tick s)) root ->
  Forall (alive w) procs ->
  well_typed s ->
  exists s' cpu mem disk net,
    _collect_metrics w root index s = (Ok tt, s')
    /\ grows s s' (round_calls root procs) cpu mem disk [net]
    /\ samples_of (Z.of_nat index) procs CPUMetric cpu
    /\ samples_of (Z.of_nat index) procs MemoryMetric mem
    /\ samples_of (Z.of_nat index) procs DiskMetric disk
    /\ type net = NetworkMetric
    /\ well_typed s'.
Proof.
  intros -> A W.
  assert (Ar : alive w root) by (inversion A; assumption).
  destruct (alive_there w root (tick s) Ar) as [i0 E0].
  destruct (alive_there w root (S (tick s)) Ar) as [i1 E1].
  set (s0 := advance (emit (Process_children root)
                (advance (emit (psutil_Process root) s)))).
  assert (G0 : grows s s0 [psutil_Process root; Process_children root] [] [] [] [])
    by (split; cbn; rewrite ?app_nil_r, <- ?app_assoc; reflexivity).
  assert (W0 : well_typed s0) by (intros []; exact (W _)).
  assert (L : _get_process_list w root s
              = (Ok (root :: descendants w (S (tick s)) root), s0)).
  { unfold _get_process_list, Process.
    erewrite bind_ok by (apply on_process_there; exact E0).
    erewrite bind_ok by (apply on_process_there; exact E1).
    unfold descendants. rewrite E1. reflexivity. }
  destruct (processes_sampled w (Z.of_nat index) _ s0 A W0)
    as (s1 & cpu & mem & disk & E & G1 & Sc & Sm & Sd & W1).
  destruct (network_collect_well_typed w s1 (Z.of_nat index) W1)
    as (net & s2 & En & G2 & Tn & _).
  exists s2, cpu, mem, disk, net.
  split; [|split; [|split; [|split; [|split; [|split]]]]]; try assumption.
  - unfold _collect_metrics, try_except, collect_all_metrics.
    erewrite bind_ok by exact L.
    erewrite bind_ok by exact E.
    erewrite bind_ok by exact En.
    reflexivity.
  - pose proof (grows_trans _ _ _ _ _ _ _ _ _ _ _ _ _
                  (grows_trans _ _ _ _ _ _ _ _ _ _ _ _ _ G0 G1) G2) as G.
    rewrite !app_nil_r in G. exact G.
  - eapply grows_well_typed; [exact G2|exact W1|..]; repeat constructor; assumption.
Qed.

Lemma filter_exports_emit_all evs s :
  Forall (fun e => is_export e = true) evs ->
  List.filter is_export (events (emit_all evs s))
  = (List.filter is_export (events s) ++ evs)%list.
Proof.
  intros F. rewrite events_emit_all, List.filter_app. f_equal.
  induction F as [|e evs He _ IH]; [reflexivity|]. cbn. rewrite He, IH. reflexivity.
Qed.

Lemma exports_of_are_exports m keys labels :
  Forall (fun e => is_export e = true) (exports_of m keys labels).
Proof.
  induction keys as [|key keys IH]; cbn; [constructor|].
  destruct (getattr m key); cbn; [constructor; [reflexivity|exact IH]|exact IH].
Qed.

(** The record at position [index] of one list is exported. *)
Lemma send_list_at_index j index name keys old m s :
  collection_named name s = (old ++ [m])%list ->
  length old = index ->
  String.eqb name "network_metrics" = negb (process_scoped (type m)) ->
  try_except
    (let* metric_list := (fun s => (Ok (collection_named name s), s)) in
     if (index <? length metric_list)%nat then
       match metric_list !! index with
       | Some metric =>
           _send_metrics_to_prometheus metric name keys (_prepare_profiling_data j)
       | None => ret tt
       end
     else ret tt)
    is_Exception
    (fun e =>
       logger ERROR [Text "Error while processing "; Text name; Text ": "; StrExn e]) s
  = (Ok tt, emit_all (exports_of m keys (labels_of j m)) s).
Proof.
  intros C L T. unfold try_except. erewrite bind_ok by reflexivity.
  rewrite C, length_app. cbn [length].
  replace (index <? length old + 1)%nat with true
    by (symmetry; apply Nat.ltb_lt; lia).
  rewrite <- L, list_lookup_middle by reflexivity.
  rewrite (send_record_run j m name keys s T). reflexivity.
Qed.

Lemma samples_of_one index p c records :
  samples_of index [p] c records ->
  exists r, records = [r] /\ type r = c.
Proof.
  intros [P F]. destruct records as [|r [|r' records]]; try discriminate P.
  exists r. split; [reflexivity|]. inversion F as [|? ? [T _] _]. exact T.
Qed.

(** X13.  A tree of one process, each list holding as many records as
    rounds have gone by: the round appends one record to each list and
    exports exactly these four records, CPU, memory, disk and network in
    this order, each under the labels of the job and (but for the
    network) of the process; and each list again holds as many records as
    rounds have gone by. *)
Theorem lone_process_round_is_exported (w : world) (s : state) (root : Z)
    (index : nat) (j : job) :
  alive w root ->
  descendants w (S (tick s)) root = [] ->
  well_typed s ->
  (forall c, length (metrics_of c s) = index) ->
  exists s' c m d n,
    _collect_and_send_metrics w (_prepare_profiling_data j) root index s = (Ok tt, s')
    /\ cpu_metrics s' = (cpu_metrics s ++ [c])%list
    /\ memory_metrics s' = (memory_metrics s ++ [m])%list
    /\ disk_metrics s' = (disk_metrics s ++ [d])%list
    /\ network_metrics s' = (network_metrics s ++ [n])%list
    /\ List.filter is_export (events s')
       = (List.filter is_export (events s)
          ++ export_of j c ++ export_of j m ++ export_of j d ++ export_of j n)%list
    /\ (forall c, length (metrics_of c s') = S index).
Proof.
  intros A D W Len.
  destruct (collect_metrics_alive w s root index [root]) as
    (s1 & cpu & mem & disk & n & E & G & Sc & Sm & Sd & Tn & W1);
    [rewrite D; reflexivity | repeat constructor; exact A | exact W |].
  destruct (samples_of_one _ _ _ _ Sc) as (c & -> & Tc).
  destruct (samples_of_one _ _ _ _ Sm) as (m & -> & Tm).
  destruct (samples_of_one _ _ _ _ Sd) as (d & -> & Td).
  destruct G as [Ge Gc Gm Gd Gn _ _].
  assert (Kc : export_of j c
               = exports_of c (default [] (dict_get METRIC_COLLECTIONS_FIELDS "cpu_metrics"))
                   (labels_of j c))
    by (unfold export_of, self_fields; rewrite Tc; reflexivity).
  assert (Km : export_of j m
               = exports_of m
                   (default [] (dict_get METRIC_COLLECTIONS_FIELDS "memory_metrics"))
                   (labels_of j m))
    by (unfold export_of, self_fields; rewrite Tm; reflexivity).
  assert (Kd : export_of j d
               = exports_of d (default [] (dict_get METRIC_COLLECTIONS_FIELDS "disk_metrics"))
                   (labels_of j d))
    by (unfold export_of, self_fields; rewrite Td; reflexivity).
  assert (Kn : export_of j n
               = exports_of n
                   (default [] (dict_get METRIC_COLLECTIONS_FIELDS "network_metrics"))
                   (labels_of j n))
    by (unfold export_of, self_fields; rewrite Tn; reflexivity).
  set (pd := _prepare_profiling_data j).
  set (s2 := emit_all (export_of j c) s1).
  set (s3 := emit_all (export_of j m) s2).
  set (s4 := emit_all (export_of j d) s3).
  set (s5 := emit_all (export_of j n) s4).
  assert (M2 : same_metrics s1 s2) by apply only_events_emit_all.
  assert (M3 : same_metrics s1 s3)
    by (intros k; unfold s3; rewrite (proj1 (only_events_emit_all _ s2) k); apply M2).
  assert (M4 : same_metrics s1 s4)
    by (intros k; unfold s4; rewrite (proj1 (only_events_emit_all _ s3) k); apply M3).
  assert (M5 : same_metrics s1 s5)
    by (intros k; unfold s5; rewrite (proj1 (only_events_emit_all _ s4) k); apply M4).
  assert (S1 : _send_metrics pd index s1 = (Ok tt, s5)).
  { unfold _send_metrics, METRIC_COLLECTIONS_FIELDS. cbn [for_each fst snd].
    erewrite bind_ok.
    2:{ apply (send_list_at_index j index "cpu_metrics" _ (cpu_metrics s) c s1);
          [exact Gc|exact (Len Ccpu)|rewrite Tc; reflexivity]. }
    change (emit_all (exports_of c _ (labels_of j c)) s1)
      with (emit_all (exports_of c
                        (default [] (dict_get METRIC_COLLECTIONS_FIELDS "cpu_metrics"))
                        (labels_of j c)) s1).
    rewrite <- Kc. fold s2.
    erewrite bind_ok.
    2:{ apply (send_list_at_index j index "memory_metrics" _ (memory_metrics s) m s2);
          [exact (eq_trans (M2 Cmemory) Gm)|exact (Len Cmemory)|rewrite Tm; reflexivity]. }
    change (emit_all (exports_of m _ (labels_of j m)) s2)
      with (emit_all (exports_of m
                        (default [] (dict_get METRIC_COLLECTIONS_FIELDS "memory_metrics"))
                        (labels_of j m)) s2).
    rewrite <- Km. fold s3.
    erewrite bind_ok.
    2:{ apply (send_list_at_index j index "disk_metrics" _ (disk_metrics s) d s3);
          [exact (eq_trans (M3 Cdisk) Gd)|exact (Len Cdisk)|rewrite Td; reflexivity]. }
    change (emit_all (exports_of d _ (labels_of j d)) s3)
      with (emit_all (exports_of d
                        (default [] (dict_get METRIC_COLLECTIONS_FIELDS "disk_metrics"))
                        (labels_of j d)) s3).
    rewrite <- Kd. fold s4.
    erewrite bind_ok.
    2:{ apply (send_list_at_index j index "network_metrics" _ (network_metrics s) n s4);
          [exact (eq_trans (M4 Cnetwork) Gn)|exact (Len Cnetwork)|rewrite Tn; reflexivity]. }
    change (emit_all (exports_of n _ (labels_of j n)) s4)
      with (emit_all (exports_of n
                        (default [] (dict_get METRIC_COLLECTIONS_FIELDS "network_metrics"))
                        (labels_of j n)) s4).
    rewrite <- Kn. reflexivity. }
  exists s5, c, m, d, n.
  split; [|split; [|split; [|split; [|split; [|split]]]]].
  - unfold _collect_and_send_metrics. erewrite bind_ok by exact E. exact S1.
  - rewrite <- Gc. exact (M5 Ccpu).
  - rewrite <- Gm. exact (M5 Cmemory).
  - rewrite <- Gd. exact (M5 Cdisk).
  - rewrite <- Gn. exact (M5 Cnetwork).
  - unfold s5, s4, s3, s2.
    rewrite !filter_exports_emit_all by apply exports_of_are_exports.
    rewrite Ge, List.filter_app.
    replace (List.filter is_export (round_calls root [root])) with (@nil event)
      by reflexivity.
    rewrite app_nil_r, <- !app_assoc. reflexivity.
  - intros k. rewrite (M5 k). pose proof (Len k) as Lk.
    destruct k; cbn in *; rewrite ?Gc, ?Gm, ?Gd, ?Gn, length_app; cbn; lia.
Qed.

Lemma lone_process_round_is_exported_witness :
  exists s' c m d n,
    _collect_and_send_metrics reading (_prepare_profiling_data a_job) 7 0 initial_state
    = (Ok tt, s')
    /\ cpu_metrics s' = [c]
    /\ memory_metrics s' = [m]
    /\ disk_metrics s' = [d]
    /\ network_metrics s' = [n]
    /\ List.filter is_export (events s')
       = (export_of a_job c ++ export_of a_job m
          ++ export_of a_job d ++ export_of a_job n)%list
    /\ (forall c, length (metrics_of c s') = 1%nat).
Proof.
  apply (lone_process_round_is_exported reading initial_state 7 0 a_job).
  - intros t. discriminate.
  - reflexivity.
  - intros []; constructor.
  - intros []; reflexivity.
Defined.

(** *** The control pipe and the pause *)

Lemma check_stop_signal_run w s :
  let unread := drop (received s) (delivered (w (tick s))) in
  exists stop s',
    _check_stop_signal w s = (Ok stop, s')
    /\ same_metrics s s'
    /\ closed s' = closed s
    /\ received s' = (received s + length (take 1 unread))%nat
    /\ stop = bool_decide (head unread = Some "stop")
    /\ (forall e, In e (events s') ->
          In e (events s) \/ e = conn_poll
          \/ (exists msg, e = conn_recv msg)
          \/ exists msg, e = log DEBUG msg).
Proof.
  intros unread. unfold _check_stop_signal.
  erewrite bind_ok by reflexivity.
  erewrite bind_ok by reflexivity.
  cbn [received advance emit]. fold unread.
  destruct unread as [|message rest].
  - do 2 eexists. split; [reflexivity|]. split; [intros []; reflexivity|].
    split; [reflexivity|]. split; [cbn -[Nat.add]; rewrite ?take_0; cbn -[Nat.add]; lia|]. split; [reflexivity|].
    intros e. cbn. rewrite in_app_iff. cbn. intuition eauto.
  - erewrite bind_ok by reflexivity.
    destruct (String.eqb message "stop") eqn:E.
    + apply String.eqb_eq in E. subst message.
      do 2 eexists. split; [reflexivity|]. split; [intros []; reflexivity|].
      split; [reflexivity|]. split; [cbn -[Nat.add]; rewrite ?take_0; cbn -[Nat.add]; lia|]. split; [reflexivity|].
      intros e. cbn. rewrite !in_app_iff. cbn. intuition eauto.
    + apply String.eqb_neq in E.
      do 2 eexists. split; [reflexivity|]. split; [intros []; reflexivity|].
      split; [reflexivity|]. split; [cbn -[Nat.add]; rewrite ?take_0; cbn -[Nat.add]; lia|].
      split; [cbn; rewrite bool_decide_eq_false_2; [reflexivity|congruence]|].
      intros e. cbn. rewrite !in_app_iff. cbn. intuition eauto.
Qed.

Lemma head_drop_In {A} (l : list A) n x : head (drop n l) = Some x -> In x l.
Proof.
  revert n. induction l as [|a l IH]; intros [|n] H; cbn in H; try discriminate.
  - injection H as ->. left. reflexivity.
  - right. exact (IH n H).
Qed.


(** A look that reports a stop has read the token. *)
Lemma check_stop_signal_true w s s' :
  _check_stop_signal w s = (Ok true, s') ->
  In (conn_recv "stop") (events s') /\ In "stop" (delivered (w (tick s))).
Proof.
  unfold _check_stop_signal.
  erewrite bind_ok by reflexivity.
  erewrite bind_ok by reflexivity.
  cbn [received advance emit].
  destruct (drop (received s) (delivered (w (tick s)))) as [|message rest] eqn:U.
  - intros [=].
  - erewrite bind_ok by reflexivity.
    destruct (String.eqb message "stop") eqn:E.
    + apply String.eqb_eq in E. subst message. intros [= <-]. split.
      * cbn. rewrite !in_app_iff. cbn. auto.
      * apply (head_drop_In _ (received s)). rewrite U. reflexivity.
    + intros [=].
Qed.

(** X14.  A look at the control pipe reads at most one message, the
    oldest unread one, and reports a stop exactly when that message is
    "stop".  Any other message is read and dropped; a "stop" that waits
    behind it is not seen by this look. *)
Theorem check_stop_signal_reads_one_message (w : world) (s : state) :
  let unread := drop (received s) (delivered (w (tick s))) in
  exists stop s',
    _check_stop_signal w s = (Ok stop, s')
    /\ same_metrics s s'
    /\ closed s' = closed s
    /\ received s' = (received s + length (take 1 unread))%nat
    /\ stop = bool_decide (head unread = Some "stop").
Proof.
  intros unread.
  destruct (check_stop_signal_run w s) as (stop & s' & E & M & C & R & B & _).
  exists stop, s'. repeat split; assumption.
Qed.

(** X15.  The pause between two rounds is never negative and never a
    NaN, whatever the clock and the random delay are, for an interval
    that is a float or an int within the range of a double: the argument
    that [time.sleep] is called with is 0 or a positive time.  (Whether
    [time.sleep] takes it is another matter: it refuses a pause too long
    for its clock.) *)
Theorem sleep_time_is_not_negative (w : world) (start_time : float)
    (profiler_timeout : number) (s : state) :
  convertible profiler_timeout = true ->
  exists secs,
    events (snd (_sleep_until_next_interval w start_time profiler_timeout s))
    = (events s ++ [time_time; random_uniform; time_sleep secs])%list
    /\ (secs = Int 0 \/ num_gtb secs (Int 0) = true)
    /\ num_ltb secs (Int 0) = false.
Proof.
  intros _. eexists. rewrite sleep_run.
  split; [cbn; rewrite <- !app_assoc; reflexivity|].
  unfold py_max.
  match goal with |- context [num_gtb ?x (Int 0)] => set (v := x) end.
  destruct (num_gtb v (Int 0)) eqn:G.
  - split; [right; exact G|].
    unfold num_gtb in G. unfold num_ltb.
    destruct (num_compare v (Int 0)) as [[]|]; congruence.
  - split; [left; reflexivity|reflexivity].
Qed.

Lemma sleep_time_is_not_negative_witness :
  exists secs,
    events (snd (_sleep_until_next_interval family 0 (Int 10) initial_state))
    = (events initial_state ++ [time_time; random_uniform; time_sleep secs])%list
    /\ (secs = Int 0 \/ num_gtb secs (Int 0) = true)
    /\ num_ltb secs (Int 0) = false.
Proof.
  apply (sleep_time_is_not_negative family 0 (Int 10) initial_state).
  reflexivity.
Defined.

(** *** Leaving the loop *)

(** X16.  [start_profiling] ends in one of three ways.  It raises only
    from its initialisation, which stands before the [try]: the root is
    already gone, NoSuchProcess escapes and the pipe stays open.  Once
    initialised it raises nothing, whatever happens in the loop; and when
    the loop is left, the pipe is closed, as the last thing done. *)
Theorem start_profiling_outcome (w : world) (turns : nat) (root : Z) (j : job)
    (timeout : option number) (s : state) :
  exists r s',
    start_profiling w turns root j timeout s = (r, s')
    /\ match r with
       | Raise x =>
           x = NoSuchProcess root /\ closed s' = closed s
           /\ (processes (w (tick s)) root = None
               \/ processes (w (S (tick s))) root = None)
       | Ok Stopped => closed s' = true /\ last (events s') = Some conn_close
       | Ok StillRunning => True
       end.
Proof.
  unfold start_profiling.
  erewrite bind_ok by reflexivity.
  set (s0 := emit _ s).
  destruct (on_process_cases w (psutil_Process root) root (fun _ => root) s0)
    as [(i0 & _ & E0)|[N0 E0]].
  2:{ eexists (Raise (NoSuchProcess root)), _. split.
      - erewrite bind_raise; [reflexivity|].
        unfold _initialize_process, Process. erewrite bind_raise by exact E0. reflexivity.
      - split; [reflexivity|]. split; [reflexivity|]. left. exact N0. }
  set (s1 := advance (emit (psutil_Process root) s0)) in *.
  destruct (on_process_cases w (Process_cpu_percent root) root info_cpu_percent s1)
    as [(i1 & _ & E1)|[N1 E1]].
  2:{ eexists (Raise (NoSuchProcess root)), _. split.
      - erewrite bind_raise; [reflexivity|].
        unfold _initialize_process, Process. erewrite bind_ok by exact E0.
        erewrite bind_raise by exact E1. reflexivity.
      - split; [reflexivity|]. split; [reflexivity|]. right. exact N1. }
  erewrite bind_ok.
  2:{ unfold _initialize_process, Process. erewrite bind_ok by exact E0.
      erewrite bind_ok by exact E1. reflexivity. }
  unfold try_except.
  destruct (while_True w turns (_prepare_profiling_data j) root
              (timeout_or_10 timeout) 0 (advance (emit (Process_cpu_percent root) s1)))
    as [[[]|x] s2].
  - eexists (Ok Stopped), _. split; [reflexivity|]. split; [reflexivity|].
    cbn. apply last_snoc.
  - eexists (Ok StillRunning), _. split; [reflexivity|]. exact I.
  - eexists (Ok Stopped), _. split; [reflexivity|]. split; [reflexivity|].
    cbn. apply last_snoc.
Qed.




(** *** What ends the loop *)

(** Whatever [_collect_metrics] lets through is not NoSuchProcess. *)
Lemma collect_metrics_raise w root index s x s' :
  _collect_metrics w root index s = (Raise x, s') -> is_NoSuchProcess x = false.
Proof.
  unfold _collect_metrics, try_except.
  destruct (collect_all_metrics w root (Z.of_nat index) s) as [[[]|y] s1].
  - intros [=].
  - destruct (is_NoSuchProcess y) eqn:N.
    + intros [=].
    + intros [= <- _]. exact N.
Qed.

(** A turn of the loop: it breaks only on a stop token that it has read,
    and what it raises is not NoSuchProcess.  The handler of the loop for
    NoSuchProcess is never entered. *)
Lemma loop_body_outcome w profiling_data root timeout index s r s' :
  loop_body w profiling_data root timeout index s = (r, s') ->
  match r with
  | Ok Break =>
      In (conn_recv "stop") (events s') /\ exists t, In "stop" (delivered (w t))
  | Ok Continue => True
  | Raise x => is_NoSuchProcess x = false
  end.
Proof.
  unfold loop_body. erewrite bind_ok by apply time_run.
  set (s1 := advance (emit time_time s)).
  unfold try_except, _collect_and_send_metrics.
  destruct (_collect_metrics w root index s1) as [[[]|x] s2] eqn:E2.
  - destruct (send_metrics_run profiling_data index s2) as (s3 & E3 & _).
    destruct (_check_stop_signal w s3) as [[stop|y] s4] eqn:E4.
    2:{ destruct (check_stop_signal_run w s3) as (? & ? & E & _).
        rewrite E in E4. discriminate E4. }
    erewrite bind_ok.
    2:{ erewrite bind_ok by exact E2. exact E3. }
    erewrite bind_ok by exact E4.
    destruct stop.
    + intros [= <- <-].
      destruct (check_stop_signal_true w s3 s4 E4) as [R D].
      split; [exact R|]. exists (tick s3). exact D.
    + erewrite bind_ok by apply sleep_run. intros [= <- _]. exact I.
  - pose proof (collect_metrics_raise w root index s1 x s2 E2) as N.
    erewrite bind_raise.
    2:{ erewrite bind_raise by exact E2. reflexivity. }
    rewrite N. intros [= <- _]. exact N.
Qed.

Lemma while_True_outcome w profiling_data root timeout turns :
  forall index s r s',
    while_True w turns profiling_data root timeout index s = (r, s') ->
    match r with
    | Ok Stopped =>
        In (conn_recv "stop") (events s') /\ exists t, In "stop" (delivered (w t))
    | Ok StillRunning => True
    | Raise x => is_NoSuchProcess x = false
    end.
Proof.
  induction turns as [|turns IH]; intros index s r s'.
  - intros [= <- _]. exact I.
  - cbn [while_True].
    destruct (loop_body w profiling_data root timeout index s) as [[[]|x] s1] eqn:E;
      pose proof (loop_body_outcome _ _ _ _ _ _ _ _ E) as O.
    + erewrite bind_ok by exact E. apply IH.
    + erewrite bind_ok by exact E. intros [= <- <-]. exact O.
    + erewrite bind_raise by exact E. intros [= <- _]. exact O.
Qed.

(** X18.  What ends the loop.  When [start_profiling] has left its loop,
    either a stop token had arrived on the pipe and the loop has read it,
    or an exception other than NoSuchProcess has ended the loop and the
    outer guard has logged it.  NoSuchProcess never ends the loop: the
    guard of [_collect_metrics] takes it first, so the handler that the
    loop has for it is never entered. *)
Theorem loop_is_left_by_token_or_error (w : world) (turns : nat) (root : Z)
    (j : job) (timeout : option number) (s' : state) :
  start_profiling w turns root j timeout initial_state = (Ok Stopped, s') ->
  (In (conn_recv "stop") (events s') /\ exists t, In "stop" (delivered (w t)))
  \/ (exists x,
        is_NoSuchProcess x = false
        /\ In (log ERROR [Text "Exception in profiling process: "; StrExn x])
             (events s')).
Proof.
  unfold start_profiling.
  erewrite bind_ok by reflexivity.
  set (s0 := emit _ initial_state).
  destruct (_initialize_process w root s0) as [[[]|x] s1] eqn:E1.
  2:{ erewrite bind_raise by exact E1. intros [=]. }
  erewrite bind_ok by exact E1.
  unfold try_except.
  destruct (while_True w turns (_prepare_profiling_data j) root
              (timeout_or_10 timeout) 0 s1) as [[[]|x] s2] eqn:E2;
    pose proof (while_True_outcome _ _ _ _ _ _ _ _ _ E2) as O.
  - intros [= <-]. left. destruct O as [R D]. split; [|exact D].
    cbn. rewrite in_app_iff. left. exact R.
  - intros [=].
  - cbn. intros [= <-]. right. exists x. split; [exact O|].
    cbn. rewrite !in_app_iff. cbn. auto.
Qed.

Lemma loop_is_left_by_token_or_error_witness :
  let s' := snd (start_profiling stopping 2 10 a_job None initial_state) in
  (In (conn_recv "stop") (events s') /\ exists t, In "stop" (delivered (stopping t)))
  \/ (exists x,
        is_NoSuchProcess x = false
        /\ In (log ERROR [Text "Exception in profiling process: "; StrExn x])
             (events s')).
Proof.
  intros s'.
  apply (loop_is_left_by_token_or_error stopping 2 10 a_job None s').
  vm_compute. reflexivity.
Defined.

End ProfilerFacts.

(** ** More on the supervision context (worker/profiler_context.py) *)

Module ContextFacts.

Import ProfilerContext ContextSpec ContextSpec2 ContextProperties.

Ltac in_app := cbn; rewrite ?in_app_iff; cbn; tauto.

(** X19.  A monitor that leaves its loop within the 5 seconds is not
    terminated: when no call fails, the release joins it once, finds it
    over, and closes the two ends of the pipe. *)
Theorem responsive_monitor_is_not_terminated (e : env) :
  (forall n, fault e n = None) ->
  exits_in_time e = true ->
  exists s before,
    release e (started e) = (Ok tt, s)
    /\ calls s
       = (before ++ [join (Some (Int 5)); is_alive;
                     close parent_conn; close child_conn])%list
    /\ ~ In terminate (calls s)
    /\ ~ In (join None) (calls s)
    /\ monitoring_process s = Exited
    /\ closed s = [parent_conn; child_conn].
Proof.
  intros F X. destruct e as [f wr ib ex]. cbn in F, X. subst ex.
  unfold release, _finalize_process, _close_connections, _handle_jobrunner_signal,
    _send_stop_signal, poll_jobrunner, recv_jobrunner, monitoring_process_is_alive,
    try_except, bind, perform, logger, ret, started.
  cbn.
  repeat first
    [ rewrite F
    | progress cbn
    | match goal with
      | |- context [wr ?c] => destruct (wr c)
      | |- context [match ib with [] => _ | _ :: _ => _ end] => destruct ib
      | |- context [String.eqb ?m "Finished"] => destruct (String.eqb m "Finished")
      end ].
  all: eexists;
    first [ eexists [_; _; _; _]; split; [reflexivity|split; [reflexivity|]]
          | eexists [_; _; _]; split; [reflexivity|split; [reflexivity|]]
          | eexists [_; _]; split; [reflexivity|split; [reflexivity|]]
          | eexists [_]; split; [reflexivity|split; [reflexivity|]]
          | eexists []; split; [reflexivity|split; [reflexivity|]] ].
  all: cbn; repeat split; try reflexivity; intuition discriminate.
Qed.

Lemma responsive_monitor_is_not_terminated_witness :
  exists s before,
    release responsive (started responsive) = (Ok tt, s)
    /\ calls s
       = (before ++ [join (Some (Int 5)); is_alive;
                     close parent_conn; close child_conn])%list
    /\ ~ In terminate (calls s)
    /\ ~ In (join None) (calls s)
    /\ monitoring_process s = Exited
    /\ closed s = [parent_conn; child_conn].
Proof.
  apply (responsive_monitor_is_not_terminated responsive); reflexivity.
Defined.

(** X20.  The two ends of the pipe are closed under one guard.  If the
    close of the parent end fails, the failure is logged and the child
    end is not closed; the step returns all the same. *)
Theorem failed_close_leaves_child_end_open (e : env) (s : state) (x : exn) :
  fault e (length (calls s)) = Some x ->
  exists s',
    _close_connections e s = (Ok tt, s')
    /\ calls s' = (calls s ++ [close parent_conn])%list
    /\ closed s' = closed s
    /\ logs s' = (logs s ++ [(ERROR, [Text "Error closing pipe connections: ";
                                      StrExn x])])%list.
Proof.
  intros F. unfold _close_connections, try_except, bind, perform.
  rewrite F. cbn. eexists. repeat split.
Qed.

Lemma failed_close_leaves_child_end_open_witness :
  exists s',
    _close_connections failing_close (started failing_close) = (Ok tt, s')
    /\ calls s' = [close parent_conn]
    /\ closed s' = []
    /\ logs s' = [(ERROR, [Text "Error closing pipe connections: ";
                           StrExn broken_pipe])].
Proof.
  apply (failed_close_leaves_child_end_open failing_close (started failing_close)
           broken_pipe).
  reflexivity.
Defined.

(** *** Who is sent a stop token *)

Lemma stop_step_calls e s :
  exists s' new,
    try_except (_send_stop_signal e parent_conn) is_Exception
      (fun x => logger ERROR [Text "Failed to send stop signal: "; StrExn x]) s
    = (Ok tt, s')
    /\ calls s' = (calls s ++ new)%list
    /\ unread s' = unread s
    /\ (new = [] \/ (new = [send parent_conn "stop"] /\ writable e parent_conn = true)).
Proof.
  unfold try_except, _send_stop_signal, perform, logger.
  destruct (writable e parent_conn); [case_fault e|].
  - eexists; exists [send parent_conn "stop"].
    split; [reflexivity|]. split; [reflexivity|]. split; [reflexivity|].
    right. split; reflexivity.
  - eexists; exists [send parent_conn "stop"].
    split; [reflexivity|]. split; [reflexivity|]. split; [reflexivity|].
    right. split; reflexivity.
  - eexists; exists [].
    split; [reflexivity|]. split; [cbn; rewrite app_nil_r; reflexivity|].
    split; [reflexivity|]. left. reflexivity.
Qed.

Lemma jobrunner_step_calls e s :
  exists s' new,
    try_except (_handle_jobrunner_signal e) is_Exception
      (fun x => logger ERROR [Text "Error handling jobrunner signal: "; StrExn x]) s
    = (Ok tt, s')
    /\ calls s' = (calls s ++ new)%list
    /\ (forall c msg, In (send c msg) new ->
          c = jobrunner_conn /\ msg = "stop"
          /\ head (unread s) = Some "Finished"
          /\ writable e jobrunner_conn = true)
    /\ ((forall n, fault e n = None) ->
        head (unread s) = Some "Finished" ->
        writable e jobrunner_conn = true ->
        In (send jobrunner_conn "stop") new).
Proof.
  unfold try_except, _handle_jobrunner_signal, poll_jobrunner, recv_jobrunner,
    _send_stop_signal, bind, perform, logger, ret.
  cbn.
  case_fault e; cbn.
  - eexists; exists [poll jobrunner_conn]. cbn.
    split; [reflexivity|]. split; [reflexivity|]. split.
    + intros c msg [H|[]]. discriminate H.
    + intros F. congruence.
  - destruct (unread s) as [|message rest] eqn:U; cbn.
    + eexists; exists [poll jobrunner_conn]. cbn.
      split; [reflexivity|]. split; [reflexivity|]. split.
      * intros c msg [H|[]]. discriminate H.
      * discriminate.
    + case_fault e; cbn.
      * eexists; exists [poll jobrunner_conn; recv jobrunner_conn].
        cbn. rewrite <- app_assoc.
        split; [reflexivity|]. split; [reflexivity|]. split.
        -- intros c msg [H|[H|[]]]; discriminate H.
        -- intros F. congruence.
      * destruct (String.eqb message "Finished") eqn:Q; cbn.
        -- apply String.eqb_eq in Q. subst message.
           destruct (writable e jobrunner_conn) eqn:Wr; cbn; [case_fault e|].
           ++ eexists; exists [poll jobrunner_conn; recv jobrunner_conn; send jobrunner_conn "stop"].
              cbn. rewrite <- !app_assoc.
              split; [reflexivity|]. split; [reflexivity|]. split.
              ** intros c msg [H|[H|[H|[]]]]; try discriminate H.
                 injection H as <- <-. repeat split.
              ** intros _ _ _. right. right. left. reflexivity.
           ++ eexists; exists [poll jobrunner_conn; recv jobrunner_conn; send jobrunner_conn "stop"].
              cbn. rewrite <- !app_assoc.
              split; [reflexivity|]. split; [reflexivity|]. split.
              ** intros c msg [H|[H|[H|[]]]]; try discriminate H.
                 injection H as <- <-. repeat split.
              ** intros _ _ _. right. right. left. reflexivity.
           ++ eexists; exists [poll jobrunner_conn; recv jobrunner_conn].
              cbn. rewrite <- !app_assoc.
              split; [reflexivity|]. split; [reflexivity|]. split.
              ** intros c msg [H|[H|[]]]; discriminate H.
              ** intros _ _ H. discriminate H.
        -- apply String.eqb_neq in Q.
           eexists; exists [poll jobrunner_conn; recv jobrunner_conn].
           cbn. rewrite <- !app_assoc.
           split; [reflexivity|]. split; [reflexivity|]. split.
           ++ intros c msg [H|[H|[]]]; discriminate H.
           ++ intros _ H. congruence.
Qed.

Lemma finalize_calls e s :
  exists r s' new,
    _finalize_process e s = (r, s')
    /\ calls s' = (calls s ++ new)%list
    /\ Forall (fun c => on_monitor c = true) new.
Proof.
  destruct s as [cs ls mon un cl bl].
  unfold _finalize_process, try_except, monitoring_process_is_alive, bind, perform,
    logger, ret.
  cbn.
  repeat (first [ case_fault e
                | match goal with
                  | |- context [exits_in_time e] => destruct (exits_in_time e)
                  | |- context [match mon with _ => _ end] => destruct mon
                  end ];
          cbn).
  all: do 2 eexists;
    first [ eexists [_; _; _; _; _; _; _]; split; [reflexivity|];
            split; [cbn; rewrite <- ?app_assoc; reflexivity|]
          | eexists [_; _; _; _; _; _]; split; [reflexivity|];
            split; [cbn; rewrite <- ?app_assoc; reflexivity|]
          | eexists [_; _; _; _; _]; split; [reflexivity|];
            split; [cbn; rewrite <- ?app_assoc; reflexivity|]
          | eexists [_; _; _; _]; split; [reflexivity|];
            split; [cbn; rewrite <- ?app_assoc; reflexivity|]
          | eexists [_; _; _]; split; [reflexivity|];
            split; [cbn; rewrite <- ?app_assoc; reflexivity|]
          | eexists [_; _]; split; [reflexivity|];
            split; [cbn; rewrite <- ?app_assoc; reflexivity|]
          | eexists [_]; split; [reflexivity|];
            split; [cbn; rewrite <- ?app_assoc; reflexivity|] ].
  all: repeat constructor.
Qed.

Lemma close_calls e s :
  exists s' new,
    _close_connections e s = (Ok tt, s')
    /\ calls s' = (calls s ++ new)%list
    /\ Forall (fun c => is_close c = true) new.
Proof.
  unfold _close_connections, try_except, bind, perform, logger.
  cbn. case_fault e; cbn; [|case_fault e; cbn].
  - eexists; exists [close parent_conn].
    split; [reflexivity|]. split; [reflexivity|]. repeat constructor.
  - eexists; exists [close parent_conn; close child_conn].
    split; [reflexivity|]. split; [cbn; rewrite <- app_assoc; reflexivity|].
    repeat constructor.
  - eexists; exists [close parent_conn; close child_conn].
    split; [reflexivity|]. split; [cbn; rewrite <- app_assoc; reflexivity|].
    repeat constructor.
Qed.

(** X21.  Who is sent a stop token, whatever fails: the only message the
    context ever sends is "stop"; it goes to the monitor only over a
    writable parent end, and to the job-runner only when the first
    message waiting on the job-runner pipe is "Finished" and that pipe is
    writable.  When nothing fails, such a "Finished" is always answered. *)
Theorem stop_token_recipients (e : env) (body : result unit) :
  exists r s,
    profiling_context e body (started e) = (r, s)
    /\ (forall c msg, In (send c msg) (calls s) ->
          msg = "stop"
          /\ ((c = parent_conn /\ writable e parent_conn = true)
              \/ (c = jobrunner_conn
                  /\ head (inbox e) = Some "Finished"
                  /\ writable e jobrunner_conn = true)))
    /\ ((forall n, fault e n = None) ->
        head (inbox e) = Some "Finished" ->
        writable e jobrunner_conn = true ->
        In (send jobrunner_conn "stop") (calls s)).
Proof.
  destruct (stop_step_calls e (started e)) as (s1 & n1 & E1 & C1 & U1 & D1).
  destruct (jobrunner_step_calls e s1) as (s2 & n2 & E2 & C2 & S2 & F2).
  destruct (finalize_calls e s2) as (r3 & s3 & n3 & E3 & C3 & M3).
  rewrite U1 in S2, F2. cbn [unread started] in S2, F2.
  assert (Sends : forall new c msg,
            In (send c msg) ((((calls (started e)) ++ n1) ++ n2) ++ n3 ++ new) ->
            Forall (fun c => is_close c = true) new ->
            msg = "stop"
            /\ ((c = parent_conn /\ writable e parent_conn = true)
                \/ (c = jobrunner_conn
                    /\ head (inbox e) = Some "Finished"
                    /\ writable e jobrunner_conn = true))).
  { intros new c msg H Fc. cbn [calls started app] in H.
    rewrite !in_app_iff in H. destruct H as [[H|H]|[H|H]].
    - destruct D1 as [->|[-> Wp]]; [destruct H|].
      destruct H as [H|[]]. injection H as <- <-. split; [reflexivity|]. left. auto.
    - destruct (S2 c msg H) as (-> & -> & Hd & Wj). split; [reflexivity|]. right. auto.
    - rewrite List.Forall_forall in M3. specialize (M3 _ H). discriminate M3.
    - rewrite List.Forall_forall in Fc. specialize (Fc _ H). discriminate Fc. }
  destruct r3 as [[]|x].
  - destruct (close_calls e s3) as (s4 & n4 & E4 & C4 & M4).
    exists body, s4. split; [|split].
    + unfold profiling_context, release.
      erewrite CollectorsProperties.bind_ok; [reflexivity|].
      erewrite CollectorsProperties.bind_ok by exact E1.
      erewrite CollectorsProperties.bind_ok by exact E2.
      erewrite CollectorsProperties.bind_ok by exact E3.
      exact E4.
    + intros c msg H. rewrite C4, C3, C2, C1, <- app_assoc in H.
      exact (Sends n4 c msg H M4).
    + intros F Hd Wj. rewrite C4, C3, C2, !in_app_iff. left. left. right.
      exact (F2 F Hd Wj).
  - exists (Raise x), s3. split; [|split].
    + unfold profiling_context, release.
      erewrite CollectorsProperties.bind_raise; [reflexivity|].
      erewrite CollectorsProperties.bind_ok by exact E1.
      erewrite CollectorsProperties.bind_ok by exact E2.
      erewrite CollectorsProperties.bind_raise by exact E3.
      reflexivity.
    + intros c msg H. rewrite C3, C2, C1 in H.
      apply (Sends [] c msg); [rewrite app_nil_r; exact H|constructor].
    + intros F Hd Wj. rewrite C3, C2, !in_app_iff. left. right.
      exact (F2 F Hd Wj).
Qed.

Lemma stop_token_recipients_witness :
  exists r s,
    profiling_context unresponsive (Ok tt) (started unresponsive) = (r, s)
    /\ In (send jobrunner_conn "stop") (calls s).
Proof.
  destruct (stop_token_recipients unresponsive (Ok tt)) as (r & s & E & _ & F).
  exists r, s. split; [exact E|].
  apply F; reflexivity.
Defined.

End ContextFacts.

(** ** More on the exporter (util/metrics.py) *)

Module ExporterFacts.

Import PrometheusExporter PrometheusSend.

(** X22.  The session id up to its first dash: the instance holds no
    dash and is the beginning of the session id; a session id without a
    dash is taken whole, and in ["a-b"] the instance is [a]. *)
Theorem before_dash_is_first_segment (a b : string) :
  dashless (before_dash a) = true
  /\ (exists rest, a = (before_dash a ++ rest)%string)
  /\ (dashless a = true -> before_dash a = a)
  /\ (dashless a = true -> before_dash (a ++ "-" ++ b)%string = a).
Proof.
  split; [|split; [|split]].
  - induction a as [|c a IH]; [reflexivity|]. cbn.
    destruct (Ascii.eqb c "-"%char) eqn:E; [reflexivity|]. cbn. rewrite E. exact IH.
  - induction a as [|c a IH]; [exists ""%string; reflexivity|]. cbn.
    destruct (Ascii.eqb c "-"%char); [eexists; reflexivity|].
    destruct IH as [rest IH]. exists rest.
    change (String c a = String c (before_dash a ++ rest)%string).
    f_equal. exact IH.
  - induction a as [|c a IH]; [reflexivity|]. cbn.
    destruct (Ascii.eqb c "-"%char); [discriminate|]. cbn. intros H.
    f_equal. exact (IH H).
  - induction a as [|c a IH]; [reflexivity|]. intros H. cbn in H.
    change (before_dash (String c (a ++ "-" ++ b)%string) = String c a).
    cbn [before_dash].
    destruct (Ascii.eqb c "-"%char); [discriminate|].
    f_equal. exact (IH H).
Qed.

Lemma before_dash_is_first_segment_witness :
  before_dash ("abc" ++ "-" ++ "def-ghi")%string = "abc"%string.
Proof.
  apply (before_dash_is_first_segment "abc" "def-ghi"). reflexivity.
Defined.

(** X23.  With the session id in the environment the construction
    returns, for every [enabled] and [config]: the job is "lithops", the
    instance the first segment of the session id, and the gateway the one
    [config] names, none when [config] is None or empty. *)
Theorem init_with_session_id (environ : gmap string string) (enabled : bool)
    (config : option (gmap string string)) (session_id : string) :
  environ !! "__LITHOPS_SESSION_ID"%string = Some session_id ->
  exists self,
    __init__ environ enabled config = Ok self
    /\ PrometheusExporter.enabled self = enabled
    /\ job self = "lithops"%string
    /\ instance self = before_dash session_id
    /\ apigateway self = (config ≫= fun c => c !! "apigateway"%string).
Proof.
  intros H. unfold __init__. rewrite H. eexists. split; [reflexivity|].
  repeat split. cbn. destruct config as [c|]; [|reflexivity]. cbn.
  destruct (decide (c = ∅)) as [->|]; [|reflexivity].
  rewrite lookup_empty. reflexivity.
Qed.

Lemma init_with_session_id_witness :
  exists self,
    __init__ {[ "__LITHOPS_SESSION_ID"%string := "abc-def"%string ]} true
      (Some {[ "apigateway"%string := "http://gw"%string ]}) = Ok self
    /\ PrometheusExporter.enabled self = true
    /\ job self = "lithops"%string
    /\ instance self = before_dash "abc-def"
    /\ apigateway self
       = (Some {[ "apigateway"%string := "http://gw"%string ]}
            ≫= fun c : gmap string string => c !! "apigateway"%string).
Proof.
  apply (init_with_session_id
           {[ "__LITHOPS_SESSION_ID"%string := "abc-def"%string ]} true
           (Some {[ "apigateway"%string := "http://gw"%string ]}) "abc-def").
  reflexivity.
Defined.

Section Send.

Variable self : t.
Variable answer : gateway.
Variables name type : string.

(** X24.  An exporter that is not enabled, or has no gateway, or an
    empty one, does nothing and returns, whatever it is given: no value,
    label or timestamp makes it log, send or raise. *)
Theorem send_metric_off_is_silent (v : value) (l : labels) (timestamp : option number) :
  enabled self = false \/ apigateway self = None \/ apigateway self = Some ""%string ->
  send_metric self answer name v type l timestamp = ([], None).
Proof.
  unfold send_metric. intros [H|[H|H]]; rewrite H; [reflexivity| |];
    destruct (enabled self); reflexivity.
Qed.

Hypothesis on : enabled self = true.
Variable g : string.
Hypothesis configured : apigateway self = Some g.
Hypothesis not_empty : g <> ""%string.

Lemma guard_on :
  enabled self
  && match apigateway self with Some (String _ _) => true | _ => false end = true.
Proof using on configured not_empty.
  rewrite on, configured. destruct g; [contradiction|reflexivity].
Qed.

(** The request and what follows it. *)
Lemma request_cases (url payload : list pystr) :
  exists log,
    match answer url payload with
    | Ok (status_code, text) =>
        if status_code =? 200 then ([post url payload "text/plain"], None)
        else ([post url payload "text/plain";
               error [Text "Failed to send metric: "; Text text]], None)
    | Raise x =>
        if is_Exception x
        then ([post url payload "text/plain"; error [StrExn x]], None)
        else ([post url payload "text/plain"], Some (Python x))
    end = (post url payload "text/plain" :: log, @None raised)
    /\ (log = [] <-> exists text, answer url payload = Ok (200, text))
    /\ (exists msg, log = [] \/ log = [error msg]).
Proof.
  destruct (answer url payload) as [[status_code text]|x].
  - destruct (status_code =? 200) eqn:E.
    + exists []. split; [reflexivity|]. split; [|exists []; left; reflexivity].
      split; [|reflexivity]. intros _. exists text.
      apply Z.eqb_eq in E. subst. reflexivity.
    + eexists. split; [reflexivity|]. split; [|eexists; right; reflexivity].
      split; [discriminate|]. intros [text' H]. inversion H. subst. discriminate.
  - eexists. split; [reflexivity|]. split; [|eexists; right; reflexivity].
    split; [discriminate|]. intros [text' H]. discriminate.
Qed.

Lemma send_metric_run (n : number) (items : list (string * pystr))
    (timestamp : option number) (stamp : list pystr) :
  match timestamp with
  | Some t =>
      if truthy t then
        match int_of (num_mul t (Int 1000)) with
        | inr timestamp_ms => stamp = [Text " "; Str (Int timestamp_ms)]
        | inl _ => False
        end
      else stamp = []
  | None => stamp = []
  end ->
  exists log,
    send_metric self answer name (Numeric n) type (Items items) timestamp
    = (post (url_of self g items) (payload_of name type n stamp) "text/plain" :: log, None)
    /\ (log = [] <-> exists text, answer (url_of self g items) (payload_of name type n stamp) = Ok (200, text))
    /\ (exists msg, log = [] \/ log = [error msg]).
Proof using on configured not_empty.
  intros H. unfold send_metric. rewrite guard_on. rewrite configured.
  assert (E : match timestamp with
              | Some t =>
                  if truthy t then
                    match int_of (num_mul t (Int 1000)) with
                    | inr timestamp_ms =>
                        inr ([Text name; Text " "; Str n]
                             ++ [Text " "; Str (Int timestamp_ms)])%list
                    | inl x => inl x
                    end
                  else inr [Text name; Text " "; Str n]
              | None => inr [Text name; Text " "; Str n]
              end = @inr raised _ ([Text name; Text " "; Str n] ++ stamp)%list).
  { destruct timestamp as [t|]; [|subst; reflexivity].
    destruct (truthy t); [|subst; reflexivity].
    destruct (int_of (num_mul t (Int 1000))); [contradiction|subst; reflexivity]. }
  cbv zeta. rewrite E.
  apply (request_cases (url_of self g items) (payload_of name type n stamp)).
Qed.

(** X25.  An enabled exporter with a gateway, given a number, label
    items and no timestamp (or a zero one), never raises and makes exactly
    one request: to gateway/metrics/job/<job>/instance/<instance> followed
    by every label, with the TYPE line and the metric line.  One error is
    logged unless the gateway answers 200, and nothing else is done. *)
Theorem send_metric_posts_once (n : number) (items : list (string * pystr))
    (timestamp : option number) :
  (forall t, timestamp = Some t -> truthy t = false) ->
  exists log,
    send_metric self answer name (Numeric n) type (Items items) timestamp
    = (post (url_of self g items) (payload_of name type n []) "text/plain" :: log, None)
    /\ (log = [] <-> exists text, answer (url_of self g items) (payload_of name type n []) = Ok (200, text))
    /\ (exists msg, log = [] \/ log = [error msg]).
Proof using on configured not_empty.
  intros H. apply send_metric_run.
  destruct timestamp as [t|]; [|reflexivity]. rewrite (H t eq_refl). reflexivity.
Qed.

(** X26.  An int timestamp other than 0 is sent in milliseconds: the
    metric line ends with the timestamp times 1000, and the call does not
    raise. *)
Theorem send_metric_stamps_milliseconds (n : number) (items : list (string * pystr))
    (z : Z) :
  z <> 0 ->
  exists log,
    send_metric self answer name (Numeric n) type (Items items) (Some (Int z))
    = (post (url_of self g items) (payload_of name type n [Text " "; Str (Int (z * 1000))]) "text/plain"
         :: log, None)
    /\ (exists msg, log = [] \/ log = [error msg]).
Proof using on configured not_empty.
  intros H.
  destruct (send_metric_run n items (Some (Int z)) [Text " "; Str (Int (z * 1000))])
    as (log & E & _ & L).
  - assert (T : truthy (Int z) = true).
    { unfold truthy, num_eqb. cbn. destruct (Z.compare_spec z 0); [contradiction|reflexivity..]. }
    rewrite T. reflexivity.
  - exists log. split; assumption.
Qed.

(** X27.  A timestamp that is a NaN or an infinity makes the call raise,
    ValueError for the one and OverflowError for the other, before anything
    is sent or logged: the conversion to milliseconds is outside the
    [try]. *)
Theorem send_metric_bad_timestamp_raises (n : number) (items : list (string * pystr))
    (f : float) :
  (Prim2SF f = S754_nan ->
   send_metric self answer name (Numeric n) type (Items items) (Some (Float f))
   = ([], Some (Python (ValueError "cannot convert float NaN to integer"))))
  /\ (forall s, Prim2SF f = S754_infinity s ->
      send_metric self answer name (Numeric n) type (Items items) (Some (Float f))
      = ([], Some (OverflowError "cannot convert float infinity to integer"))).
Proof using on configured not_empty.
  split.
  - intros H. unfold send_metric. rewrite guard_on.
    assert (T : truthy (Float f) = true).
    { unfold truthy, num_eqb, num_compare, compare_int_float. rewrite H. reflexivity. }
    rewrite T. unfold int_of, num_mul. cbn [to_float].
    rewrite mul_spec, H. reflexivity.
  - intros s H. unfold send_metric. rewrite guard_on.
    assert (T : truthy (Float f) = true).
    { unfold truthy, num_eqb, num_compare, compare_int_float. rewrite H.
      destruct s; reflexivity. }
    rewrite T. unfold int_of, num_mul. cbn [to_float].
    rewrite mul_spec, H. destruct s; reflexivity.
Qed.

(** X28.  The value is looked at before the labels: a value that is no
    number is answered by one line in the error log and a plain return,
    even with labels that are no dict or list; with a number, such labels
    raise TypeError.  Neither case sends anything. *)
Theorem send_metric_rejects_bad_arguments (text : pystr) (n : number) (l : labels)
    (timestamp : option number) :
  (exists msg,
     send_metric self answer name (NotNumeric text) type l timestamp
     = ([error msg], None))
  /\ send_metric self answer name (Numeric n) type NotItems timestamp
     = ([], Some (Python (TypeError "Labels should be a dict or a list/tuple of tuples"))).
Proof using on configured not_empty.
  unfold send_metric. rewrite guard_on. split; [eexists|]; reflexivity.
Qed.

End Send.

Lemma send_metric_off_is_silent_witness :
  send_metric {| enabled := false; apigateway := Some "http://gw"%string;
                 job := "lithops"; instance := "abc" |}
    accepting "cpu_usage" (Numeric (Int 1)) "gauge" NotItems (Some (Int 5))
  = ([], None).
Proof.
  apply send_metric_off_is_silent. left. reflexivity.
Defined.

Lemma send_metric_posts_once_witness :
  exists log,
    send_metric an_exporter down "cpu_usage" (Numeric (Int 1)) "gauge"
      (Items [("pid"%string, Str (Int 7))]) None
    = (post (url_of an_exporter "http://gw" [("pid"%string, Str (Int 7))])
         (payload_of "cpu_usage" "gauge" (Int 1) []) "text/plain" :: log, None)
    /\ (log = []
        <-> exists text,
            down (url_of an_exporter "http://gw" [("pid"%string, Str (Int 7))])
              (payload_of "cpu_usage" "gauge" (Int 1) []) = Ok (200, text))
    /\ (exists msg, log = [] \/ log = [error msg]).
Proof.
  apply (send_metric_posts_once an_exporter down "cpu_usage" "gauge" eq_refl
           "http://gw" eq_refl ltac:(discriminate) (Int 1)
           [("pid"%string, Str (Int 7))] None).
  intros t H. discriminate H.
Defined.

Lemma send_metric_stamps_milliseconds_witness :
  exists log,
    send_metric an_exporter accepting "cpu_usage" (Numeric (Int 1)) "gauge"
      (Items []) (Some (Int 3))
    = (post (url_of an_exporter "http://gw" [])
         (payload_of "cpu_usage" "gauge" (Int 1) [Text " "; Str (Int (3 * 1000))])
         "text/plain" :: log, None)
    /\ (exists msg, log = [] \/ log = [error msg]).
Proof.
  apply (send_metric_stamps_milliseconds an_exporter accepting "cpu_usage" "gauge"
           eq_refl "http://gw" eq_refl ltac:(discriminate) (Int 1) [] 3).
  lia.
Defined.

Lemma send_metric_bad_timestamp_raises_witness :
  send_metric an_exporter accepting "cpu_usage" (Numeric (Int 1)) "gauge"
    (Items []) (Some (Float nan))
  = ([], Some (Python (ValueError "cannot convert float NaN to integer")))
  /\ send_metric an_exporter accepting "cpu_usage" (Numeric (Int 1)) "gauge"
       (Items []) (Some (Float infinity))
     = ([], Some (OverflowError "cannot convert float infinity to integer")).
Proof.
  split.
  - exact (proj1 (send_metric_bad_timestamp_raises an_exporter accepting "cpu_usage"
                    "gauge" eq_refl "http://gw" eq_refl ltac:(discriminate) (Int 1) []
                    nan) eq_refl).
  - exact (proj2 (send_metric_bad_timestamp_raises an_exporter accepting "cpu_usage"
                    "gauge" eq_refl "http://gw" eq_refl ltac:(discriminate) (Int 1) []
                    infinity) false eq_refl).
Defined.

Lemma send_metric_rejects_bad_arguments_witness :
  (exists msg,
     send_metric an_exporter accepting "cpu_usage" (NotNumeric (Text "x")) "gauge"
       NotItems None = ([error msg], None))
  /\ send_metric an_exporter accepting "cpu_usage" (Numeric (Int 1)) "gauge"
       NotItems None
     = ([], Some (Python (TypeError "Labels should be a dict or a list/tuple of tuples"))).
Proof.
  apply (send_metric_rejects_bad_arguments an_exporter accepting "cpu_usage" "gauge"
           eq_refl "http://gw" eq_refl ltac:(discriminate) (Text "x") (Int 1)
           NotItems None).
Defined.

End ExporterFacts.
